(** * dba_to_ngdac_profile_nc: a shallow embedding of [scripts/dba_to_ngdac_profile_nc.py]

    The script converts Slocum glider dba files into one NetCDF file per
    detected profile.  Its [main] is embedded below as a function in a small
    state-and-exception monad over an explicit world (file system, standard
    output, log, the writer object and a trace of the calls that were made).
    The libraries the script calls (the dba reader, the segmenter, the CTD
    formulas, the NetCDF writer, [datetime]) are not part of the script: they
    are collected in the record [externals].

    Python semantics assumed: Python 3 ([IOError] is [OSError]; the format
    code [s] applied to an object that is not a string raises [TypeError]). *)

From Stdlib Require Import ZArith Floats Uint63 Ascii Sorted.
From stdpp Require Import gmap strings list pretty.

Local Open Scope Z_scope.
Local Open Scope string_scope.
Local Open Scope list_scope.

(** ** Floating-point values (numpy float64) *)

Module Np.

Definition isnan (x : float) : bool := PrimFloat.is_nan x.

(** [x <= y] and [x >= y] on float64: false as soon as one side is NaN. *)
Definition le (x y : float) : bool := PrimFloat.leb x y.
Definition ge (x y : float) : bool := PrimFloat.leb y x.

Definition float_of_nat (n : nat) : float :=
  PrimFloat.of_uint63 (Uint63.of_Z (Z.of_nat n)).

(** [np.nanmean]: NaN entries are replaced by zero and summed, the sum is
    divided by the number of entries that are not NaN (0/0 = NaN when there
    is none).  The sum is taken left to right; rows of the segmenter's
    result hold a start and an end time. *)
Definition nan_to_zero (x : float) : float :=
  if isnan x then PrimFloat.zero else x.

Definition nansum (l : list float) : float :=
  fold_left (fun acc x => PrimFloat.add acc (nan_to_zero x)) l PrimFloat.zero.

Definition count_valid (l : list float) : nat :=
  length (filter (fun x => isnan x = false) l).

Definition nanmean (l : list float) : float :=
  PrimFloat.div (nansum l) (float_of_nat (count_valid l)).

(** [np.all(np.isnan(col))] *)
Definition all_isnan (col : list float) : bool := forallb isnan col.

(** [np.flatnonzero(np.logical_and(ts >= p0, ts <= p1))]: the positions,
    in increasing order, of the timestamps inside the closed interval. *)
Definition in_interval (p0 p1 t : float) : bool := ge t p0 && le t p1.

Fixpoint flatnonzero_from (i : nat) (mask : list bool) : list nat :=
  match mask with
  | [] => []
  | b :: mask' =>
      if b then i :: flatnonzero_from (S i) mask'
      else flatnonzero_from (S i) mask'
  end.

Definition flatnonzero (mask : list bool) : list nat := flatnonzero_from 0 mask.

(** Line 153: [p_inds]. *)
Definition rows_between (ts : list float) (p0 p1 : float) : list nat :=
  flatnonzero (map (in_interval p0 p1) ts).

(** A two-dimensional array, kept column by column: every use the script
    makes of one ([a[:, j]], [a[inds, j]], [np.append(.., axis=1)],
    [a[:, j] = v]) addresses a column.  [nrows] is [a.shape[0]]; a
    well-formed array has [nrows] entries in every column. *)
Record ndarray := { nrows : nat; columns : list (list float) }.

Definition ncols (a : ndarray) : nat := length (columns a).

Definition wf (a : ndarray) : Prop :=
  Forall (fun c => length c = nrows a) (columns a).

(** [np.append(a, np.expand_dims(col, axis=1), axis=1)]: [None] stands for
    the [ValueError] numpy raises when the row counts differ. *)
Definition append_column (a : ndarray) (col : list float) : option ndarray :=
  if decide (length col = nrows a)
  then Some {| nrows := nrows a; columns := columns a ++ [col] |}
  else None.

(** [a[:, j] = v]: [v] is broadcast when it has a single entry; [None]
    stands for the [IndexError] (no such column) or [ValueError] (shape
    mismatch) numpy raises. *)
Definition set_column (a : ndarray) (j : nat) (v : list float) : option ndarray :=
  if decide (j < ncols a)%nat then
    if decide (length v = nrows a)
    then Some {| nrows := nrows a; columns := <[j := v]> (columns a) |}
    else match v with
         | [x] => Some {| nrows := nrows a;
                          columns := <[j := replicate (nrows a) x]> (columns a) |}
         | _ => None
         end
  else None.

(** [a[:, j]] *)
Definition column (a : ndarray) (j : nat) : option (list float) := columns a !! j.

(** [col[inds]]: fancy indexing with a list of positions. *)
Fixpoint take_at (col : list float) (inds : list nat) : option (list float) :=
  match inds with
  | [] => Some []
  | i :: inds' =>
      match col !! i, take_at col inds' with
      | Some x, Some xs => Some (x :: xs)
      | _, _ => None
      end
  end.

(** [a[inds, j]] *)
Definition rows_of_column (a : ndarray) (inds : list nat) (j : nat) : option (list float) :=
  match column a j with
  | Some col => take_at col inds
  | None => None
  end.

(** [int(x)] for a float: truncation toward zero; [None] for NaN and the
    infinities, where Python raises. *)
Definition int_of_float (x : float) : option Z :=
  match Prim2SF x with
  | S754_zero _ => Some 0
  | S754_finite s m e =>
      let v := if (0 <=? e)%Z then Z.pos m * 2 ^ e else Z.pos m / 2 ^ (- e) in
      Some (if s then - v else v)
  | S754_infinity _ | S754_nan => None
  end.

End Np.

(** ** Paths ([os.path], POSIX flavour) *)

Module OsPath.

Definition slash : ascii := "/"%char.

Definition starts_with_slash (s : string) : bool :=
  match s with
  | String c _ => bool_decide (c = slash)
  | EmptyString => false
  end.

Fixpoint ends_with_slash (s : string) : bool :=
  match s with
  | EmptyString => false
  | String c EmptyString => bool_decide (c = slash)
  | String _ s' => ends_with_slash s'
  end.

(** [os.path.join(a, b)] *)
Definition join (a b : string) : string :=
  if starts_with_slash b then b
  else if bool_decide (a = "") || ends_with_slash a then a +:+ b
  else a +:+ "/" +:+ b.

(** [os.path.basename(p)]: what follows the last slash. *)
Fixpoint basename (p : string) : string :=
  match p with
  | EmptyString => EmptyString
  | String c p' =>
      if bool_decide (c = slash) then basename p'
      else if bool_decide (String.index 0 "/" p' = None) then String c p'
      else basename p'
  end.

(** Whether [p] lies below directory [d]. *)
Definition below (d p : string) : bool :=
  String.prefix (if ends_with_slash d then d else d +:+ "/") p.

End OsPath.

(** ** Exceptions, files, the writer object and the trace of calls *)

Inductive exn_class :=
  OSError | ValueError | TypeError | IndexError | KeyError | OverflowError | OtherError.

Record exn := Exn { exn_kind : exn_class; exn_msg : string }.

#[global] Instance exn_class_eq_dec : EqDecision exn_class.
Proof. solve_decision. Defined.

(** Modelled from the spec: the ProfileFileWriter life cycle
    [uninitialized -> initialized -> opened -> populated -> finalized]; the
    writer class ([gncutils.ProfileNetCDFWriter]) is not part of the script.
    An empty staging file is [Empty]; [Opened] holds the variables inserted
    so far. *)
Inductive nc_stage := Initialized | Opened | Finalized.

Record nc_file := {
  nc_stage_of : nc_stage;
  nc_profile_id : Z;
  nc_history : list string;
  nc_vars : list (string * list float)
}.

Inductive content :=
| Foreign (data : string)   (* a file this run did not write *)
| Empty
| NetCDF (nc : nc_file)
| Partial (whole : content).   (* the first bytes of [whole], not all of them *)

Record file := File { f_mode : Z; f_content : content }.

Definition attrs := list (string * string).

Record sensor := { sensor_name : string; sensor_attrs : attrs }.

Record file_metadata := { filename_extension : string; filename_label : string }.

(** The dictionary returned by [create_llat_dba_reader]. *)
Record dba := {
  dba_data : Np.ndarray;
  dba_sensors : list sensor;
  dba_file_metadata : file_metadata
}.

(** The writer object [ncw]: what its constructor loads from the
    configuration directory, and the two fields that change during a run. *)
Record writer := {
  nc_sensor_defs : gmap string attrs;
  sensor_defs_file : string;
  attributes_deployment_glider : string;
  deployment_configs_glider : string;
  trajectory : string;
  profile_id : Z;
  out_nc : option string
}.

Record datetime := {
  year : Z; month : Z; day : Z; hour : Z; minute : Z; second : Z; microsecond : Z
}.

(** The calls with an effect outside the script. *)
Inductive call :=
| Mkdtemp (d : string)
| Mkstemp (p : string)
| SetProfileId (z : Z)                 (* [ncw.profile_id = z] *)
| InitNc (p : string) (pid : Z)        (* [ncw.init_nc(p)], with the writer's id *)
| OpenNc (p : string)
| UpdateHistory (p : string) (s : string)
| Populate (p : string) (step : string)
| InsertVar (p : string) (name : string) (data : list float)
| FinishNc (p : string)
| Move (src dst : string)
| Chmod (p : string) (mode : Z)
| Unlink (p : string)
| Rmtree (d : string)
| StdoutWrite (s : string).

(** How far a [shutil.move] that raises had come.  [shutil.move] tries
    [os.rename], which changes nothing when it fails, and falls back on
    [shutil.copy2] followed by [os.unlink] of the source; the copy opens the
    destination for writing (an existing file is emptied, a missing one is
    created), writes the bytes, and copies the permission bits last. *)
Inductive move_progress :=
| NothingCopied   (* the destination was not opened *)
| PartCopied      (* the destination was opened, not all the bytes are there *)
| BytesCopied     (* the bytes are there, the permission bits are not *)
| SourceKept.     (* the copy is complete, the source was not unlinked *)

(** How a call ended: it completed, it returned a false value
    ([finish_nc] only), or it raised. *)
Inductive result := Done | Declined | Raised (e : exn).

Record event := Ev { ev_call : call; ev_res : result }.

Inductive level := DEBUG | INFO | WARNING | ERROR.

(** What the script takes from outside.  [fault c] is the exception, if any,
    that the call [c] raises in this run; [move_reached src dst] is how far
    [shutil.move(src, dst)] has come when it raises. *)
Record externals := {
  LLAT_SENSORS : list string;
  argv0 : string;
  gettempdir : string;
  umask : Z;
  random_name : nat -> string;
  load_writer : string -> writer;
  writer_repr : writer -> string;
  validate_sensors : gmap string attrs -> list string -> bool;
  validate_ngdac_var_names : gmap string attrs -> bool;
  create_llat_dba_reader : string -> dba;
  slice_sensor_data : dba -> option (list string) -> option Np.ndarray;
  find_profiles : Np.ndarray -> exn + list (list float);
  calculate_practical_salinity : list float -> list float -> list float -> list float;
  calculate_density :
    list float -> list float -> list float -> list float -> float -> float -> list float;
  calculate_depth : list float -> float -> list float;
  utcfromtimestamp : float -> option datetime;
  strftime : datetime -> string -> string;
  fault : call -> option exn;
  move_reached : string -> string -> move_progress;
  finish_nc_returns : string -> bool
}.

(** The command line, as [argparse] hands it to [main]. *)
Record Args := {
  loglevel : string;
  config_path : string;
  output_path : option string;
  dba_files : list string;
  start_profile_id : Z;
  clobber : bool;
  compression : Z;
  nc_format : string;
  ctd_sensor_prefix : string;
  debug : bool
}.

(** The state a run threads: the file system, the two output streams, the
    trace, the writer object and the two lists [main] accumulates. *)
Record state := {
  files : gmap string file;
  dirs : gset string;
  cwd : string;
  stdout : list string;                (* newest first *)
  log : list (level * string);         (* newest first *)
  trace : list event;                  (* newest first *)
  rng : nat;
  ncw : writer;
  output_nc_files : list string;       (* in the order of the appends *)
  processed_dbas : list string
}.

Definition set_files (f : gmap string file -> gmap string file) (s : state) : state :=
  {| files := f (files s); dirs := dirs s; cwd := cwd s; stdout := stdout s;
     log := log s; trace := trace s; rng := rng s; ncw := ncw s;
     output_nc_files := output_nc_files s; processed_dbas := processed_dbas s |}.

Definition set_dirs (f : gset string -> gset string) (s : state) : state :=
  {| files := files s; dirs := f (dirs s); cwd := cwd s; stdout := stdout s;
     log := log s; trace := trace s; rng := rng s; ncw := ncw s;
     output_nc_files := output_nc_files s; processed_dbas := processed_dbas s |}.

Definition set_stdout (f : list string -> list string) (s : state) : state :=
  {| files := files s; dirs := dirs s; cwd := cwd s; stdout := f (stdout s);
     log := log s; trace := trace s; rng := rng s; ncw := ncw s;
     output_nc_files := output_nc_files s; processed_dbas := processed_dbas s |}.

Definition set_log (f : list (level * string) -> list (level * string)) (s : state) : state :=
  {| files := files s; dirs := dirs s; cwd := cwd s; stdout := stdout s;
     log := f (log s); trace := trace s; rng := rng s; ncw := ncw s;
     output_nc_files := output_nc_files s; processed_dbas := processed_dbas s |}.

Definition set_trace (f : list event -> list event) (s : state) : state :=
  {| files := files s; dirs := dirs s; cwd := cwd s; stdout := stdout s;
     log := log s; trace := f (trace s); rng := rng s; ncw := ncw s;
     output_nc_files := output_nc_files s; processed_dbas := processed_dbas s |}.

Definition set_rng (f : nat -> nat) (s : state) : state :=
  {| files := files s; dirs := dirs s; cwd := cwd s; stdout := stdout s;
     log := log s; trace := trace s; rng := f (rng s); ncw := ncw s;
     output_nc_files := output_nc_files s; processed_dbas := processed_dbas s |}.

Definition set_ncw (f : writer -> writer) (s : state) : state :=
  {| files := files s; dirs := dirs s; cwd := cwd s; stdout := stdout s;
     log := log s; trace := trace s; rng := rng s; ncw := f (ncw s);
     output_nc_files := output_nc_files s; processed_dbas := processed_dbas s |}.

Definition set_output_nc_files (f : list string -> list string) (s : state) : state :=
  {| files := files s; dirs := dirs s; cwd := cwd s; stdout := stdout s;
     log := log s; trace := trace s; rng := rng s; ncw := ncw s;
     output_nc_files := f (output_nc_files s); processed_dbas := processed_dbas s |}.

Definition set_processed_dbas (f : list string -> list string) (s : state) : state :=
  {| files := files s; dirs := dirs s; cwd := cwd s; stdout := stdout s;
     log := log s; trace := trace s; rng := rng s; ncw := ncw s;
     output_nc_files := output_nc_files s; processed_dbas := f (processed_dbas s) |}.

Definition with_profile_id (z : Z) (n : writer) : writer :=
  {| nc_sensor_defs := nc_sensor_defs n; sensor_defs_file := sensor_defs_file n;
     attributes_deployment_glider := attributes_deployment_glider n;
     deployment_configs_glider := deployment_configs_glider n;
     trajectory := trajectory n; profile_id := z; out_nc := out_nc n |}.

Definition with_out_nc (o : option string) (n : writer) : writer :=
  {| nc_sensor_defs := nc_sensor_defs n; sensor_defs_file := sensor_defs_file n;
     attributes_deployment_glider := attributes_deployment_glider n;
     deployment_configs_glider := deployment_configs_glider n;
     trajectory := trajectory n; profile_id := profile_id n; out_nc := o |}.

(** ** The monad: state, exceptions, [continue] and [return] *)

Inductive outcome (A : Type) :=
| Normal (a : A)
| Continue               (* [continue]: leave the body of the enclosing loop *)
| Return (code : Z)      (* [return code]: leave [main] *)
| Raise (e : exn).

Arguments Normal {A} a.
Arguments Continue {A}.
Arguments Return {A} code.
Arguments Raise {A} e.

Definition M (A : Type) : Type := state -> outcome A * state.

Definition ret {A} (a : A) : M A := fun s => (Normal a, s).

Definition bind {A B} (m : M A) (k : A -> M B) : M B :=
  fun s =>
    match m s with
    | (Normal a, s') => k a s'
    | (Continue, s') => (Continue, s')
    | (Return c, s') => (Return c, s')
    | (Raise e, s') => (Raise e, s')
    end.

Notation "x <- m ;; k" := (bind m (fun x => k))
  (at level 100, m at next level, right associativity).
Notation "m ;;; k" := (bind m (fun _ => k))
  (at level 100, right associativity).

Definition continue {A} : M A := fun s => (Continue, s).
Definition return_ {A} (c : Z) : M A := fun s => (Return c, s).
Definition raise {A} (e : exn) : M A := fun s => (Raise e, s).
Definition get : M state := fun s => (Normal s, s).
Definition modify (f : state -> state) : M unit := fun s => (Normal tt, f s).

Definition when (b : bool) (m : M unit) : M unit := if b then m else ret tt.

(** [try: m except cls as e: h e] *)
Definition try_except {A} (m : M A) (cls : exn_class) (h : exn -> M A) : M A :=
  fun s =>
    match m s with
    | (Raise e, s') => if decide (exn_kind e = cls) then h e s' else (Raise e, s')
    | r => r
    end.

(** [for x in l: body x]; a [continue] in the body goes on with the next
    element. *)
Fixpoint for_each {B} (l : list B) (body : B -> M unit) : M unit :=
  match l with
  | [] => ret tt
  | x :: l' =>
      fun s =>
        match body x s with
        | (Normal _, s') | (Continue, s') => for_each l' body s'
        | (Return c, s') => (Return c, s')
        | (Raise e, s') => (Raise e, s')
        end
  end.

Definition of_option {A} (o : option A) (e : exn) : M A :=
  match o with
  | Some a => ret a
  | None => raise e
  end.

Definition nl : string := String (ascii_of_nat 10) EmptyString.

(** [os.TMP_MAX] candidates are tried before [tempfile] gives up. *)
Definition TMP_MAX : nat := 10000.

(** Permission bits, written in octal in the script: [octal 7 5 5] is [0o755]. *)
Definition octal (u g o : Z) : Z := u * 64 + g * 8 + o.

Definition isdir (s : state) (p : string) : bool := bool_decide (p ∈ dirs s).
Definition isfile (s : state) (p : string) : bool := bool_decide (is_Some (files s !! p)).
Definition path_exists (s : state) (p : string) : bool := isfile s p || isdir s p.

Definition os_error (msg : string) : exn := Exn OSError msg.

Definition class_name (c : exn_class) : string :=
  match c with
  | OSError => "OSError" | ValueError => "ValueError" | TypeError => "TypeError"
  | IndexError => "IndexError" | KeyError => "KeyError"
  | OverflowError => "OverflowError" | OtherError => "Exception"
  end.

Section Script.

Context (X : externals).

Definition emit (c : call) (r : result) : M unit :=
  modify (set_trace (cons (Ev c r))).

(** The call [c] raises [e]. *)
Definition failing {A} (c : call) (e : exn) : M A :=
  emit c (Raised e);;; raise e.

Definition no_such_file : exn := os_error "No such file or directory".

Definition logging (lv : level) (msg : string) : M unit :=
  modify (set_log (cons (lv, msg))).

(** ['{:s}'.format(e)] for an exception object [e]: [BaseException] has no
    [__format__] of its own, and [object.__format__] refuses a format
    specification that is not empty. *)
Definition format_s_exn (e : exn) : M string :=
  raise (Exn TypeError
           ("unsupported format string passed to " +:+ class_name (exn_kind e)
            +:+ ".__format__")).

(** ['{}'.format(e)] and ['{:}'.format(e)]: [str(e)]. *)
Definition str_exn (e : exn) : string := exn_msg e.

(** *** [tempfile], [os] and [shutil] *)

Fixpoint fresh_path (dir pre suf : string) (taken : string -> bool) (n fuel : nat)
  : option (string * nat) :=
  match fuel with
  | O => None
  | S fuel' =>
      let p := OsPath.join dir (pre +:+ random_name X n +:+ suf) in
      if taken p then fresh_path dir pre suf taken (S n) fuel'
      else Some (p, S n)
  end.

(** [tempfile.mkdtemp()] *)
Definition mkdtemp : M string :=
  s <- get;;
  if negb (isdir s (gettempdir X))
  then raise (os_error "No usable temporary directory found")
  else
    match fresh_path (gettempdir X) "tmp" "" (path_exists s) (rng s) TMP_MAX with
    | None => raise (os_error "No usable temporary directory name found")
    | Some (d, n) =>
        match fault X (Mkdtemp d) with
        | Some e => failing (Mkdtemp d) e
        | None =>
            modify (set_rng (fun _ => n));;;
            modify (set_dirs (fun ds => {[d]} ∪ ds));;;
            emit (Mkdtemp d) Done;;;
            ret d
        end
    end.

(** [tempfile.mkstemp(dir=dir, suffix=suf, prefix=pre)] followed by
    [os.close]: an empty file, readable and writable by its owner only. *)
Definition mkstemp (dir suf pre : string) : M string :=
  s <- get;;
  if negb (isdir s dir)
  then raise no_such_file
  else
    match fresh_path dir pre suf (path_exists s) (rng s) TMP_MAX with
    | None => raise (os_error "No usable temporary file name found")
    | Some (p, n) =>
        match fault X (Mkstemp p) with
        | Some e => failing (Mkstemp p) e
        | None =>
            modify (set_rng (fun _ => n));;;
            modify (set_files (insert p (File (octal 6 0 0) Empty)));;;
            emit (Mkstemp p) Done;;;
            ret p
        end
    end.

(** [os.unlink(p)] *)
Definition unlink (p : string) : M unit :=
  s <- get;;
  match fault X (Unlink p) with
  | Some e => failing (Unlink p) e
  | None =>
      if isfile s p
      then modify (set_files (delete p));;; emit (Unlink p) Done
      else failing (Unlink p) no_such_file
  end.

(** [os.chmod(p, mode)]; the permission bits of directories are not kept. *)
Definition chmod (p : string) (mode : Z) : M unit :=
  s <- get;;
  match fault X (Chmod p mode) with
  | Some e => failing (Chmod p mode) e
  | None =>
      match files s !! p with
      | Some f =>
          modify (set_files (insert p (File mode (f_content f))));;;
          emit (Chmod p mode) Done
      | None =>
          if isdir s p then emit (Chmod p mode) Done
          else failing (Chmod p mode) no_such_file
      end
  end.

(** The mode of a file that is opened for writing: the mode it has, and
    for a file that is not there yet [0o666] less the bits of the umask. *)
Definition opened_mode (s : state) (p : string) : Z :=
  match files s !! p with
  | Some g => f_mode g
  | None => Z.ldiff (octal 6 6 6) (umask X)
  end.

(** What a move of the file [f] from [src] to [real_dst] that raises
    leaves at [real_dst]; the source is where it was.  Nothing is copied
    when both paths are the same. *)
Definition left_by_move (how : move_progress) (s : state) (src real_dst : string)
    (f : file) (fs : gmap string file) : gmap string file :=
  if bool_decide (src = real_dst) then fs
  else
    match how with
    | NothingCopied => fs
    | PartCopied => <[real_dst := File (opened_mode s real_dst) (Partial (f_content f))]> fs
    | BytesCopied => <[real_dst := File (opened_mode s real_dst) (f_content f)]> fs
    | SourceKept => <[real_dst := f]> fs
    end.

(** [shutil.move(src, dst)] for a regular file [src]: into [dst] when
    [dst] is a directory, where a file of the same name must not exist,
    and onto [dst] otherwise.  A move that raises need not leave the
    destination as it was. *)
Definition move (src dst : string) : M unit :=
  s <- get;;
  let real_dst :=
    if isdir s dst then OsPath.join dst (OsPath.basename src) else dst in
  if isdir s dst && path_exists s real_dst
  then failing (Move src dst) (os_error "Destination path already exists")
  else
    match files s !! src with
    | None => failing (Move src dst) no_such_file
    | Some f =>
        match fault X (Move src dst) with
        | Some e =>
            modify (set_files (left_by_move (move_reached X src dst) s src real_dst f));;;
            failing (Move src dst) e
        | None =>
            modify (set_files (fun fs => <[real_dst := f]> (delete src fs)));;;
            emit (Move src dst) Done
        end
    end.

(** [shutil.rmtree(d)]: the directory and all that lies below it. *)
Definition rmtree (d : string) : M unit :=
  s <- get;;
  match fault X (Rmtree d) with
  | Some e => failing (Rmtree d) e
  | None =>
      if isdir s d
      then
        modify (set_files (filter (fun kv => OsPath.below d kv.1 = false)));;;
        modify (set_dirs (fun ds =>
                  filter (fun p => OsPath.below d p = false) ds ∖ {[d]}));;;
        emit (Rmtree d) Done
      else failing (Rmtree d) no_such_file
  end.

(** [sys.stdout.write(s)] *)
Definition stdout_write (line : string) : M unit :=
  modify (set_stdout (cons line));;; emit (StdoutWrite line) Done.

(** *** The writer's methods

    Modelled from the spec: [gncutils.ProfileNetCDFWriter] is not part of
    the script.  The methods follow the life cycle of the spec's
    ProfileFileWriter, work on the file handed to [init_nc] and on no
    other, and fail when [fault] says so; the identifier counter belongs
    to the writer and advances when a file is finalized. *)

Definition current_nc : M string :=
  s <- get;;
  of_option (out_nc (ncw s)) (Exn OtherError "The NetCDF file has not been initialized").

Definition update_nc (p : string) (f : nc_file -> nc_file) : M unit :=
  s <- get;;
  match files s !! p with
  | Some (File mode (NetCDF nc)) =>
      modify (set_files (insert p (File mode (NetCDF (f nc)))))
  | _ => raise (os_error "Not a NetCDF file")
  end.

Definition init_nc (p : string) : M unit :=
  s <- get;;
  let pid := profile_id (ncw s) in
  match fault X (InitNc p pid) with
  | Some e => failing (InitNc p pid) e
  | None =>
      let mode := match files s !! p with
                  | Some f => f_mode f
                  | None => octal 6 4 4
                  end in
      modify (set_files (insert p
                (File mode (NetCDF {| nc_stage_of := Initialized; nc_profile_id := pid;
                                      nc_history := []; nc_vars := [] |}))));;;
      modify (set_ncw (with_out_nc (Some p)));;;
      emit (InitNc p pid) Done
  end.

Definition writer_step (c : string -> call) (f : nc_file -> nc_file) : M unit :=
  p <- current_nc;;
  match fault X (c p) with
  | Some e => failing (c p) e
  | None =>
      try_except (update_nc p f) OSError
        (fun e => failing (c p) e);;;
      emit (c p) Done
  end.

Definition open_nc : M unit :=
  writer_step OpenNc
    (fun nc => {| nc_stage_of := Opened; nc_profile_id := nc_profile_id nc;
                  nc_history := nc_history nc; nc_vars := nc_vars nc |}).

Definition update_history (h : string) : M unit :=
  writer_step (fun p => UpdateHistory p h)
    (fun nc => {| nc_stage_of := nc_stage_of nc; nc_profile_id := nc_profile_id nc;
                  nc_history := nc_history nc ++ [h]; nc_vars := nc_vars nc |}).

(** [set_trajectory_id], [set_title], [set_source_file_var],
    [update_data_file_sensor_defs], [set_container_variables]: what they
    store is not kept. *)
Definition populate (step : string) : M unit :=
  writer_step (fun p => Populate p step) (fun nc => nc).

Definition insert_var_data (name : string) (data : list float) : M unit :=
  writer_step (fun p => InsertVar p name data)
    (fun nc => {| nc_stage_of := nc_stage_of nc; nc_profile_id := nc_profile_id nc;
                  nc_history := nc_history nc; nc_vars := nc_vars nc ++ [(name, data)] |}).

(** [finish_nc()]: the path of the closed file, or a false value. *)
Definition finish_nc : M bool :=
  s <- get;;
  match out_nc (ncw s) with
  | None => ret false
  | Some p =>
      match fault X (FinishNc p) with
      | Some e => failing (FinishNc p) e
      | None =>
          if finish_nc_returns X p
          then
            try_except
              (update_nc p (fun nc =>
                 {| nc_stage_of := Finalized; nc_profile_id := nc_profile_id nc;
                    nc_history := nc_history nc; nc_vars := nc_vars nc |}))
              OSError (fun e => failing (FinishNc p) e);;;
            modify (set_ncw (fun n => with_out_nc None (with_profile_id (profile_id n + 1) n)));;;
            emit (FinishNc p) Done;;;
            ret true
          else emit (FinishNc p) Declined;;; ret false
      end
  end.

(** *** The script *)

Definition index_error : exn := Exn IndexError "index out of bounds".

(** [a[:, j]] for the result of [slice_sensor_data], which is [None] when a
    sensor is missing. *)
Definition column_of (a : option Np.ndarray) (j : nat) : M (list float) :=
  match a with
  | None => raise (Exn TypeError "'NoneType' object is not subscriptable")
  | Some a => of_option (Np.column a j) index_error
  end.

(** The name under which a profile is stored (lines 168-170). *)
Definition profile_filename_of (glider pro_mean_ts extension : string) : string :=
  glider +:+ "-" +:+ pro_mean_ts +:+ "-" +:+ extension +:+ "-profile".

(** Lines 215-221: every column of the frame, restricted to the rows of
    the profile, goes into the file under its sensor name. *)
Definition insert_all (d : dba) (p_inds : list nat) : M unit :=
  for_each (seq 0 (length (dba_sensors d)))
    (fun v =>
       sn <- of_option (dba_sensors d !! v) index_error;;
       let var_name := sensor_name sn in
       var_data <- of_option (Np.rows_of_column (dba_data d) p_inds v) index_error;;
       logging DEBUG ("Inserting " +:+ var_name +:+ " data array");;;
       insert_var_data var_name var_data).

(** Lines 226-234: the file is moved only when [finish_nc] returned a path;
    the destination is appended to [output_nc_files] in either case. *)
Definition publish (nc_file : bool) (tmp_nc out_nc_file : string) : M unit :=
  when nc_file
    (try_except
       (move tmp_nc out_nc_file;;;
        chmod out_nc_file (octal 7 5 5))
       OSError
       (fun e =>
          logging ERROR ("Error moving temp NetCDF file " +:+ tmp_nc +:+ ": " +:+ str_exn e);;;
          continue));;;
  modify (set_output_nc_files (fun l => l ++ [out_nc_file])).

(** Lines 183-224: the staging file is initialized, opened, populated and
    closed; the result is what [finish_nc] returned. *)
Definition stage (dba_file : string) (d : dba) (p_inds : list nat)
    (pro_mean_dt : datetime) (tmp_nc : string) : M bool :=
  try_except (init_nc tmp_nc) OSError
    (fun e =>
       logging ERROR ("Error initializing " +:+ tmp_nc +:+ ": " +:+ str_exn e);;;
       continue);;;
  try_except
    (open_nc;;;
     update_history (argv0 X +:+ " " +:+ dba_file))
    OSError
    (fun e =>
       logging ERROR ("Error opening " +:+ tmp_nc +:+ ": " +:+ str_exn e);;;
       unlink tmp_nc;;;
       continue);;;
  populate "set_trajectory_id";;;
  s <- get;;
  populate ("set_title " +:+ deployment_configs_glider (ncw s) +:+ "-"
            +:+ strftime X pro_mean_dt "%Y%m%d%H%M%SZ" +:+ " Vertical Profile");;;
  populate ("set_source_file_var " +:+ filename_label (dba_file_metadata d));;;
  populate "update_data_file_sensor_defs";;;
  populate "set_container_variables";;;
  insert_all d p_inds;;;
  finish_nc.

(** Lines 167-234: the staging file of one profile is made, filled and,
    when [finish_nc] returned a path, moved to its place. *)
Definition write_profile (args : Args) (out_dir tmp_dir dba_file : string)
    (d : dba) (p_inds : list nat) (pro_mean_dt : datetime) : M unit :=
  let pro_mean_ts := strftime X pro_mean_dt "%Y%m%dT%H%M%SZ" in
  s <- get;;
  let profile_filename :=
    profile_filename_of (attributes_deployment_glider (ncw s)) pro_mean_ts
      (filename_extension (dba_file_metadata d)) in
  tmp_nc <- mkstemp tmp_dir ".nc" (OsPath.basename profile_filename);;
  let out_nc_file := OsPath.join out_dir (profile_filename +:+ ".nc") in
  s <- get;;
  when (isfile s out_nc_file)
    (if clobber args
     then logging INFO ("Clobbering existing NetCDF: " +:+ out_nc_file)
     else logging WARNING ("Skipping existing NetCDF: " +:+ out_nc_file);;; continue);;;
  nc_file <- stage dba_file d p_inds pro_mean_dt tmp_nc;;
  publish nc_file tmp_nc out_nc_file.

(** Lines 146-234: the body of the loop over the profile intervals. *)
Definition process_profile (args : Args) (out_dir tmp_dir dba_file : string)
    (d : dba) (ts : list float) (profile_interval : list float) : M unit :=
  p0 <- of_option (head profile_interval) index_error;;
  p1 <- of_option (last profile_interval) index_error;;
  let p_inds := Np.rows_between ts p0 p1 in
  let mean_profile_epoch := Np.nanmean profile_interval in
  when (Np.isnan mean_profile_epoch)
    (logging WARNING "Profile mean timestamp is Nan";;; continue);;;
  when (start_profile_id args <? 1)%Z
    (pid <- of_option (Np.int_of_float mean_profile_epoch)
              (Exn OverflowError "cannot convert float infinity to integer");;
     modify (set_ncw (with_profile_id pid));;;
     emit (SetProfileId pid) Done);;;
  pro_mean_dt <- of_option (utcfromtimestamp X mean_profile_epoch)
                   (Exn ValueError "timestamp out of range");;
  write_profile args out_dir tmp_dir dba_file d p_inds pro_mean_dt.

(** Lines 127-141: salinity and density are appended to the frame, depth
    replaces the column named [llat_depth].  The result is [dba] after the
    step, or the exception the step raises. *)
Definition derive (n : writer) (d : dba) (ctd : list (list float)) (mean_lat mean_lon : float)
  : exn + dba :=
  match ctd !! 0%nat, ctd !! 1%nat, ctd !! 5%nat, ctd !! 6%nat with
  | Some c0, Some c1, Some c5, Some c6 =>
      let prac_sal := calculate_practical_salinity X c5 c6 c1 in
      match nc_sensor_defs n !! "salinity" with
      | None => inl (Exn KeyError "salinity")
      | Some sal_attrs =>
          let sensors1 := dba_sensors d ++ [{| sensor_name := "salinity"; sensor_attrs := sal_attrs |}] in
          match Np.append_column (dba_data d) prac_sal with
          | None => inl (Exn ValueError "all the input array dimensions must match")
          | Some data1 =>
              let density := calculate_density X c0 c5 c1 prac_sal mean_lat mean_lon in
              match nc_sensor_defs n !! "density" with
              | None => inl (Exn KeyError "density")
              | Some den_attrs =>
                  let sensors2 :=
                    sensors1 ++ [{| sensor_name := "density"; sensor_attrs := den_attrs |}] in
                  match Np.append_column data1 density with
                  | None => inl (Exn ValueError "all the input array dimensions must match")
                  | Some data2 =>
                      match list_find (fun sn => sensor_name sn = "llat_depth") sensors2 with
                      | None => inl (Exn ValueError "'llat_depth' is not in list")
                      | Some (zi, _) =>
                          match Np.set_column data2 zi (calculate_depth X c1 mean_lat) with
                          | None =>
                              inl (if decide (zi < Np.ncols data2)%nat
                                   then Exn ValueError "could not broadcast input array"
                                   else index_error)
                          | Some data3 =>
                              inr {| dba_data := data3; dba_sensors := sensors2;
                                     dba_file_metadata := dba_file_metadata d |}
                          end
                      end
                  end
              end
          end
      end
  | _, _, _, _ => inl index_error
  end.

Definition skip_no_position (what dba_file : string) : M unit :=
  logging WARNING ("dba contains no valid " +:+ what +:+ " values");;;
  logging INFO ("Skipping dba: " +:+ dba_file);;;
  continue.

(** Lines 82-236: the body of the loop over the input files. *)
Definition process_dba (args : Args) (out_dir tmp_dir : string)
    (ctd_sensors : list string) (dba_file : string) : M unit :=
  s <- get;;
  when (negb (isfile s dba_file))
    (logging ERROR ("Invalid dba file specified: " +:+ dba_file);;; continue);;;
  logging INFO ("Processing dba file: " +:+ dba_file);;;
  let d := create_llat_dba_reader X dba_file in
  when (bool_decide (Np.nrows (dba_data d) = 0%nat))
    (logging WARNING ("Skipping empty dba file: " +:+ dba_file);;; continue);;;
  yo <- match slice_sensor_data X d None with
        | None => continue
        | Some yo => ret yo
        end;;
  profile_times <-
    try_except
      (match find_profiles X yo with
       | inl e => raise e
       | inr pt => ret pt
       end)
      ValueError
      (fun e =>
         msg <- format_s_exn e;;
         logging ERROR (dba_file +:+ ": " +:+ msg);;;
         continue);;
  when (bool_decide (length profile_times = 0%nat))
    (logging INFO ("No profiles indexed: " +:+ dba_file);;; continue);;;
  let ctd_data := slice_sensor_data X d (Some ctd_sensors) in
  lat <- column_of ctd_data 2;;
  when (Np.all_isnan lat) (skip_no_position "llat_latitude" dba_file);;;
  lon <- column_of ctd_data 3;;
  when (Np.all_isnan lon) (skip_no_position "llat_longitude" dba_file);;;
  let mean_lat := Np.nanmean lat in
  let mean_lon := Np.nanmean lon in
  s <- get;;
  d' <- match derive (ncw s) d (from_option Np.columns [] ctd_data) mean_lat mean_lon with
        | inl e => raise e
        | inr d' => ret d'
        end;;
  ts <- of_option (Np.column yo 0) index_error;;
  for_each profile_times (process_profile args out_dir tmp_dir dba_file d' ts);;;
  modify (set_processed_dbas (fun l => l ++ [dba_file])).

(** [args.output_path or os.path.realpath(os.curdir)] *)
Definition output_dir (args : Args) (s : state) : string :=
  match output_path args with
  | Some p => if bool_decide (p = "") then cwd s else p
  | None => cwd s
  end.

Definition ctd_sensors_of (args : Args) : list string :=
  LLAT_SENSORS X
    ++ map (fun c => ctd_sensor_prefix args +:+ "_" +:+ c) ["water_cond"; "water_temp"].

(** Lines 246-249. *)
Definition list_outputs : M unit :=
  s <- get;;
  for_each (output_nc_files s)
    (fun output_nc_file =>
       chmod output_nc_file (octal 6 6 4);;;
       stdout_write (output_nc_file +:+ nl)).

(** Lines 75-251: the staging directory exists; the input files are
    processed, the directory is removed, the files are listed. *)
Definition run_batch (args : Args) (out_dir : string) (ctd_sensors : list string)
    (tmp_dir : string) : M unit :=
  logging DEBUG ("Temporary NetCDF directory: " +:+ tmp_dir);;;
  for_each (dba_files args) (process_dba args out_dir tmp_dir ctd_sensors);;;
  try_except
    (logging DEBUG ("Removing temporary directory: " +:+ tmp_dir);;;
     rmtree tmp_dir)
    OSError
    (fun e => logging ERROR (str_exn e);;; return_ 1);;;
  list_outputs;;;
  return_ 0.

(** [main(args)].  The outcome is [Return code] when [main] returns, and
    [Raise e] when an exception leaves it. *)
Definition main (args : Args) : M unit :=
  s0 <- get;;
  let out_dir := output_dir args s0 in
  let ctd_sensors := ctd_sensors_of args in
  when (negb (isdir s0 (config_path args)))
    (logging ERROR ("Invalid configuration directory: " +:+ config_path args);;;
     return_ 1);;;
  when (bool_decide (out_dir = ""))
    (logging INFO ("No NetCDF output_path specified. Using cwd: " +:+ out_dir));;;
  when (negb (isdir s0 out_dir))
    (logging ERROR ("Invalid output_path: " +:+ out_dir);;; return_ 1);;;
  when (bool_decide (dba_files args = []))
    (logging ERROR "No Slocum dba files specified";;; return_ 1);;;
  modify (set_ncw (fun _ =>
            with_out_nc None
              (with_profile_id (start_profile_id args) (load_writer X (config_path args)))));;;
  s <- get;;
  when (negb (validate_sensors X (nc_sensor_defs (ncw s)) ctd_sensors))
    (logging ERROR ("Bad sensor definitions: " +:+ sensor_defs_file (ncw s));;; return_ 1);;;
  when (negb (validate_ngdac_var_names X (nc_sensor_defs (ncw s))))
    (logging ERROR ("Bad sensor definitions: " +:+ sensor_defs_file (ncw s));;; return_ 1);;;
  when (debug args)
    (stdout_write (writer_repr X (ncw s) +:+ nl);;; return_ 0);;;
  tmp_dir <- mkdtemp;;
  run_batch args out_dir ctd_sensors tmp_dir.

End Script.

Arguments main X args s : rename.

Definition null_writer : writer := {|
  nc_sensor_defs := ∅; sensor_defs_file := ""; attributes_deployment_glider := "";
  deployment_configs_glider := ""; trajectory := ""; profile_id := 0; out_nc := None
|}.

(** The state in which [main] is entered: a file system, a working
    directory, and nothing written, logged or called yet. *)
Definition initial (fs : gmap string file) (ds : gset string) (wd : string) (seed : nat) : state := {|
  files := fs; dirs := ds; cwd := wd; stdout := []; log := []; trace := [];
  rng := seed; ncw := null_writer; output_nc_files := []; processed_dbas := []
|}.

Definition run (X : externals) (args : Args)
    (fs : gmap string file) (ds : gset string) (wd : string) (seed : nat) : outcome unit * state :=
  main X args (initial fs ds wd seed).

(** * A small deployment to run the script on *)

Module Fixture.

Definition fl (z : Z) : float := PrimFloat.of_uint63 (Uint63.of_Z z).

Definition ru01 : writer := {|
  nc_sensor_defs := {[ "salinity" := [("units", "1")];
                       "density" := [("units", "kg m-3")] ]};
  sensor_defs_file := "/cfg/sensor_defs.json";
  attributes_deployment_glider := "ru01";
  deployment_configs_glider := "ru01";
  trajectory := "ru01-20170101T0000";
  profile_id := 0;
  out_nc := None
|}.

Definition sensor_named (n : string) : sensor := {| sensor_name := n; sensor_attrs := [] |}.

(** Four rows; columns: time, pressure, latitude, longitude, depth,
    conductivity, temperature. *)
Definition segment : dba := {|
  dba_data := {| Np.nrows := 4;
                 Np.columns := [ [fl 100; fl 110; fl 120; fl 130];
                                 [fl 1; fl 5; fl 9; fl 2];
                                 [fl 40; fl 40; fl 40; fl 40];
                                 [fl 70; fl 70; fl 70; fl 70];
                                 [fl 0; fl 0; fl 0; fl 0];
                                 [fl 3; fl 3; fl 3; fl 3];
                                 [fl 10; fl 10; fl 10; fl 10] ] |};
  dba_sensors := map sensor_named
                   ["llat_time"; "llat_pressure"; "llat_latitude"; "llat_longitude";
                    "llat_depth"; "sci_water_cond"; "sci_water_temp"];
  dba_file_metadata := {| filename_extension := "sbd";
                          filename_label := "ru01-2017-001-0-0-sbd(01230000)" |}
|}.

Definition pad2 (z : Z) : string :=
  if (z <? 10)%Z then "0" +:+ pretty z else pretty z.

(** A clock that knows the first day of the epoch. *)
Definition clock (t : float) : option datetime :=
  match Np.int_of_float t with
  | Some z =>
      if bool_decide (0 <= z < 86400)%Z
      then Some {| year := 1970; month := 1; day := 1; hour := z / 3600;
                   minute := (z mod 3600) / 60; second := z mod 60; microsecond := 0 |}
      else None
  | None => None
  end.

Definition render (d : datetime) (fmt : string) : string :=
  let date := pretty (year d) +:+ pad2 (month d) +:+ pad2 (day d) in
  let time := pad2 (hour d) +:+ pad2 (minute d) +:+ pad2 (second d) in
  if bool_decide (fmt = "%Y%m%dT%H%M%SZ") then date +:+ "T" +:+ time +:+ "Z"
  else date +:+ time +:+ "Z".

Definition select (names : list string) (d : dba) : option Np.ndarray :=
  Some {| Np.nrows := Np.nrows (dba_data d);
          Np.columns := omap (fun n => match list_find (fun s => sensor_name s = n) (dba_sensors d) with
                                       | Some (i, _) => Np.columns (dba_data d) !! i
                                       | None => None
                                       end) names |}.

(** The libraries, with the faults of the run and the answers of the
    segmenter and of [finish_nc] left open. *)
Definition libraries (faults : call -> option exn) (finishes : string -> bool)
    (segments : exn + list (list float)) : externals := {|
  LLAT_SENSORS := ["llat_time"; "llat_pressure"; "llat_latitude"; "llat_longitude"; "llat_depth"];
  argv0 := "dba_to_ngdac_profile_nc.py";
  gettempdir := "/tmp";
  umask := octal 0 2 2;
  random_name := fun n => pretty n;
  load_writer := fun _ => ru01;
  writer_repr := fun _ => "<ProfileNetCDFWriter>";
  validate_sensors := fun _ _ => true;
  validate_ngdac_var_names := fun _ => true;
  create_llat_dba_reader := fun _ => segment;
  slice_sensor_data := fun d names =>
    select (default ["llat_time"; "llat_pressure"] names) d;
  find_profiles := fun _ => segments;
  calculate_practical_salinity := fun c _ _ => c;
  calculate_density := fun _ t _ _ _ _ => t;
  calculate_depth := fun p _ => p;
  utcfromtimestamp := clock;
  strftime := render;
  fault := faults;
  move_reached := fun _ _ => NothingCopied;
  finish_nc_returns := finishes
|}.

Definition no_fault (c : call) : option exn := None.

Definition two_profiles : exn + list (list float) :=
  inr [[fl 100; fl 120]; [fl 120; fl 130]].

Definition one_profile : exn + list (list float) := inr [[fl 100; fl 120]].

Definition command (clobbering : bool) (first_id : Z) : Args := {|
  loglevel := "info"; config_path := "/cfg"; output_path := Some "/out";
  dba_files := ["/in/ru01.sbd"]; start_profile_id := first_id; clobber := clobbering;
  compression := 1; nc_format := "NETCDF4_CLASSIC"; ctd_sensor_prefix := "sci";
  debug := false
|}.

Definition disk : gmap string file := {[ "/in/ru01.sbd" := File (octal 6 4 4) (Foreign "dba") ]}.

Definition folders : gset string := {[ "/cfg"; "/out"; "/tmp"; "/in" ]}.

(** The name of the first profile's file and of its staging file. *)
Definition first_out : string := "/out/ru01-19700101T000150Z-sbd-profile.nc".
Definition first_tmp : string := "/tmp/tmp0/ru01-19700101T000150Z-sbd-profile1.nc".

(** A disk on which the first profile's file already exists. *)
Definition used_disk : gmap string file :=
  <[ first_out := File (octal 6 6 4) (Foreign "an older file") ]> disk.

Definition second_out : string := "/out/ru01-19700101T000205Z-sbd-profile.nc".

(** The disk is full when the first variable is written. *)
Definition disk_full (c : call) : option exn :=
  match c with
  | InsertVar _ _ _ => Some (Exn OSError "No space left on device")
  | _ => None
  end.

(** The run is interrupted when the file is about to be moved. *)
Definition interrupted (c : call) : option exn :=
  match c with
  | Move _ _ => Some (Exn OtherError "KeyboardInterrupt")
  | _ => None
  end.

(** [init_nc] fails, and so does the removal of the staging directory. *)
Definition read_only (c : call) : option exn :=
  match c with
  | InitNc _ _ => Some (Exn OSError "Permission denied")
  | Rmtree _ => Some (Exn OSError "Directory not empty")
  | _ => None
  end.

(** [open_nc] fails, and so does the removal of the staging directory. *)
Definition unreadable (c : call) : option exn :=
  match c with
  | OpenNc _ => Some (Exn OSError "Permission denied")
  | Rmtree _ => Some (Exn OSError "Directory not empty")
  | _ => None
  end.

(** The frame after the derived-variable step. *)
Definition ctd_columns : list (list float) :=
  from_option Np.columns []
    (select ["llat_time"; "llat_pressure"; "llat_latitude"; "llat_longitude";
             "llat_depth"; "sci_water_cond"; "sci_water_temp"] segment).

Definition derived : dba :=
  Eval vm_compute in
    match derive (libraries no_fault (fun _ => true) two_profiles) ru01 segment
            ctd_columns (fl 40) (fl 70) with
    | inr d => d
    | inl _ => segment
    end.

(** The state of a run once the staging directory exists. *)
Definition staging_ready : state := {|
  files := disk; dirs := {[ "/tmp/tmp0" ]} ∪ folders; cwd := "/home";
  stdout := []; log := []; trace := [Ev (Mkdtemp "/tmp/tmp0") Done]; rng := 1;
  ncw := ru01; output_nc_files := []; processed_dbas := []
|}.

(** The first profile's mean time, 110 s after the epoch. *)
Definition first_mean : datetime :=
  {| year := 1970; month := 1; day := 1; hour := 0; minute := 1; second := 50;
     microsecond := 0 |}.

(** The same state on the disk that holds the first profile's file. *)
Definition staging_used : state := set_files (fun _ => used_disk) staging_ready.

(** The same libraries with temporary names that are all [x]. *)
Definition plainly_named (X : externals) : externals := {|
  LLAT_SENSORS := LLAT_SENSORS X; argv0 := argv0 X; gettempdir := gettempdir X;
  umask := umask X; random_name := fun _ => "x";
  load_writer := load_writer X; writer_repr := writer_repr X;
  validate_sensors := validate_sensors X;
  validate_ngdac_var_names := validate_ngdac_var_names X;
  create_llat_dba_reader := create_llat_dba_reader X;
  slice_sensor_data := slice_sensor_data X; find_profiles := find_profiles X;
  calculate_practical_salinity := calculate_practical_salinity X;
  calculate_density := calculate_density X; calculate_depth := calculate_depth X;
  utcfromtimestamp := utcfromtimestamp X; strftime := strftime X;
  fault := fault X; move_reached := move_reached X;
  finish_nc_returns := finish_nc_returns X
|}.

End Fixture.

(** * Assertions about runs *)

(** The ways a computation ends other than with a value. *)
Inductive abrupt := ACont | ARet (c : Z) | ARaise (e : exn).

(** [hoare P m Q E]: from a state in [P], [m] ends in [Q] with a value, and
    in [E] when it ends with [continue], [return] or an exception. *)
Definition hoare {A} (P : state -> Prop) (m : M A)
    (Q : A -> state -> Prop) (E : abrupt -> state -> Prop) : Prop :=
  ∀ s, P s →
    match m s with
    | (Normal a, s') => Q a s'
    | (Continue, s') => E ACont s'
    | (Return c, s') => E (ARet c) s'
    | (Raise e, s') => E (ARaise e) s'
    end.

Definition raises (k : abrupt) : Prop := ∃ e, k = ARaise e.

(** [m] adds to the trace only calls in [C], and leaves with a value, a
    [continue] or an exception, never with [return]. *)
Definition emits_only {A} (C : call -> Prop) (m : M A) : Prop :=
  ∀ s, (∃ new, trace (m s).2 = new ++ trace s ∧ Forall (fun ev => C (ev_call ev)) new)
       ∧ (∀ c, (m s).1 ≠ Return c).

(** The events that [m] adds to the trace of [s]. *)
Definition new_events (s s' : state) : list event :=
  take (length (trace s') - length (trace s)) (trace s').

Definition staged (tr : list event) (p : string) : Prop := Ev (Mkstemp p) Done ∈ tr.

(** What must come before an event: a file is moved right after
    [finish_nc] returned its path; the mode [0o755] is set right after the
    move, on the destination; the mode [0o664] is set once the staging
    directory has been removed. *)
Definition follows (ev : event) (before : list event) : Prop :=
  match ev_call ev with
  | Move src _ => ∃ rest, before = Ev (FinishNc src) Done :: rest
  | Chmod p mode =>
      (mode = octal 6 6 4 ∧ ∃ d, Ev (Rmtree d) Done ∈ before)
      ∨ (mode = octal 7 5 5 ∧ ∃ src rest, before = Ev (Move src p) Done :: rest)
  | _ => True
  end.

Fixpoint ordered (tr : list event) : Prop :=
  match tr with
  | [] => True
  | ev :: before => follows ev before ∧ ordered before
  end.

Definition finalized (f : file) : Prop :=
  ∃ nc, f_content f = NetCDF nc ∧ nc_stage_of nc = Finalized.

(** What a copy that did not come to its end has left of a finalized
    file. *)
Definition part_of_finalized (f : file) : Prop :=
  ∃ nc, f_content f = Partial (NetCDF nc) ∧ nc_stage_of nc = Finalized.

(** The file a call of the writer works on. *)
Definition written_by (c : call) : option string :=
  match c with
  | InitNc p _ | OpenNc p | UpdateHistory p _ | Populate p _
  | InsertVar p _ _ | FinishNc p | Move p _ => Some p
  | _ => None
  end.

Section RunAssertions.

Context (X : externals) (args : Args).
Context (fs0 : gmap string file) (out_dir tmp_dir : string).

(** [dst] is the name the script gives to the file of a profile of this
    run: the glider, the mean time of the interval, the extension of the
    source file. *)
Definition named (dst : string) : Prop :=
  ∃ dba_file yo intervals interval dt,
    dba_file ∈ dba_files args
    ∧ slice_sensor_data X (create_llat_dba_reader X dba_file) None = Some yo
    ∧ find_profiles X yo = inr intervals
    ∧ interval ∈ intervals
    ∧ utcfromtimestamp X (Np.nanmean interval) = Some dt
    ∧ dst = OsPath.join out_dir
              (profile_filename_of
                 (attributes_deployment_glider (load_writer X (config_path args)))
                 (strftime X dt "%Y%m%dT%H%M%SZ")
                 (filename_extension (dba_file_metadata (create_llat_dba_reader X dba_file)))
               +:+ ".nc").

(** What holds of every event of a run. *)
Definition event_ok (tr : list event) (ev : event) : Prop :=
  (∀ p, written_by (ev_call ev) = Some p → staged tr p)
  ∧ match ev_call ev with
    | Move _ dst => named dst
    | Mkstemp p => OsPath.below tmp_dir p = true
    | SetProfileId _ => (start_profile_id args <? 1)%Z = true
    | _ => True
    end.

(** Every file is a staging file of this run, or a finalized NetCDF file,
    or what an unfinished copy has left of one, or holds what it held when
    the run began. *)
Definition files_ok (s : state) : Prop :=
  ∀ p f, files s !! p = Some f →
    staged (trace s) p
    ∨ finalized f
    ∨ part_of_finalized f
    ∨ ∃ f0, fs0 !! p = Some f0 ∧ f_content f0 = f_content f.

Record run_inv (s : state) : Prop := {
  inv_ordered : ordered (trace s);
  inv_events : ∀ ev, ev ∈ trace s → event_ok (trace s) ev;
  inv_files : files_ok s;
  inv_writer : ∀ p, out_nc (ncw s) = Some p → staged (trace s) p;
  inv_glider : attributes_deployment_glider (ncw s)
               = attributes_deployment_glider (load_writer X (config_path args));
  inv_tmp_dir : Ev (Mkdtemp tmp_dir) Done ∈ trace s;
  inv_tmp_name : tmp_dir ≠ ""
}.

(** How a call may end abruptly: with an exception, the invariant kept. *)
Definition call_failed (k : abrupt) (s : state) : Prop := run_inv s ∧ raises k.

End RunAssertions.

(** The calls made while the input files are processed: no directory is
    created or removed, nothing is written to standard output, and the
    writer's identifier is assigned only when [assigns] holds. *)
Definition loop_call (assigns : bool) (c : call) : Prop :=
  match c with
  | Mkdtemp _ | Rmtree _ | StdoutWrite _ => False
  | SetProfileId _ => assigns = true
  | _ => True
  end.

(** The calls made on a staging file once [init_nc] is over. *)
Definition after_init_call (c : call) : Prop :=
  match c with
  | OpenNc _ | UpdateHistory _ _ | Populate _ _ | InsertVar _ _ _ | FinishNc _
  | Unlink _ | Move _ _ | Chmod _ _ => True
  | _ => False
  end.

(** Calls that touch no file. *)
Definition harmless (c : call) : Prop :=
  match c with
  | StdoutWrite _ | Mkdtemp _ => True
  | _ => False
  end.

(** A run that ended before any file was staged. *)
Definition ended_early (fs0 : gmap string file) (s : state) : Prop :=
  files s = fs0 ∧ output_nc_files s = [] ∧ ∀ ev, ev ∈ trace s → harmless (ev_call ev).

(** The moves a trace records as completed, oldest first. *)
Definition moves (tr : list event) : list (string * string) :=
  omap (fun ev => match ev_call ev, ev_res ev with
                  | Move src dst, Done => Some (src, dst)
                  | _, _ => None
                  end) (reverse tr).

(** The changes of mode a trace records as completed, oldest first. *)
Definition chmods (tr : list event) : list (string * Z) :=
  omap (fun ev => match ev_call ev, ev_res ev with
                  | Chmod p mode, Done => Some (p, mode)
                  | _, _ => None
                  end) (reverse tr).

(** The calls made while the files are listed. *)
Definition listing_call (c : call) : Prop :=
  match c with
  | Chmod _ _ | StdoutWrite _ => True
  | _ => False
  end.

(** The staging directory could not be removed. *)
Definition removal_failed (tr : list event) : Prop :=
  ∃ d e, Ev (Rmtree d) (Raised e) ∈ tr ∧ exn_kind e = OSError.

(** A profile was skipped between [s] and [s']: the diagnostic is the last
    entry of the log, no path was added to the list of outputs, nothing was
    moved, and no file other than the staging file [tmp] was touched. *)
Definition skipped (lv : level) (msg tmp : string) (s s' : state) : Prop :=
  head (log s') = Some (lv, msg)
  ∧ output_nc_files s' = output_nc_files s
  ∧ moves (new_events s s') = []
  ∧ ∀ p, p ≠ tmp → files s' !! p = files s !! p.

(** ** The rows of a profile *)

(** The rows [rows], in the order of the frame, are those whose timestamp
    lies in the closed interval from [p0] to [p1]. *)
Definition rows_within (ts : list float) (p0 p1 : float) (rows : list nat) : Prop :=
  StronglySorted lt rows
  ∧ ∀ i, i ∈ rows ↔ ∃ t, ts !! i = Some t ∧ Np.le p0 t = true ∧ Np.le t p1 = true.

(** A call of [insert_var_data] writes, under the name of a sensor of the
    frame, the entries of that sensor's column at the rows of the interval
    from [p0] to [p1]. *)
Definition writes_interval (d : dba) (ts : list float) (p0 p1 : float) (c : call) : Prop :=
  match c with
  | InsertVar _ name data =>
      ∃ v sn col rows,
        dba_sensors d !! v = Some sn ∧ name = sensor_name sn
        ∧ Np.column (dba_data d) v = Some col
        ∧ rows_within ts p0 p1 rows
        ∧ Forall2 (fun i x => col !! i = Some x) rows data
  | _ => True
  end.

(** The same, for a list of rows. *)
Definition writes_rows (d : dba) (p_inds : list nat) (c : call) : Prop :=
  match c with
  | InsertVar _ name data =>
      ∃ v sn, dba_sensors d !! v = Some sn ∧ name = sensor_name sn
              ∧ Np.rows_of_column (dba_data d) p_inds v = Some data
  | _ => True
  end.

Definition not_finish (c : call) : Prop :=
  match c with FinishNc _ => False | _ => True end.

(** Among the events [new], [finish_nc] was called on a file only after
    every sensor of the frame had been written to it. *)
Definition filled (d : dba) (new : list event) : Prop :=
  ∀ p res, Ev (FinishNc p) res ∈ new →
    ∀ v sn, dba_sensors d !! v = Some sn →
      ∃ data, Ev (InsertVar p (sensor_name sn) data) Done ∈ new.

(** ** What a part of the script leaves as it is *)

(** [m] takes every state to one that is [R]-related to it, however it
    ends. *)
Definition steps {A} (R : relation state) (m : M A) : Prop :=
  ∀ s, R s (m s).2.

(** The component [f] of the state is the same before and after. *)
Definition keeps {T} (f : state -> T) : relation state :=
  fun s s' => f s' = f s.

(** No path that held no file holds one afterwards. *)
Definition no_new_file : relation state :=
  fun s s' => ∀ p, files s !! p = None → files s' !! p = None.

(** [main] returned 1 with the error [msg] as the last entry of the log,
    having changed no file and no directory, printed nothing and called
    nothing. *)
Definition fails_early (fs : gmap string file) (ds : gset string)
    (r : outcome unit * state) (msg : string) : Prop :=
  r.1 = Return 1 ∧ head (log r.2) = Some (ERROR, msg)
  ∧ files r.2 = fs ∧ dirs r.2 = ds ∧ stdout r.2 = [] ∧ trace r.2 = [].

(** [m] keeps the property [J] of the state, however it ends. *)
Definition preserves {A} (J : state -> Prop) (m : M A) : Prop :=
  ∀ s, J s → J (m s).2.

(** From a state in [J], a value that [m] ends with is in [Q]. *)
Definition yields {A} (J : state -> Prop) (Q : A -> Prop) (m : M A) : Prop :=
  ∀ s a, J s → (m s).1 = Normal a → Q a.

(** The writer works below the staging directory [tmp_dir], and every file
    of [fs0] that is not below it is still there. *)
Definition guarded (fs0 : gmap string file) (tmp_dir : string) (s : state) : Prop :=
  (∀ p, out_nc (ncw s) = Some p → OsPath.below tmp_dir p = true)
  ∧ ∀ p, is_Some (fs0 !! p) → OsPath.below tmp_dir p = false → is_Some (files s !! p).

(** The path [p] is not the place of a file of [fs0] outside the staging
    directory. *)
Definition unprotected (fs0 : gmap string file) (tmp_dir p : string) : Prop :=
  OsPath.below tmp_dir p = true ∨ fs0 !! p = None.

(** The writer works below the staging directory [tmp_dir], every file of
    [fs0] that is not below it is as it was, and no such file is in the
    list of outputs. *)
Definition untouched (fs0 : gmap string file) (tmp_dir : string) (s : state) : Prop :=
  (∀ p, out_nc (ncw s) = Some p → OsPath.below tmp_dir p = true)
  ∧ (∀ p f0, fs0 !! p = Some f0 → OsPath.below tmp_dir p = false → files s !! p = Some f0)
  ∧ ∀ p, p ∈ output_nc_files s → unprotected fs0 tmp_dir p.

(** A completed move to [p] is in the trace. *)
Definition moved_to (tr : list event) (p : string) : Prop :=
  ∃ src, Ev (Move src p) Done ∈ tr.

(** Every path in the list of outputs, and every line of standard output,
    is the destination of a completed move. *)
Definition accounted (s : state) : Prop :=
  (∀ p, p ∈ output_nc_files s → moved_to (trace s) p)
  ∧ ∀ line, line ∈ stdout s → ∃ p, line = p +:+ nl ∧ moved_to (trace s) p.

(** Between [s0] and [s] no directory was made, and none was removed but
    [tmp_dir] and what lies below it. *)
Definition same_directories (s0 : state) (tmp_dir : string) (s : state) : Prop :=
  (∀ q, q ∈ dirs s → q ∈ dirs s0)
  ∧ ∀ q, q ∈ dirs s0 → q ≠ tmp_dir → OsPath.below tmp_dir q = false → q ∈ dirs s.

(** The calls made for a profile once its staging file [tmp] exists: the
    writer's calls and [os.unlink] on [tmp], the move of [tmp] to [out], and
    the change of the mode of [out] to [0o755]. *)
Definition staging_call (tmp out : string) (c : call) : Prop :=
  match c with
  | InitNc p _ | OpenNc p | UpdateHistory p _ | Populate p _ | InsertVar p _ _
  | FinishNc p | Unlink p => p = tmp
  | Move src dst => src = tmp ∧ dst = out
  | Chmod p mode => p = out ∧ mode = octal 7 5 5
  | _ => False
  end.

(** The calls of a profile, newest first: none on a file, or the making
    of a staging file [tmp] and, after it, calls for [tmp] and [out] only. *)
Definition profile_calls (out : string) (new : list event) : Prop :=
  Forall (fun ev => written_by (ev_call ev) = None) new
  ∨ ∃ tmp after before,
      new = after ++ Ev (Mkstemp tmp) Done :: before
      ∧ Forall (fun ev => staging_call tmp out (ev_call ev)) after
      ∧ Forall (fun ev => written_by (ev_call ev) = None) before.

(** * Properties of the array operations *)

Section ArrayFacts.

Lemma lookup_map {A B} (f : A -> B) (l : list A) (i : nat) :
  map f l !! i = f <$> l !! i.
Proof. revert i. induction l as [|x l IH]; intros [|i]; simpl; auto. Qed.

Lemma flatnonzero_from_spec (mask : list bool) (k i : nat) :
  i ∈ Np.flatnonzero_from k mask ↔ (k <= i)%nat ∧ mask !! (i - k)%nat = Some true.
Proof.
  revert k. induction mask as [|b mask IH]; intros k; simpl.
  - rewrite elem_of_nil. split; [tauto | intros [_ H]; discriminate].
  - destruct b; [rewrite elem_of_cons, IH | rewrite IH].
    + split.
      * intros [-> | [Hle Hl]].
        -- split; [lia |]. by replace (k - k)%nat with 0%nat by lia.
        -- split; [lia |]. replace (i - k)%nat with (S (i - S k)) by lia. done.
      * intros [Hle Hl]. destruct (decide (i = k)) as [-> | Hne]; [by left | right].
        split; [lia |]. replace (i - k)%nat with (S (i - S k)) in Hl by lia. done.
    + split.
      * intros [Hle Hl]. split; [lia |].
        replace (i - k)%nat with (S (i - S k)) by lia. done.
      * intros [Hle Hl]. destruct (decide (i = k)) as [-> | Hne].
        -- replace (k - k)%nat with 0%nat in Hl by lia. discriminate.
        -- split; [lia |]. replace (i - k)%nat with (S (i - S k)) in Hl by lia. done.
Qed.

Lemma flatnonzero_spec (mask : list bool) (i : nat) :
  i ∈ Np.flatnonzero mask ↔ mask !! i = Some true.
Proof.
  unfold Np.flatnonzero. rewrite flatnonzero_from_spec.
  replace (i - 0)%nat with i by lia. split; [tauto | intros; split; [lia | done]].
Qed.

(** A float that is not NaN is below or equal to itself. *)
Lemma le_refl (x : float) : Np.isnan x = false → Np.le x x = true.
Proof.
  unfold Np.isnan, Np.le, PrimFloat.is_nan. intros H.
  apply negb_false_iff in H.
  rewrite FloatAxioms.eqb_spec in H. rewrite FloatAxioms.leb_spec.
  unfold SFeqb in H. unfold SFleb.
  destruct (SFcompare (Prim2SF x) (Prim2SF x)) as [[]|]; done.
Qed.

End ArrayFacts.

(** * Paths *)

Lemma string_append_assoc (a b c : string) : (a +:+ b) +:+ c = a +:+ b +:+ c.
Proof.
  induction a as [|x a IH]; [reflexivity |].
  change (String x ((a +:+ b) +:+ c) = String x (a +:+ b +:+ c)). by f_equal.
Qed.

Lemma prefix_append (a b : string) : String.prefix a (a +:+ b) = true.
Proof.
  induction a as [|c a IH]; simpl; [by destruct b |].
  destruct (ascii_dec c c); [exact IH | done].
Qed.

Lemma below_join (d name : string) :
  d ≠ "" → OsPath.starts_with_slash name = false → OsPath.below d (OsPath.join d name) = true.
Proof.
  intros Hd Hname. unfold OsPath.below, OsPath.join. rewrite Hname.
  rewrite bool_decide_eq_false_2 by done. simpl.
  destruct (OsPath.ends_with_slash d); [apply prefix_append |].
  rewrite <- string_append_assoc. apply prefix_append.
Qed.

Lemma basename_start (p : string) : OsPath.starts_with_slash (OsPath.basename p) = false.
Proof.
  induction p as [|c p IH]; simpl; [done |].
  destruct (bool_decide (c = OsPath.slash)) eqn:Hc; [exact IH |].
  destruct (bool_decide (String.index 0 "/" p = None)); [exact Hc | exact IH].
Qed.

(** What follows the last slash of a path that does not end with one is
    not empty. *)
Lemma basename_app (a b : string) : OsPath.basename b ≠ "" → OsPath.basename (a +:+ b) ≠ "".
Proof.
  intros Hb. induction a as [|c a IH]; [exact Hb |].
  change (String c a +:+ b) with (String c (a +:+ b)). simpl.
  destruct (bool_decide (c = OsPath.slash)); [exact IH |].
  destruct (bool_decide (String.index 0 "/" (a +:+ b) = None)); [discriminate | exact IH].
Qed.

Lemma basename_profile_filename (glider ts ext : string) :
  OsPath.basename (profile_filename_of glider ts ext) ≠ "".
Proof.
  unfold profile_filename_of. do 5 apply basename_app. discriminate.
Qed.

(** A name that begins with the last component of a path does not begin
    with a slash, when that component is not empty. *)
Lemma staging_name (p rest : string) :
  OsPath.basename p ≠ "" → OsPath.starts_with_slash (OsPath.basename p +:+ rest) = false.
Proof.
  intros Hne. pose proof (basename_start p) as Hb.
  destruct (OsPath.basename p) as [|c b]; [done | exact Hb].
Qed.

Lemma staging_name_start (p rnd : string) :
  OsPath.starts_with_slash rnd = false →
  OsPath.starts_with_slash (OsPath.basename p +:+ rnd +:+ ".nc") = false.
Proof.
  intros Hrnd. pose proof (basename_start p) as Hb.
  destruct (OsPath.basename p) as [|c b]; simpl in *; [| exact Hb].
  destruct rnd; [done | exact Hrnd].
Qed.

Lemma fresh_path_name (X : externals) (dir pre suf : string) (taken : string -> bool)
    (fuel n n' : nat) (p : string) :
  fresh_path X dir pre suf taken n fuel = Some (p, n') →
  taken p = false ∧ ∃ k, p = OsPath.join dir (pre +:+ random_name X k +:+ suf).
Proof.
  revert n. induction fuel as [|fuel IH]; intros n; simpl; [done |].
  destruct (taken (OsPath.join dir (pre +:+ random_name X n +:+ suf))) eqn:Ht; [apply IH |].
  intros [= <- <-]. eauto.
Qed.

Lemma join_nonempty (a b : string) : b ≠ "" → OsPath.join a b ≠ "".
Proof.
  intros Hb. unfold OsPath.join. destruct (OsPath.starts_with_slash b); [exact Hb |].
  destruct (bool_decide (a = "") || OsPath.ends_with_slash a).
  - destruct a; [exact Hb | discriminate].
  - destruct a; discriminate.
Qed.

(** * Rules of the logic *)

Section Rules.

Context {A : Type}.

Lemma hoare_conseq (P P' : state -> Prop) (m : M A)
    (Q Q' : A -> state -> Prop) (E E' : abrupt -> state -> Prop) :
  hoare P m Q E →
  (∀ s, P' s → P s) → (∀ a s, Q a s → Q' a s) → (∀ k s, E k s → E' k s) →
  hoare P' m Q' E'.
Proof.
  intros H HP HQ HE s Hs. specialize (H s (HP s Hs)).
  destruct (m s) as [[a| |c|e] s']; auto.
Qed.

Lemma hoare_pre (P P' : state -> Prop) (m : M A) Q E :
  hoare P m Q E → (∀ s, P' s → P s) → hoare P' m Q E.
Proof. intros H HP s Hs. apply H. auto. Qed.

Lemma hoare_ret (a : A) (P : state -> Prop) Q E :
  (∀ s, P s → Q a s) → hoare P (ret a) Q E.
Proof. intros H s Hs. simpl. auto. Qed.

Lemma hoare_raise (e : exn) (P : state -> Prop) (Q : A -> state -> Prop) E :
  (∀ s, P s → E (ARaise e) s) → hoare P (raise e) Q E.
Proof. intros H s Hs. simpl. auto. Qed.

Lemma hoare_continue (P : state -> Prop) (Q : A -> state -> Prop) E :
  (∀ s, P s → E ACont s) → hoare P continue Q E.
Proof. intros H s Hs. simpl. auto. Qed.

Lemma hoare_return (c : Z) (P : state -> Prop) (Q : A -> state -> Prop) E :
  (∀ s, P s → E (ARet c) s) → hoare P (return_ c) Q E.
Proof. intros H s Hs. simpl. auto. Qed.

Lemma hoare_of_option (o : option A) (e : exn) (P : state -> Prop) Q E :
  (∀ a s, o = Some a → P s → Q a s) →
  (∀ s, o = None → P s → E (ARaise e) s) →
  hoare P (of_option o e) Q E.
Proof. intros H1 H2 s Hs. destruct o; simpl; auto. Qed.

Lemma hoare_try (P : state -> Prop) (m : M A) (cls : exn_class) (h : exn -> M A)
    Q E (E1 : abrupt -> state -> Prop) :
  hoare P m Q E1 →
  (∀ e, exn_kind e = cls → hoare (E1 (ARaise e)) (h e) Q E) →
  (∀ k s, E1 k s → (∀ e, k = ARaise e → exn_kind e ≠ cls) → E k s) →
  hoare P (try_except m cls h) Q E.
Proof.
  intros Hm Hh HE s Hs. unfold try_except. specialize (Hm s Hs).
  destruct (m s) as [[a| |c|e] s']; [done | | |].
  - apply (HE ACont); [done | intros; discriminate].
  - apply (HE (ARet c)); [done | intros; discriminate].
  - destruct (decide (exn_kind e = cls)) as [Hc|Hc].
    + by apply Hh.
    + apply (HE (ARaise e)); [done | by intros ? [= <-]].
Qed.

(** A fact that does not depend on the state can be taken out of the
    precondition. *)
Lemma hoare_pure (fact : Prop) (P : state -> Prop) (m : M A) Q E :
  (fact → hoare P m Q E) → hoare (fun s => fact ∧ P s) m Q E.
Proof. intros H s [Hf Hs]. by apply H. Qed.

End Rules.

Lemma hoare_bind {A B} (P : state -> Prop) (m : M A) (Q : A -> state -> Prop)
    (k : A -> M B) (R : B -> state -> Prop) E :
  hoare P m Q E → (∀ a, hoare (Q a) (k a) R E) → hoare P (bind m k) R E.
Proof.
  intros Hm Hk s Hs. unfold bind. specialize (Hm s Hs).
  destruct (m s) as [[a| |c|e] s']; auto. by apply Hk.
Qed.

Lemma hoare_bind_option {A B} (o : option A) (e : exn) (k : A -> M B)
    (P : state -> Prop) (Q : B -> state -> Prop) E :
  (∀ s, o = None → P s → E (ARaise e) s) →
  (∀ a, o = Some a → hoare P (k a) Q E) →
  hoare P (a <- of_option o e;; k a) Q E.
Proof.
  intros Hnone Hsome s Hs. unfold bind. destruct o as [a|]; simpl.
  - by apply Hsome.
  - by apply Hnone.
Qed.

Lemma hoare_bind_get {B} (k : state -> M B)
    (P : state -> Prop) (Q : B -> state -> Prop) E :
  (∀ s0, hoare (fun s => P s ∧ s = s0) (k s0) Q E) →
  hoare P (s <- get;; k s) Q E.
Proof. intros Hk s Hs. unfold bind. simpl. by apply (Hk s). Qed.

Lemma hoare_bind_ret {A B} (a : A) (k : A -> M B)
    (P : state -> Prop) (Q : B -> state -> Prop) E :
  hoare P (k a) Q E → hoare P (x <- ret a;; k x) Q E.
Proof. intros H s Hs. exact (H s Hs). Qed.

Lemma hoare_bind_continue {A B} (k : A -> M B)
    (P : state -> Prop) (Q : B -> state -> Prop) (E : abrupt -> state -> Prop) :
  (∀ s, P s → E ACont s) → hoare P (x <- continue;; k x) Q E.
Proof. intros H s Hs. exact (H s Hs). Qed.

Lemma hoare_bind_raise {A B} (e : exn) (k : A -> M B)
    (P : state -> Prop) (Q : B -> state -> Prop) (E : abrupt -> state -> Prop) :
  (∀ s, P s → E (ARaise e) s) → hoare P (x <- raise e;; k x) Q E.
Proof. intros H s Hs. exact (H s Hs). Qed.

(** Reading the state: what held before holds of the state read. *)
Lemma hoare_bind_read {B} (k : state -> M B)
    (P : state -> Prop) (Q : B -> state -> Prop) E :
  (∀ s0, P s0 → hoare P (k s0) Q E) →
  hoare P (s <- get;; k s) Q E.
Proof. intros Hk s Hs. unfold bind. simpl. by apply (Hk s Hs). Qed.

Lemma hoare_get (P : state -> Prop) (Q : state -> state -> Prop) E :
  (∀ s, P s → Q s s) → hoare P get Q E.
Proof. intros H s Hs. simpl. auto. Qed.

Lemma hoare_modify (f : state -> state) (P : state -> Prop) Q E :
  (∀ s, P s → Q tt (f s)) → hoare P (modify f) Q E.
Proof. intros H s Hs. simpl. auto. Qed.

Lemma hoare_when (b : bool) (m : M unit) (P : state -> Prop) Q E :
  (b = true → hoare P m Q E) → (b = false → ∀ s, P s → Q tt s) →
  hoare P (when b m) Q E.
Proof. destruct b; simpl; intros H1 H2; [auto | by apply hoare_ret, H2]. Qed.

(** A loop keeps an invariant that its body keeps, also when the body ends
    with [continue]; the loop itself never ends with [continue]. *)
Lemma hoare_for_each {B} (l : list B) (body : B -> M unit)
    (I : state -> Prop) (E : abrupt -> state -> Prop) :
  (∀ x, x ∈ l → hoare I (body x) (fun _ => I) E) →
  (∀ s, E ACont s → I s) →
  hoare I (for_each l body) (fun _ => I) (fun k s => k ≠ ACont ∧ E k s).
Proof.
  intros Hbody Hcont. induction l as [|x l IH]; intros s Hs; simpl; [done |].
  pose proof (Hbody x ltac:(left) s Hs) as Hx.
  destruct (body x s) as [[[]| |c|e] s']; try done.
  - apply IH; [| done]. intros y Hy. apply Hbody. by right.
  - apply IH; [| by apply Hcont]. intros y Hy. apply Hbody. by right.
Qed.

(** ** Calls added to the trace *)

Section EmitsOnly.

Context (C : call -> Prop).

Lemma emits_ret {A} (a : A) : emits_only C (ret a).
Proof. intros s. split; [by exists [] | done]. Qed.

Lemma emits_raise {A} (e : exn) : emits_only C (@raise A e).
Proof. intros s. split; [by exists [] | done]. Qed.

Lemma emits_continue {A} : emits_only C (@continue A).
Proof. intros s. split; [by exists [] | done]. Qed.

Lemma emits_get : emits_only C get.
Proof. intros s. split; [by exists [] | done]. Qed.

Lemma emits_of_option {A} (o : option A) (e : exn) : emits_only C (of_option o e).
Proof. destruct o; [apply emits_ret | apply emits_raise]. Qed.

Lemma emits_modify (f : state -> state) :
  (∀ s, trace (f s) = trace s) → emits_only C (modify f).
Proof. intros H s. split; [exists []; simpl; by rewrite H | done]. Qed.

Lemma emits_bind {A B} (m : M A) (k : A -> M B) :
  emits_only C m → (∀ a, emits_only C (k a)) → emits_only C (bind m k).
Proof.
  intros Hm Hk s. unfold bind. destruct (Hm s) as [(new & Htr & Hnew) Hret].
  destruct (m s) as [[a| |c|e] s']; simpl in *;
    try (by destruct (Hret c)); try (split; [by exists new | done]).
  destruct (Hk a s') as [(new' & Htr' & Hnew') Hret']. split; [| done].
  exists (new' ++ new). rewrite Htr', Htr, app_assoc. split; [done |].
  by apply Forall_app.
Qed.

Lemma emits_when (b : bool) (m : M unit) : emits_only C m → emits_only C (when b m).
Proof. destruct b; [done | intros; apply emits_ret]. Qed.

Lemma emits_try {A} (m : M A) (cls : exn_class) (h : exn -> M A) :
  emits_only C m → (∀ e, emits_only C (h e)) → emits_only C (try_except m cls h).
Proof.
  intros Hm Hh s. unfold try_except. destruct (Hm s) as [(new & Htr & Hnew) Hret].
  destruct (m s) as [[a| |c|e] s']; simpl in *;
    try (by destruct (Hret c)); try (split; [by exists new | done]).
  destruct (decide (exn_kind e = cls)); [| split; [by exists new | done]].
  destruct (Hh e s') as [(new' & Htr' & Hnew') Hret']. split; [| done].
  exists (new' ++ new). rewrite Htr', Htr, app_assoc. split; [done |].
  by apply Forall_app.
Qed.

Lemma emits_for_each {B} (l : list B) (body : B -> M unit) :
  (∀ x, emits_only C (body x)) → emits_only C (for_each l body).
Proof.
  intros Hbody. induction l as [|x l IH]; [apply emits_ret |].
  intros s. simpl. destruct (Hbody x s) as [(new & Htr & Hnew) Hret].
  destruct (body x s) as [[[]| |c|e] s']; simpl in *;
    try (by destruct (Hret c));
    try (split; [by exists new | done]);
    try (destruct (IH s') as [(new' & Htr' & Hnew') Hret']; split; [| done];
         exists (new' ++ new); rewrite Htr', Htr, app_assoc; split; [done |];
         by apply Forall_app).
Qed.

Lemma emits_emit (c : call) (r : result) : C c → emits_only C (emit c r).
Proof. intros Hc s. split; [| done]. exists [Ev c r]. split; [done |]. by constructor. Qed.

Lemma emits_failing {A} (c : call) (e : exn) : C c → emits_only C (@failing A c e).
Proof. intros Hc. apply emits_bind; [by apply emits_emit | intros; apply emits_raise]. Qed.

End EmitsOnly.

Lemma emits_weaken {A} (C C' : call -> Prop) (m : M A) :
  (∀ c, C c → C' c) → emits_only C m → emits_only C' m.
Proof.
  intros HC Hm s. destruct (Hm s) as [(new & Htr & Hnew) Hret]. split; [| done].
  exists new. split; [done |]. eapply Forall_impl; [exact Hnew |]. simpl. auto.
Qed.

(** ** What the parts of the script add to the trace *)

Lemma emits_when_true (C : call -> Prop) (b : bool) (m : M unit) :
  (b = true → emits_only C m) → emits_only C (when b m).
Proof. destruct b; [auto | intros; apply emits_ret]. Qed.

Ltac emits_step :=
  first
    [ apply emits_ret | apply emits_raise | apply emits_continue | apply emits_get
    | apply emits_of_option
    | apply emits_bind; [| intros ?]
    | apply emits_when_true; intros ?
    | apply emits_try; [| intros ?]
    | apply emits_for_each; intros ?
    | apply emits_modify; intros ?; reflexivity
    | apply emits_emit; simpl; solve [auto]
    | apply emits_failing; simpl; solve [auto]
    | match goal with
      | |- emits_only _ (match ?x with _ => _ end) => destruct x
      | |- emits_only _ (let _ := _ in _) => cbv zeta
      end ].

Section Emits.

Context (X : externals).

Lemma emits_stage_rest (dba_file : string) (d : dba) (p_inds : list nat)
    (dt : datetime) (tmp_nc out_nc_file step : string) (nc_file : bool) :
  emits_only after_init_call
    (try_except (open_nc X;;; update_history X (argv0 X +:+ " " +:+ dba_file)) OSError
       (fun e => logging ERROR ("Error opening " +:+ tmp_nc +:+ ": " +:+ str_exn e);;;
                 unlink X tmp_nc;;; continue))
  ∧ emits_only after_init_call (populate X step)
  ∧ emits_only after_init_call (insert_all X d p_inds)
  ∧ emits_only after_init_call (finish_nc X)
  ∧ emits_only after_init_call (publish X nc_file tmp_nc out_nc_file).
Proof.
  repeat apply conj;
    unfold publish, insert_all, finish_nc, populate, open_nc, update_history, unlink,
      insert_var_data, writer_step, update_nc, current_nc, move, chmod, logging;
    repeat emits_step.
Qed.

Lemma emits_process_dba (args : Args) (out_dir tmp_dir : string)
    (ctd_sensors : list string) (dba_file : string) :
  emits_only (loop_call (start_profile_id args <? 1)%Z)
    (process_dba X args out_dir tmp_dir ctd_sensors dba_file).
Proof.
  unfold process_dba, process_profile, write_profile, stage, publish, insert_all, skip_no_position,
    column_of, format_s_exn, mkstemp, init_nc, finish_nc, populate, open_nc,
    update_history, unlink, insert_var_data, writer_step, update_nc, current_nc,
    move, chmod, logging.
  repeat emits_step.
Qed.

End Emits.

(** * The invariant of a run *)

Lemma follows_plain (c : call) (r : result) (before : list event) :
  match c with Move _ _ | Chmod _ _ => False | _ => True end →
  follows (Ev c r) before.
Proof. unfold follows. destruct c; simpl; tauto. Qed.

Lemma staged_cons (tr : list event) (ev : event) (p : string) :
  staged tr p → staged (ev :: tr) p.
Proof. unfold staged. intros. by right. Qed.

Section Invariant.

Context (X : externals) (args : Args).
Context (fs0 : gmap string file) (out_dir tmp_dir : string).

Local Abbreviation Inv := (run_inv X args fs0 out_dir tmp_dir).
Local Abbreviation Ok := (event_ok X args out_dir tmp_dir).

Lemma event_ok_cons (tr : list event) (ev ev' : event) :
  Ok tr ev → Ok (ev' :: tr) ev.
Proof.
  intros [H1 H2]. split; [| done]. intros p Hp. apply staged_cons. auto.
Qed.

(** One more event, and the changes to the files and the writer that
    come with it. *)
Lemma inv_event (s s' : state) (ev : event) :
  Inv s →
  trace s' = ev :: trace s →
  follows ev (trace s) →
  Ok (trace s') ev →
  (∀ p f, files s' !! p = Some f →
          files s !! p = Some f ∨ staged (trace s') p ∨ finalized f
          ∨ part_of_finalized f
          ∨ ∃ f1, files s !! p = Some f1 ∧ f_content f1 = f_content f) →
  (∀ p, out_nc (ncw s') = Some p → out_nc (ncw s) = Some p ∨ staged (trace s') p) →
  attributes_deployment_glider (ncw s') = attributes_deployment_glider (ncw s) →
  Inv s'.
Proof.
  intros [Hord Hev Hfs Hw Hg Ht Hn] Htr Hfol Hok Hfiles Hwr Hgl.
  constructor.
  - rewrite Htr. simpl. auto.
  - intros ev' Hin. rewrite Htr in Hin. apply elem_of_cons in Hin as [-> | Hin]; [done |].
    rewrite Htr. apply event_ok_cons. auto.
  - intros p f Hp.
    destruct (Hfiles p f Hp) as [Hold | [Hst | [Hfin | [Hpart | (f1 & Hf1 & Hc)]]]].
    + destruct (Hfs p f Hold) as [? | [? | ?]]; [left | right; by left | right; by right].
      rewrite Htr. by apply staged_cons.
    + by left.
    + right. by left.
    + right. right. by left.
    + destruct (Hfs p f1 Hf1) as [? | [Hfin | [Hpart | (f0 & ? & Hc0)]]].
      * left. rewrite Htr. by apply staged_cons.
      * right. left. destruct Hfin as (nc & Hnc & ?). exists nc. by rewrite <- Hc.
      * right. right. left. destruct Hpart as (nc & Hnc & ?). exists nc. by rewrite <- Hc.
      * right. right. right. exists f0. split; [done |]. by rewrite Hc0.
  - intros p Hp. destruct (Hwr p Hp) as [Hold | ?]; [| done].
    rewrite Htr. apply staged_cons. auto.
  - by rewrite Hgl.
  - rewrite Htr. by right.
  - exact Hn.
Qed.

(** Changes that touch neither the trace, nor the files, nor the file and
    the glider of the writer. *)
Lemma inv_same (s s' : state) :
  Inv s → trace s' = trace s → files s' = files s →
  out_nc (ncw s') = out_nc (ncw s) →
  attributes_deployment_glider (ncw s') = attributes_deployment_glider (ncw s) →
  Inv s'.
Proof.
  intros [Hord Hev Hfs Hw Hg Ht Hd] Htr Hf Hn Hgl. constructor.
  - by rewrite Htr.
  - rewrite Htr. done.
  - intros p f. rewrite Hf, Htr. apply Hfs.
  - rewrite Hn, Htr. done.
  - by rewrite Hgl.
  - by rewrite Htr.
  - exact Hd.
Qed.

End Invariant.

Lemma new_events_app (s s' : state) (new : list event) :
  trace s' = new ++ trace s → new_events s s' = new.
Proof.
  intros H. unfold new_events. rewrite H, length_app.
  replace (length new + length (trace s) - length (trace s))%nat with (length new) by lia.
  by rewrite take_app_length.
Qed.

(** ** The calls keep the invariant *)

Ltac unfold_monad :=
  cbv [bind ret get modify raise continue return_ of_option emit failing logging try_except];
  simpl.

(** The bound on the candidates is not to be unrolled in proofs. *)
#[global] Opaque TMP_MAX.

Lemma mkdtemp_named (X : externals) (s s' : state) (d : string) :
  mkdtemp X s = (Normal d, s') → d ≠ "".
Proof.
  unfold mkdtemp. unfold_monad.
  destruct (isdir s (gettempdir X)); simpl; [| discriminate].
  destruct (fresh_path _ _ _ _ _ _ _) as [[p n]|] eqn:Hfresh; simpl; [| discriminate].
  apply fresh_path_name in Hfresh as [_ [k ->]].
  destruct (fault X (Mkdtemp _)); simpl; [discriminate |].
  intros [= <- _]. apply join_nonempty. discriminate.
Qed.

Section Calls.

Context (X : externals) (args : Args).
Context (fs0 : gmap string file) (out_dir tmp_dir : string).

Local Abbreviation Inv := (run_inv X args fs0 out_dir tmp_dir).
Local Abbreviation Ok := (event_ok X args out_dir tmp_dir).

Local Abbreviation failed := (call_failed X args fs0 out_dir tmp_dir).

Lemma inv_mkstemp (suf name : string) :
  OsPath.basename name ≠ "" →
  hoare Inv (mkstemp X tmp_dir suf (OsPath.basename name))
    (fun p s => Inv s ∧ staged (trace s) p) failed.
Proof.
  intros Hname s HI. unfold mkstemp. unfold_monad.
  destruct (isdir s tmp_dir); simpl; [| split; [done | by eexists]].
  destruct (fresh_path _ _ _ _ _ _ _) as [[p n]|] eqn:Hfresh; simpl;
    [| split; [done | by eexists]].
  apply fresh_path_name in Hfresh as [Htaken [k ->]].
  assert (Hbelow : OsPath.below tmp_dir
                     (OsPath.join tmp_dir (OsPath.basename name +:+ random_name X k +:+ suf))
                   = true).
  { apply below_join; [exact (inv_tmp_name _ _ _ _ _ _ HI) | by apply staging_name]. }
  destruct (fault X (Mkstemp _)) as [e|]; simpl.
  - split; [| by eexists]. eapply inv_event; [exact HI | done | done | | | |]; simpl; auto.
    split; [done | exact Hbelow].
  - split; [| by left]. eapply inv_event; [exact HI | done | done | | | |]; simpl; auto.
    + split; [done | exact Hbelow].
    + intros q f Hq.
      destruct (decide (OsPath.join tmp_dir
                          (OsPath.basename name +:+ random_name X k +:+ suf) = q))
        as [<- | Hne].
      * right. left. by left.
      * left. by rewrite lookup_insert_ne in Hq.
Qed.

Lemma inv_init_nc (p : string) :
  hoare (fun s => Inv s ∧ staged (trace s) p) (init_nc X p)
    (fun _ s => Inv s ∧ out_nc (ncw s) = Some p) failed.
Proof.
  intros s [HI Hst]. unfold init_nc. unfold_monad.
  destruct (fault X (InitNc p _)) as [e|]; simpl.
  - split; [| by eexists]. eapply inv_event; [exact HI | done | done | | | |]; simpl; auto.
    split; [| done]. simpl. intros q [= <-]. by apply staged_cons.
  - split; [| done]. eapply inv_event; [exact HI | done | done | | | |]; simpl; auto.
    + split; [| done]. simpl. intros q [= <-]. by apply staged_cons.
    + intros q f Hq. destruct (decide (p = q)) as [<- | Hne].
      * right. left. by apply staged_cons.
      * left. by rewrite lookup_insert_ne in Hq.
    + intros q [= <-]. right. by apply staged_cons.
Qed.

Lemma inv_writer_step (c : string -> call) (f : nc_file -> nc_file) (p : string) :
  (∀ q, written_by (c q) = Some q) →
  (∀ q, match c q with
        | Move _ _ | Chmod _ _ | Mkstemp _ | SetProfileId _ => False
        | _ => True
        end) →
  hoare (fun s => Inv s ∧ out_nc (ncw s) = Some p) (writer_step X c f)
    (fun _ s => Inv s ∧ out_nc (ncw s) = Some p) failed.
Proof.
  intros Hc1 Hc2 s [HI Hp].
  assert (Hst : staged (trace s) p) by (by apply (inv_writer _ _ _ _ _ _ HI)).
  assert (Hfol : ∀ r tr, follows (Ev (c p) r) tr).
  { intros r tr. unfold follows. simpl. specialize (Hc2 p). by destruct (c p). }
  assert (Hok : ∀ r tr, staged tr p → Ok tr (Ev (c p) r)).
  { intros r tr Htr. split; simpl.
    - intros q. rewrite Hc1. by intros [= <-].
    - specialize (Hc2 p). by destruct (c p). }
  assert (Hfail : ∀ e, Inv (set_trace (cons (Ev (c p) (Raised e))) s)).
  { intros e. eapply inv_event; [exact HI | done | apply Hfol | | | |]; simpl; auto.
    apply Hok. by apply staged_cons. }
  unfold writer_step, current_nc. unfold_monad. rewrite Hp. simpl.
  destruct (fault X (c p)) as [e|]; simpl; [split; [done | by eexists] |].
  unfold update_nc. unfold_monad.
  destruct (files s !! p) as [[mode [data| |nc|part]]|] eqn:Hfile; simpl;
    try (split; [done | by eexists]).
  split; [| done].
  eapply inv_event; [exact HI | done | apply Hfol | | | |]; simpl; auto.
  - apply Hok. by apply staged_cons.
  - intros q g Hq. destruct (decide (p = q)) as [<- | Hne].
    + right. left. by apply staged_cons.
    + left. by rewrite lookup_insert_ne in Hq.
Qed.

Lemma inv_finish_nc (p : string) :
  hoare (fun s => Inv s ∧ out_nc (ncw s) = Some p) (finish_nc X)
    (fun b s => Inv s
                ∧ (b = true →
                   (∃ rest, trace s = Ev (FinishNc p) Done :: rest)
                   ∧ ∀ f, files s !! p = Some f → finalized f))
    failed.
Proof.
  intros s [HI Hp].
  assert (Hst : staged (trace s) p) by (by apply (inv_writer _ _ _ _ _ _ HI)).
  assert (Hok : ∀ r tr, staged tr p → Ok tr (Ev (FinishNc p) r)).
  { intros r tr Htr. split; simpl; [| done]. by intros q [= <-]. }
  assert (Hend : ∀ r, Inv (set_trace (cons (Ev (FinishNc p) r)) s)).
  { intros r. eapply inv_event; [exact HI | done | done | | | |]; simpl; auto.
    apply Hok. by apply staged_cons. }
  unfold finish_nc. unfold_monad. rewrite Hp.
  destruct (fault X (FinishNc p)) as [e|]; simpl; [split; [done | by eexists] |].
  destruct (finish_nc_returns X p); simpl; [| split; [done | done]].
  unfold update_nc. unfold_monad.
  destruct (files s !! p) as [[mode [data| |nc|part]]|] eqn:Hfile; simpl;
    try (split; [done | by eexists]).
  split.
  - eapply inv_event; [exact HI | done | done | | | |]; simpl; auto.
    + apply Hok. by apply staged_cons.
    + intros q g Hq. destruct (decide (p = q)) as [<- | Hne].
      * right. left. by apply staged_cons.
      * left. by rewrite lookup_insert_ne in Hq.
    + done.
  - intros _. split; [by eexists |]. intros g. rewrite lookup_insert_eq.
    intros [= <-]. by eexists.
Qed.

Lemma inv_emit (s : state) (c : call) (r : result) :
  Inv s → follows (Ev c r) (trace s) → Ok (Ev c r :: trace s) (Ev c r) →
  Inv (set_trace (cons (Ev c r)) s).
Proof.
  intros HI Hfol Hok.
  eapply inv_event; [exact HI | done | exact Hfol | exact Hok | | |]; simpl; auto.
Qed.

Lemma ok_plain (c : call) (r : result) (tr : list event) :
  written_by c = None →
  match c with Move _ _ | Mkstemp _ | SetProfileId _ => False | _ => True end →
  Ok tr (Ev c r).
Proof. intros Hw Hc. split; simpl; [by rewrite Hw | by destruct c]. Qed.

Lemma inv_move (src dst : string) :
  hoare (fun s => Inv s
                  ∧ (∃ rest, trace s = Ev (FinishNc src) Done :: rest)
                  ∧ (∀ f, files s !! src = Some f → finalized f)
                  ∧ named X args out_dir dst)
    (move X src dst)
    (fun _ s => Inv s ∧ ∃ rest, trace s = Ev (Move src dst) Done :: rest) failed.
Proof.
  intros s (HI & [rest Hfin] & Hfile & Hname).
  assert (Hst : staged (trace s) src).
  { apply (inv_events _ _ _ _ _ _ HI (Ev (FinishNc src) Done)); [| done].
    rewrite Hfin. by left. }
  assert (Hfol : ∀ r, follows (Ev (Move src dst) r) (trace s)).
  { intros r. unfold follows. simpl. eauto. }
  assert (Hok : ∀ r, Ok (Ev (Move src dst) r :: trace s) (Ev (Move src dst) r)).
  { intros r. split; simpl; [| done]. intros q [= <-]. by apply staged_cons. }
  assert (Hend : ∀ r, Inv (set_trace (cons (Ev (Move src dst) r)) s)).
  { intros r. by apply inv_emit. }
  unfold move. unfold_monad.
  destruct (isdir s dst && path_exists s _); simpl; [split; [done | by eexists] |].
  destruct (files s !! src) as [f|] eqn:Hsrc; simpl; [| split; [done | by eexists]].
  set (real_dst := if isdir s dst then OsPath.join dst (OsPath.basename src) else dst).
  destruct (Hfile f eq_refl) as (nc & Hnc & Hstage).
  destruct (fault X (Move src dst)) as [e|]; simpl.
  - split; [| by eexists].
    eapply inv_event; [exact HI | done | apply Hfol | apply Hok | | |];
      simpl; [| by auto | done].
    intros q g. unfold left_by_move.
    destruct (bool_decide (src = real_dst)); [by left |].
    destruct (move_reached X src dst); [by left | | |];
      (destruct (decide (real_dst = q)) as [<- | Hne];
       [rewrite lookup_insert_eq; intros [= <-]
       | rewrite lookup_insert_ne by done; by left]).
    + right. right. right. left. exists nc. simpl. by rewrite Hnc.
    + right. right. left. by exists nc.
    + right. right. left. by exists nc.
  - split; [| by eexists].
    eapply inv_event; [exact HI | done | apply Hfol | apply Hok | | |];
      simpl; [| by auto | done].
    intros q g Hq.
    destruct (decide (real_dst = q)) as [Heq | Hne].
    + rewrite Heq, lookup_insert_eq in Hq. injection Hq as <-. right. right. left.
      by exists nc.
    + rewrite lookup_insert_ne in Hq by done.
      apply lookup_delete_Some in Hq as [_ Hq]. by left.
Qed.

Lemma inv_chmod (p : string) (mode : Z) (ev0 : event) :
  hoare (fun s => Inv s ∧ ev0 ∈ trace s
                  ∧ ((mode = octal 6 6 4 ∧ ∃ d, Ev (Rmtree d) Done ∈ trace s)
                     ∨ mode = octal 7 5 5 ∧ ∃ src rest, trace s = Ev (Move src p) Done :: rest))
    (chmod X p mode) (fun _ s => Inv s ∧ ev0 ∈ trace s) failed.
Proof.
  intros s (HI & Hev0 & Hmode).
  assert (Hend : ∀ r, Inv (set_trace (cons (Ev (Chmod p mode) r)) s)).
  { intros r. apply inv_emit; [done | | by apply ok_plain].
    unfold follows. simpl. exact Hmode. }
  unfold chmod. unfold_monad.
  destruct (fault X (Chmod p mode)) as [e|]; simpl; [split; [done | by eexists] |].
  destruct (files s !! p) as [f|] eqn:Hp; simpl.
  - split; [| by right].
    eapply inv_event; [exact HI | done | | by apply ok_plain | | |];
      simpl; [| | by auto | done].
    + unfold follows. simpl. exact Hmode.
    + intros q g Hq. destruct (decide (p = q)) as [<- | Hne].
      * rewrite lookup_insert_eq in Hq. injection Hq as <-. right. right. right. eauto.
      * left. by rewrite lookup_insert_ne in Hq.
  - destruct (isdir s p); simpl; [split; [done | by right] | split; [done | by eexists]].
Qed.

Lemma inv_unlink (p : string) :
  hoare Inv (unlink X p) (fun _ s => Inv s) failed.
Proof.
  intros s HI.
  assert (Hend : ∀ r, Inv (set_trace (cons (Ev (Unlink p) r)) s)).
  { intros r. apply inv_emit; [done | done | by apply ok_plain]. }
  unfold unlink. unfold_monad.
  destruct (fault X (Unlink p)) as [e|]; simpl; [split; [done | by eexists] |].
  destruct (isfile s p); simpl; [| split; [done | by eexists]].
  eapply inv_event; [exact HI | done | done | by apply ok_plain | | |];
    simpl; [| by auto | done].
  intros q g Hq. apply lookup_delete_Some in Hq as [_ Hq]. by left.
Qed.

Lemma inv_rmtree (d : string) :
  hoare Inv (rmtree X d) (fun _ s => Inv s ∧ Ev (Rmtree d) Done ∈ trace s) failed.
Proof.
  intros s HI.
  assert (Hend : ∀ r, Inv (set_trace (cons (Ev (Rmtree d) r)) s)).
  { intros r. apply inv_emit; [done | done | by apply ok_plain]. }
  unfold rmtree. unfold_monad.
  destruct (fault X (Rmtree d)) as [e|]; simpl; [split; [done | by eexists] |].
  destruct (isdir s d); simpl; [| split; [done | by eexists]].
  split; [| by left].
  eapply inv_event; [exact HI | done | done | by apply ok_plain | | |];
    simpl; [| by auto | done].
  intros q g Hq. apply map_lookup_filter_Some in Hq as [Hq _]. by left.
Qed.

Lemma inv_stdout_write (line : string) (ev0 : event) :
  hoare (fun s => Inv s ∧ ev0 ∈ trace s) (stdout_write line)
    (fun _ s => Inv s ∧ ev0 ∈ trace s) failed.
Proof.
  intros s [HI Hev0]. unfold stdout_write. unfold_monad. split; [| by right].
  apply inv_emit; [| done | by apply ok_plain].
  by apply (inv_same _ _ _ _ _ s).
Qed.

Lemma inv_logging (lv : level) (msg : string) (P : state -> Prop) :
  (∀ s f, P s → P (set_log f s)) →
  hoare (fun s => Inv s ∧ P s) (logging lv msg) (fun _ s => Inv s ∧ P s) failed.
Proof.
  intros HP s [HI Hs]. unfold_monad. split; [| by apply HP].
  by apply (inv_same _ _ _ _ _ s).
Qed.

End Calls.

(** ** The parts of the script keep the invariant *)

Section Body.

Context (X : externals) (args : Args).
Context (fs0 : gmap string file) (out_dir tmp_dir : string).

Local Abbreviation Inv := (run_inv X args fs0 out_dir tmp_dir).
Local Abbreviation failed := (call_failed X args fs0 out_dir tmp_dir).

(** The invariant in every abrupt end. *)
Local Abbreviation kept := (fun (_ : abrupt) (s : state) => Inv s).

Lemma failed_kept {A} (P : state -> Prop) (m : M A) (Q : A -> state -> Prop) :
  hoare P m Q failed → hoare P m Q kept.
Proof. intros H. eapply hoare_conseq; [exact H | auto | auto | by intros k s [? _]]. Qed.

Lemma inv_log {A} (lv : level) (msg : string) (k : M A)
    (P : state -> Prop) (Q : A -> state -> Prop) (E : abrupt -> state -> Prop) :
  (∀ s f, P s → P (set_log f s)) →
  hoare P k Q E → hoare P (logging lv msg;;; k) Q E.
Proof.
  intros HP Hk s Hs. unfold logging, modify, bind. simpl. apply Hk. by apply HP.
Qed.

Lemma inv_set_log (s : state) f : Inv s → Inv (set_log f s).
Proof. intros HI. by apply (inv_same _ _ _ _ _ s). Qed.

Lemma inv_insert_all (d : dba) (p_inds : list nat) (p : string) :
  hoare (fun s => Inv s ∧ out_nc (ncw s) = Some p) (insert_all X d p_inds)
    (fun _ s => Inv s ∧ out_nc (ncw s) = Some p) failed.
Proof.
  unfold insert_all.
  eapply hoare_conseq;
    [apply (hoare_for_each _ _ (fun s => Inv s ∧ out_nc (ncw s) = Some p) failed)
    | auto | auto | by intros k s [_ ?]].
  - intros v _.
    apply hoare_bind_option; [intros s _ [HI _]; split; [done | by eexists] |].
    intros sn _.
    apply hoare_bind_option; [intros s _ [HI _]; split; [done | by eexists] |].
    intros var_data _.
    apply inv_log; [intros s f [HI Hp]; split; [by apply inv_set_log | done] |].
    apply inv_writer_step; [done | done].
  - by intros s [_ [e ?]].
Qed.

Lemma inv_stage (dba_file : string) (d : dba) (p_inds : list nat)
    (dt : datetime) (tmp : string) :
  hoare (fun s => Inv s ∧ staged (trace s) tmp) (stage X dba_file d p_inds dt tmp)
    (fun b s => Inv s
                ∧ (b = true →
                   (∃ rest, trace s = Ev (FinishNc tmp) Done :: rest)
                   ∧ ∀ f, files s !! tmp = Some f → finalized f))
    kept.
Proof.
  unfold stage.
  apply (hoare_bind _ _ (fun _ s => Inv s ∧ out_nc (ncw s) = Some tmp)).
  { apply hoare_try with (E1 := failed).
    - apply inv_init_nc.
    - intros e _. apply inv_log; [intros s f [HI ?]; split; [by apply inv_set_log | done] |].
      apply hoare_continue. by intros s [HI _].
    - by intros k s [HI _] _. }
  intros ?.
  apply (hoare_bind _ _ (fun _ s => Inv s ∧ out_nc (ncw s) = Some tmp)).
  { apply hoare_try with (E1 := failed).
    - eapply hoare_bind; [by apply inv_writer_step | intros ?; by apply inv_writer_step].
    - intros e _. apply inv_log; [intros s f [HI ?]; split; [by apply inv_set_log | done] |].
      apply (hoare_bind _ _ (fun _ s => Inv s)).
      * apply failed_kept. eapply hoare_pre; [apply inv_unlink | by intros s [HI _]].
      * intros ?. apply hoare_continue. by intros s HI.
    - by intros k s [HI _] _. }
  intros ?.
  eapply hoare_bind; [by apply failed_kept, inv_writer_step |]. intros ?.
  apply hoare_bind_get. intros s0.
  apply hoare_pre with (P := fun s => Inv s ∧ out_nc (ncw s) = Some tmp);
    [| by intros s [? _]].
  eapply hoare_bind; [by apply failed_kept, inv_writer_step |]. intros ?.
  eapply hoare_bind; [by apply failed_kept, inv_writer_step |]. intros ?.
  eapply hoare_bind; [by apply failed_kept, inv_writer_step |]. intros ?.
  eapply hoare_bind; [by apply failed_kept, inv_writer_step |]. intros ?.
  eapply hoare_bind; [by apply failed_kept, inv_insert_all |]. intros ?.
  apply failed_kept, inv_finish_nc.
Qed.

Lemma inv_publish (nc_file : bool) (tmp out : string) :
  named X args out_dir out →
  hoare (fun s => Inv s
                  ∧ (nc_file = true →
                     (∃ rest, trace s = Ev (FinishNc tmp) Done :: rest)
                     ∧ ∀ f, files s !! tmp = Some f → finalized f))
    (publish X nc_file tmp out) (fun _ s => Inv s) kept.
Proof.
  intros Hname. unfold publish.
  apply (hoare_bind _ _ (fun _ s => Inv s)).
  - apply hoare_when; [intros -> | by intros _ s [HI _]].
    apply hoare_try with (E1 := failed).
    + apply (hoare_bind _ _ (fun _ s => Inv s ∧ ∃ rest, trace s = Ev (Move tmp out) Done :: rest)).
      * eapply hoare_pre; [apply inv_move |].
        intros s [HI Hfin]. destruct (Hfin eq_refl) as [? ?]. done.
      * intros ?. apply (hoare_conseq (fun s => Inv s ∧ Ev (Move tmp out) Done ∈ trace s
                   ∧ ((octal 7 5 5 = octal 6 6 4 ∧ ∃ d, Ev (Rmtree d) Done ∈ trace s)
                      ∨ octal 7 5 5 = octal 7 5 5
                        ∧ ∃ src rest, trace s = Ev (Move src out) Done :: rest))
                 _ _ (fun _ s => Inv s ∧ Ev (Move tmp out) Done ∈ trace s) _ failed);
          [apply inv_chmod | | by intros ? s [? _] | by intros].
        intros s [HI [rest Hmv]]. split; [done |]. split; [rewrite Hmv; by left |].
        right. split; [done |]. eauto.
    + intros e _. apply inv_log; [intros s f [HI ?]; split; [by apply inv_set_log | done] |].
      apply hoare_continue. by intros s [HI _].
    + by intros k s [HI _] _.
  - intros ?. apply hoare_modify. intros s HI. by apply (inv_same _ _ _ _ _ s).
Qed.

Lemma inv_process_profile (dba_file : string) (d : dba) (ts interval : list float) :
  (∀ dt, utcfromtimestamp X (Np.nanmean interval) = Some dt →
         named X args out_dir
           (OsPath.join out_dir
              (profile_filename_of
                 (attributes_deployment_glider (load_writer X (config_path args)))
                 (strftime X dt "%Y%m%dT%H%M%SZ")
                 (filename_extension (dba_file_metadata d)) +:+ ".nc"))) →
  hoare Inv (process_profile X args out_dir tmp_dir dba_file d ts interval)
    (fun _ s => Inv s) kept.
Proof.
  intros Hname. unfold process_profile, write_profile.
  apply hoare_bind_option; [by intros | intros p0 _].
  apply hoare_bind_option; [by intros | intros p1 _].
  cbv zeta.
  apply (hoare_bind _ _ (fun _ s => Inv s)).
  { apply hoare_when; [intros _ | by intros].
    unfold logging, continue, modify, bind. intros s HI. simpl. by apply inv_set_log. }
  intros ?.
  apply (hoare_bind _ _ (fun _ s => Inv s)).
  { apply hoare_when; [intros Hlt | by intros].
    apply hoare_bind_option; [by intros | intros pid _].
    intros s HI. unfold_monad.
    apply inv_emit; [| done | by split].
    by apply (inv_same _ _ _ _ _ s). }
  intros ?.
  apply hoare_bind_option; [by intros | intros dt Hdt].
  apply hoare_bind_read. intros s0 HI0.
  rewrite (inv_glider _ _ _ _ _ _ HI0).
  apply (hoare_bind _ _ (fun p s => Inv s ∧ staged (trace s) p));
    [apply failed_kept, inv_mkstemp, basename_profile_filename |].
  intros tmp.
  apply hoare_bind_read. intros s1 _.
  apply (hoare_bind _ _ (fun _ s => Inv s ∧ staged (trace s) tmp)).
  { apply hoare_when; [intros _ | by intros].
    destruct (clobber args).
    - intros s [HI Hst]. unfold_monad. split; [by apply inv_set_log | done].
    - intros s [HI Hst]. unfold_monad. by apply inv_set_log. }
  intros ?.
  eapply hoare_bind; [apply inv_stage |].
  intros nc_file. apply inv_publish. by apply Hname.
Qed.

End Body.

Lemma derive_file_metadata (X : externals) (n : writer) (d d' : dba)
    (ctd : list (list float)) (mean_lat mean_lon : float) :
  derive X n d ctd mean_lat mean_lon = inr d' →
  dba_file_metadata d' = dba_file_metadata d.
Proof.
  unfold derive. intros H. repeat case_match; try discriminate H.
  by injection H as <-.
Qed.

Section Batch.

Context (X : externals) (args : Args).
Context (fs0 : gmap string file) (out_dir tmp_dir : string).

Local Abbreviation Inv := (run_inv X args fs0 out_dir tmp_dir).
Local Abbreviation failed := (call_failed X args fs0 out_dir tmp_dir).
Local Abbreviation kept := (fun (_ : abrupt) (s : state) => Inv s).

Lemma inv_column_of (a : option Np.ndarray) (j : nat) :
  hoare Inv (column_of a j) (fun _ s => Inv s) kept.
Proof.
  intros s HI. unfold column_of. destruct a as [a|]; simpl; [| done].
  by destruct (Np.column a j).
Qed.

Lemma inv_skip_no_position (what dba_file : string) :
  hoare Inv (skip_no_position what dba_file) (fun _ s => Inv s) kept.
Proof.
  intros s HI. unfold skip_no_position. unfold_monad. by do 2 apply inv_set_log.
Qed.

Lemma inv_process_dba (ctd_sensors : list string) (dba_file : string) :
  dba_file ∈ dba_files args →
  hoare Inv (process_dba X args out_dir tmp_dir ctd_sensors dba_file)
    (fun _ s => Inv s) kept.
Proof.
  intros Hin. unfold process_dba.
  apply hoare_bind_read. intros s0 _.
  apply (hoare_bind _ _ (fun _ s => Inv s)).
  { apply hoare_when; [intros _ | by intros].
    intros s HI. unfold_monad. by apply inv_set_log. }
  intros ?. apply inv_log; [intros; by apply inv_set_log |].
  cbv zeta.
  apply (hoare_bind _ _ (fun _ s => Inv s)).
  { apply hoare_when; [intros _ | by intros].
    intros s HI. unfold_monad. by apply inv_set_log. }
  intros ?.
  destruct (slice_sensor_data X (create_llat_dba_reader X dba_file) None) as [yo|] eqn:Hyo;
    [apply hoare_bind_ret | by apply hoare_bind_continue].
  apply (hoare_bind _ _ (fun pts s => find_profiles X yo = inr pts ∧ Inv s)).
  { intros s HI. unfold format_s_exn. unfold_monad.
    destruct (find_profiles X yo) as [e|pts]; simpl; [| done].
    by destruct (decide (exn_kind e = ValueError)). }
  intros intervals. apply hoare_pure. intros Hfp.
  apply (hoare_bind _ _ (fun _ s => Inv s)).
  { apply hoare_when; [intros _ | by intros].
    intros s HI. unfold_monad. by apply inv_set_log. }
  intros ?.
  eapply hoare_bind; [apply inv_column_of |]. intros lat.
  apply (hoare_bind _ _ (fun _ s => Inv s)).
  { apply hoare_when; [intros _; apply inv_skip_no_position | by intros]. }
  intros ?.
  eapply hoare_bind; [apply inv_column_of |]. intros lon.
  apply (hoare_bind _ _ (fun _ s => Inv s)).
  { apply hoare_when; [intros _; apply inv_skip_no_position | by intros]. }
  intros ?.
  apply hoare_bind_read. intros s1 _.
  destruct (derive X (ncw s1) _ _ _ _) as [e|d'] eqn:Hd;
    [by apply hoare_bind_raise | apply hoare_bind_ret].
  apply derive_file_metadata in Hd.
  apply hoare_bind_option; [by intros | intros ts _].
  apply (hoare_bind _ _ (fun _ s => Inv s)).
  - eapply hoare_conseq;
      [apply (hoare_for_each _ _ Inv kept) | by intros | by intros | by intros k s [_ ?]].
    + intros interval Hinterval. apply inv_process_profile.
      intros dt Hdt. rewrite Hd.
      exists dba_file, yo, intervals, interval, dt. done.
    + by intros.
  - intros ?. apply hoare_modify. intros s HI. by apply (inv_same _ _ _ _ _ s).
Qed.

Lemma inv_list_outputs (d : string) :
  hoare (fun s => Inv s ∧ Ev (Rmtree d) Done ∈ trace s) (list_outputs X)
    (fun _ s => Inv s) kept.
Proof.
  unfold list_outputs. apply hoare_bind_read. intros s0 _.
  eapply hoare_conseq;
    [apply (hoare_for_each _ _ (fun s => Inv s ∧ Ev (Rmtree d) Done ∈ trace s) failed)
    | by intros | by intros ? s [? _] | by intros k s [_ [? _]]].
  - intros p _.
    apply (hoare_bind _ _ (fun _ s => Inv s ∧ Ev (Rmtree d) Done ∈ trace s)).
    + eapply hoare_pre; [apply inv_chmod |].
      intros s [HI Hrm]. split; [done |]. split; [exact Hrm |]. left. eauto.
    + intros ?. apply inv_stdout_write.
  - by intros s [_ [e ?]].
Qed.

Lemma inv_run_batch (ctd_sensors : list string) :
  hoare Inv (run_batch X args out_dir ctd_sensors tmp_dir) (fun _ s => Inv s) kept.
Proof.
  unfold run_batch.
  apply inv_log; [intros; by apply inv_set_log |].
  apply (hoare_bind _ _ (fun _ s => Inv s)).
  { eapply hoare_conseq;
      [apply (hoare_for_each _ _ Inv kept) | by intros | by intros | by intros k s [_ ?]].
    - intros f Hf. by apply inv_process_dba.
    - by intros. }
  intros ?.
  apply (hoare_bind _ _ (fun _ s => Inv s ∧ Ev (Rmtree tmp_dir) Done ∈ trace s)).
  { apply hoare_try with (E1 := failed).
    - apply inv_log; [intros; by apply inv_set_log |]. apply inv_rmtree.
    - intros e _. intros s [HI _]. unfold_monad. by apply inv_set_log.
    - by intros k s [HI _] _. }
  intros ?.
  eapply hoare_bind; [apply inv_list_outputs |].
  intros ?. by apply hoare_return.
Qed.

End Batch.

(** ** A whole run *)

Lemma mkdtemp_spec (X : externals) (s : state) :
  match mkdtemp X s with
  | (Normal d, s') =>
      ∃ n ds, s' = set_trace (cons (Ev (Mkdtemp d) Done)) (set_dirs ds (set_rng n s))
  | (Raise e, s') => s' = s ∨ ∃ d, s' = set_trace (cons (Ev (Mkdtemp d) (Raised e))) s
  | _ => False
  end.
Proof.
  unfold mkdtemp. unfold_monad.
  destruct (isdir s (gettempdir X)); simpl; [| by left].
  destruct (fresh_path _ _ _ _ _ _ _) as [[d n]|]; simpl; [| by left].
  destruct (fault X (Mkdtemp d)); simpl; [right; by eexists | by do 2 eexists].
Qed.

Ltac early :=
  left; simpl; split; [done | split; [done |]]; simpl; intros ev Hev;
  first [ by apply elem_of_nil in Hev
        | apply list_elem_of_singleton in Hev as ->; done ].

(** A run either ends before anything is staged, or creates its staging
    directory and keeps the invariant from then on. *)
Lemma run_cases (X : externals) (args : Args)
    (fs : gmap string file) (ds : gset string) (wd : string) (seed : nat) :
  ended_early fs (run X args fs ds wd seed).2
  ∨ ∃ tmp_dir,
      run_inv X args fs (output_dir args (initial fs ds wd seed)) tmp_dir
        (run X args fs ds wd seed).2.
Proof.
  unfold run, main.
  cbv [bind get when modify logging return_ ret stdout_write emit].
  cbn [fst snd].
  set (s0 := initial fs ds wd seed).
  destruct (negb (isdir s0 (config_path args))); [early |].
  destruct (bool_decide (output_dir args s0 = "")).
  all: destruct (negb (isdir _ (output_dir args s0))); [early |].
  all: destruct (bool_decide (dba_files args = [])); [early |].
  all: simpl.
  all: destruct (negb (validate_sensors X _ _)); [early |].
  all: destruct (negb (validate_ngdac_var_names X _)); [early |].
  all: destruct (debug args); [early |].
  all: match goal with |- context [mkdtemp ?Y ?s] =>
         pose proof (mkdtemp_spec Y s) as Hmk; pose proof (mkdtemp_named Y s) as Hnm;
         destruct (mkdtemp Y s) as [[d| |c|e] s1] end;
    try done.
  all: try (destruct Hmk as [-> | [d ->]]; early).
  all: specialize (Hnm _ _ eq_refl).
  all: right; exists d; destruct Hmk as (n & ds' & ->).
  all: match goal with |- context [run_batch ?Y ?a ?o ?c ?t ?s] =>
         pose proof (inv_run_batch Y a fs o t c s) as Hb;
         destruct (run_batch Y a o c t s) as [[[]| |c'|e] s2] end.
  all: apply Hb; constructor; simpl; try done.
  all: try (intros ev Hev; apply list_elem_of_singleton in Hev as ->; by apply ok_plain).
  all: try (intros p f Hp; right; right; right; by exists f).
  all: by left.
Qed.

(** * C7: the shape of the frame after the derived-variable step *)

(** C7. When the derived-variable step succeeds on a well-formed frame, the
    frame has two more columns, salinity then density, at its end, each with
    one entry per row; depth overwrites the first column whose sensor is
    named [llat_depth], an existing column; every other column, the row
    count and the order of the rows are as before. *)
Theorem derive_merge_shape
    (X : externals) (n : writer) (d d' : dba) (ctd : list (list float)) (mean_lat mean_lon : float) :
  Np.wf (dba_data d) →
  length (dba_sensors d) = Np.ncols (dba_data d) →
  derive X n d ctd mean_lat mean_lon = inr d' →
  ∃ (zi : nat) (sal den dep c0 c1 c5 c6 : list float),
    ctd !! 0%nat = Some c0 ∧ ctd !! 1%nat = Some c1 ∧ ctd !! 5%nat = Some c5 ∧ ctd !! 6%nat = Some c6
    ∧ sal = calculate_practical_salinity X c5 c6 c1
    ∧ den = calculate_density X c0 c5 c1 sal mean_lat mean_lon
    ∧ (dep = calculate_depth X c1 mean_lat
       ∨ ∃ x, calculate_depth X c1 mean_lat = [x] ∧ dep = replicate (Np.nrows (dba_data d)) x)
    ∧ map sensor_name (dba_sensors d')
      = map sensor_name (dba_sensors d) ++ ["salinity"; "density"]
    ∧ Np.columns (dba_data d') = (<[zi := dep]> (Np.columns (dba_data d))) ++ [sal; den]
    ∧ (zi < Np.ncols (dba_data d))%nat
    ∧ map sensor_name (dba_sensors d) !! zi = Some "llat_depth"
    ∧ (∀ j, (j < zi)%nat → map sensor_name (dba_sensors d) !! j ≠ Some "llat_depth")
    ∧ (∀ j, j ≠ zi → (j < Np.ncols (dba_data d))%nat →
            Np.columns (dba_data d') !! j = Np.columns (dba_data d) !! j)
    ∧ Np.nrows (dba_data d') = Np.nrows (dba_data d)
    ∧ Np.ncols (dba_data d') = (Np.ncols (dba_data d) + 2)%nat
    ∧ Np.wf (dba_data d')
    ∧ dba_file_metadata d' = dba_file_metadata d.
Proof.
  intros Hwf Hlen Hd. unfold derive in Hd.
  destruct (ctd !! 0%nat) as [c0|] eqn:E0; [| by simpl in Hd].
  destruct (ctd !! 1%nat) as [c1|] eqn:E1; [| by simpl in Hd].
  destruct (ctd !! 5%nat) as [c5|] eqn:E5; [| by simpl in Hd].
  destruct (ctd !! 6%nat) as [c6|] eqn:E6; [| by simpl in Hd].
  destruct (nc_sensor_defs n !! "salinity") as [sa|]; [| discriminate Hd].
  set (sal := calculate_practical_salinity X c5 c6 c1) in *.
  unfold Np.append_column in Hd at 1.
  destruct (decide (length sal = Np.nrows (dba_data d))) as [Hsal|]; [| discriminate Hd].
  destruct (nc_sensor_defs n !! "density") as [da|]; [| discriminate Hd].
  set (den := calculate_density X c0 c5 c1 sal mean_lat mean_lon) in *.
  unfold Np.append_column in Hd. simpl in Hd.
  destruct (decide (length den = Np.nrows (dba_data d))) as [Hden|]; [| discriminate Hd].
  set (sensors2 := (dba_sensors d ++ [_]) ++ [_]) in Hd.
  destruct (list_find _ sensors2) as [[zi sz]|] eqn:Hfind; [| discriminate Hd].
  apply list_find_Some in Hfind as (Hzi & Hname & Hfirst).
  assert (Hzi_lt : (zi < length (dba_sensors d))%nat).
  { destruct (decide (zi < length (dba_sensors d))%nat) as [|Hge]; [done | exfalso].
    subst sensors2. rewrite <- app_assoc in Hzi. simpl in Hzi.
    rewrite lookup_app_r in Hzi by lia.
    destruct (zi - length (dba_sensors d))%nat as [|[|k]]; simpl in Hzi;
      [| | done]; injection Hzi as <-; simpl in Hname; discriminate. }
  assert (Hzi_d : dba_sensors d !! zi = Some sz).
  { subst sensors2. rewrite <- app_assoc in Hzi. by rewrite lookup_app_l in Hzi. }
  set (cols2 := (Np.columns (dba_data d) ++ [sal]) ++ [den]) in Hd.
  assert (Hins : ∀ dep, <[zi := dep]> cols2
                        = (<[zi := dep]> (Np.columns (dba_data d))) ++ [sal; den]).
  { intros dep. subst cols2. rewrite <- app_assoc. simpl.
    rewrite insert_app_l; [done |]. unfold Np.ncols in Hlen. lia. }
  assert (Hshape : ∀ dep, length dep = Np.nrows (dba_data d) →
            Forall (fun c => length c = Np.nrows (dba_data d))
              ((<[zi := dep]> (Np.columns (dba_data d))) ++ [sal; den])).
  { intros dep Hdep. apply Forall_app. split.
    - apply Forall_insert; done.
    - repeat constructor; done. }
  assert (Hres : ∃ dep,
            (dep = calculate_depth X c1 mean_lat
             ∨ ∃ x, calculate_depth X c1 mean_lat = [x]
                    ∧ dep = replicate (Np.nrows (dba_data d)) x)
            ∧ length dep = Np.nrows (dba_data d)
            ∧ d' = {| dba_data := {| Np.nrows := Np.nrows (dba_data d);
                                     Np.columns := <[zi := dep]> cols2 |};
                      dba_sensors := sensors2;
                      dba_file_metadata := dba_file_metadata d |}).
  { unfold Np.set_column in Hd. simpl in Hd.
    destruct (decide (zi < Np.ncols _)%nat) as [Hlt|]; [| discriminate Hd].
    destruct (decide (length (calculate_depth X c1 mean_lat) = Np.nrows (dba_data d)))
      as [Hdep|Hdep].
    - injection Hd as <-. eexists. split; [by left |]. done.
    - destruct (calculate_depth X c1 mean_lat) as [|x [|]] eqn:Hcd;
        [discriminate Hd | | discriminate Hd].
      injection Hd as <-. eexists. split; [right; by exists x |].
      by rewrite length_replicate. }
  destruct Hres as (dep & Hdep & Hdeplen & ->).
  exists zi, sal, den, dep, c0, c1, c5, c6. simpl.
  do 7 (split; [done |]).
  split. { subst sensors2. rewrite !map_app. simpl. by rewrite <- app_assoc. }
  split; [apply Hins |].
  split; [unfold Np.ncols in *; lia |].
  split. { rewrite lookup_map, Hzi_d. simpl. by rewrite Hname. }
  split.
  { intros j Hj. rewrite lookup_map.
    destruct (dba_sensors d !! j) as [sj|] eqn:Hsj; simpl; [| done].
    intros [= Hsame]. apply (Hfirst j sj); [| done | done].
    subst sensors2. rewrite <- app_assoc. rewrite lookup_app_l; [done |].
    by apply lookup_lt_Some in Hsj. }
  split.
  { intros j Hne Hj. rewrite Hins. unfold Np.ncols in Hj.
    rewrite lookup_app_l by (rewrite length_insert; lia).
    by rewrite list_lookup_insert_ne. }
  split; [done |].
  split. { unfold Np.ncols. simpl. rewrite Hins, length_app, length_insert. simpl. lia. }
  split; [| done].
  unfold Np.wf. simpl. rewrite Hins. by apply Hshape.
Qed.

Lemma derive_merge_shape_witness :
  let X := Fixture.libraries Fixture.no_fault (fun _ => true) Fixture.two_profiles in
  Np.wf (dba_data Fixture.segment)
  ∧ length (dba_sensors Fixture.segment) = Np.ncols (dba_data Fixture.segment)
  ∧ derive X Fixture.ru01 Fixture.segment Fixture.ctd_columns (Fixture.fl 40) (Fixture.fl 70)
    = inr Fixture.derived
  ∧ Np.ncols (dba_data Fixture.derived) = 9%nat
  ∧ map sensor_name (dba_sensors Fixture.derived)
    = ["llat_time"; "llat_pressure"; "llat_latitude"; "llat_longitude"; "llat_depth";
       "sci_water_cond"; "sci_water_temp"; "salinity"; "density"].
Proof.
  intros X.
  assert (H1 : Np.wf (dba_data Fixture.segment)) by (repeat constructor).
  assert (H2 : length (dba_sensors Fixture.segment) = Np.ncols (dba_data Fixture.segment))
    by reflexivity.
  assert (H3 : derive X Fixture.ru01 Fixture.segment Fixture.ctd_columns
                 (Fixture.fl 40) (Fixture.fl 70) = inr Fixture.derived)
    by (vm_compute; reflexivity).
  repeat (split; [assumption |]).
  destruct (derive_merge_shape X _ _ _ _ _ _ H1 H2 H3)
    as (zi & sal & den & dep & c0 & c1 & c5 & c6 & _ & _ & _ & _ & _ & _ & _
        & Hnames & _ & _ & _ & _ & _ & _ & Hcols & _).
  split; [exact Hcols | exact Hnames].
Defined.

(** * C1 and C8: staging, publication and the names of the files *)

Lemma ordered_inv (after before : list event) (ev : event) :
  ordered (after ++ ev :: before) → follows ev before.
Proof. induction after as [|ev' after IH]; simpl; tauto. Qed.



(** C8. A run in which a directory bears the name of the profile's file.
    [os.path.isfile] is false of it (line 176), and [shutil.move] puts the
    staging file into the directory, under the name it had in the staging
    directory and with the mode [mkstemp] gave it; the changes of mode of
    lines 229 and 248 are applied to the directory, and the path printed
    is the directory's.  No file is at [output_path] joined with
    [<glider>-<T>-<ext>-profile.nc]. *)
Theorem artifact_is_moved_into_a_directory :
  let r := run (Fixture.libraries Fixture.no_fault (fun _ => true) Fixture.one_profile)
             (Fixture.command false 0) Fixture.disk
             ({[ Fixture.first_out ]} ∪ Fixture.folders) "/home" 0 in
  let landed := Fixture.first_out +:+ "/ru01-19700101T000150Z-sbd-profile1.nc" in
  r.1 = Return 0
  ∧ moves (trace r.2) = [(Fixture.first_tmp, Fixture.first_out)]
  ∧ chmods (trace r.2)
    = [(Fixture.first_out, octal 7 5 5); (Fixture.first_out, octal 6 6 4)]
  ∧ files r.2 !! Fixture.first_out = None
  ∧ (∃ f, files r.2 !! landed = Some f ∧ finalized f ∧ f_mode f = octal 6 0 0)
  ∧ stdout r.2 = [Fixture.first_out +:+ nl].
Proof.
  intros r landed. subst r landed. repeat apply conj; try (vm_compute; reflexivity).
  eexists. split; [vm_compute; reflexivity |].
  split; [eexists; split; reflexivity | reflexivity].
Qed.

(** * C9: permission bits *)

Section Modes.

Context (X : externals) (tmp : string) (m : Z).

(** The writer works on [tmp], a file of mode [m]. *)
Local Abbreviation at_mode :=
  (fun s : state => ∃ f, files s !! tmp = Some f ∧ f_mode f = m).
Local Abbreviation working :=
  (fun s : state => out_nc (ncw s) = Some tmp ∧ at_mode s).
Local Abbreviation raising := (fun (k : abrupt) (_ : state) => raises k).
Local Abbreviation anyhow := (fun (_ : abrupt) (_ : state) => True).

Lemma mode_init_nc :
  hoare at_mode (init_nc X tmp) (fun _ s => working s) raising.
Proof.
  intros s (f & Hf & Hm). unfold init_nc. unfold_monad.
  destruct (fault X (InitNc tmp _)); simpl; [by eexists |].
  split; [done |]. rewrite Hf. eexists. rewrite lookup_insert_eq. split; [done | done].
Qed.

Lemma mode_writer_step (c : string -> call) (g : nc_file -> nc_file) :
  hoare working (writer_step X c g) (fun _ s => working s) raising.
Proof.
  intros s (Hp & f & Hf & Hm). unfold writer_step, current_nc, update_nc. unfold_monad.
  rewrite Hp. simpl.
  destruct (fault X (c tmp)); simpl; [by eexists |].
  rewrite Hf. destruct f as [mode [data| |nc|part]]; simpl; try by eexists.
  split; [done |]. eexists. rewrite lookup_insert_eq. done.
Qed.

Lemma mode_insert_all (d : dba) (p_inds : list nat) :
  hoare working (insert_all X d p_inds) (fun _ s => working s) raising.
Proof.
  unfold insert_all.
  eapply hoare_conseq;
    [apply (hoare_for_each _ _ working raising) | by intros | by intros | by intros k s [_ ?]].
  - intros v _.
    apply hoare_bind_option; [intros; by eexists | intros sn _].
    apply hoare_bind_option; [intros; by eexists | intros var_data _].
    apply (hoare_bind _ _ (fun _ s => working s)).
    + by intros s Hs.
    + intros ?. apply mode_writer_step.
  - by intros s [e ?].
Qed.

Lemma mode_finish_nc :
  hoare working (finish_nc X) (fun _ s => at_mode s) raising.
Proof.
  intros s (Hp & f & Hf & Hm). unfold finish_nc, update_nc. unfold_monad.
  rewrite Hp.
  destruct (fault X (FinishNc tmp)); simpl; [by eexists |].
  destruct (finish_nc_returns X tmp); simpl; [| by eexists].
  rewrite Hf. destruct f as [mode [data| |nc|part]]; simpl; try by eexists.
  eexists. rewrite lookup_insert_eq. done.
Qed.

(** Staging leaves the mode of the staging file as it was. *)
Lemma mode_stage (dba_file : string) (d : dba) (p_inds : list nat) (dt : datetime) :
  hoare at_mode (stage X dba_file d p_inds dt tmp) (fun _ s => at_mode s) anyhow.
Proof.
  unfold stage.
  apply (hoare_bind _ _ (fun _ s => working s)).
  { apply hoare_try with (E1 := raising); [apply mode_init_nc | | done].
    intros e _ s _. unfold_monad. done. }
  intros ?.
  apply (hoare_bind _ _ (fun _ s => working s)).
  { apply hoare_try with (E1 := raising); [| | done].
    - eapply hoare_bind; [apply mode_writer_step | intros ?; apply mode_writer_step].
    - intros e _ s _. unfold unlink. unfold_monad.
      destruct (fault X (Unlink tmp)); simpl; [done |].
      by destruct (isfile _ tmp). }
  intros ?.
  apply (fun H => hoare_conseq _ _ _ _ _ raising anyhow H
                    (fun s Hs => Hs) (fun a s Hs => Hs) (fun k s _ => I)).
  eapply hoare_bind; [apply mode_writer_step |]. intros ?.
  apply hoare_bind_read. intros s0 _.
  eapply hoare_bind; [apply mode_writer_step |]. intros ?.
  eapply hoare_bind; [apply mode_writer_step |]. intros ?.
  eapply hoare_bind; [apply mode_writer_step |]. intros ?.
  eapply hoare_bind; [apply mode_writer_step |]. intros ?.
  eapply hoare_bind; [apply mode_insert_all |]. intros ?.
  apply mode_finish_nc.
Qed.

End Modes.

Section Listing.

Context (X : externals).

Local Abbreviation relaxed := (octal 6 6 4).

Lemma listing_body (p : string) (s : state) :
  match (chmod X p relaxed;;; stdout_write (p +:+ nl)) s with
  | (Normal _, s') =>
      stdout s' = (p +:+ nl) :: stdout s
      ∧ (∀ f, files s' !! p = Some f → f_mode f = relaxed)
      ∧ (∀ q f, q ≠ p → files s' !! q = Some f → files s !! q = Some f)
  | (Raise _, s') => files s' = files s
  | _ => False
  end.
Proof.
  unfold chmod, stdout_write. unfold_monad.
  destruct (fault X (Chmod p relaxed)); simpl; [done |].
  destruct (files s !! p) as [f|] eqn:Hp; simpl.
  - split; [done |]. split.
    + intros g. rewrite lookup_insert_eq. by intros [= <-].
    + intros q g Hq. by rewrite lookup_insert_ne.
  - destruct (isdir s p); simpl; [| done].
    split; [done |]. split; [by rewrite Hp | done].
Qed.

Lemma listing_keeps (q : string) (l : list string) (s : state) :
  (∀ f, files s !! q = Some f → f_mode f = relaxed) →
  ∀ f, files (for_each l (fun p => chmod X p relaxed;;; stdout_write (p +:+ nl)) s).2 !! q
       = Some f → f_mode f = relaxed.
Proof.
  revert s. induction l as [|p l IH]; intros s Hq; simpl; [done |].
  pose proof (listing_body p s) as Hb.
  destruct ((chmod X p relaxed;;; stdout_write (p +:+ nl)) s) as [[[]| |c|e] s1];
    simpl; try done.
  - apply IH. destruct Hb as (_ & Hp & Hother). intros f Hf.
    destruct (decide (q = p)) as [-> | Hne]; [by apply Hp | eauto].
  - by rewrite Hb.
Qed.

Lemma listing_spec (l : list string) (s s' : state) :
  for_each l (fun p => chmod X p relaxed;;; stdout_write (p +:+ nl)) s = (Normal tt, s') →
  stdout s' = reverse (map (fun p => p +:+ nl) l) ++ stdout s
  ∧ ∀ p f, p ∈ l → files s' !! p = Some f → f_mode f = relaxed.
Proof.
  revert s. induction l as [|p l IH]; intros s; simpl.
  - intros [= <-]. split; [done |]. intros p f Hp. by apply elem_of_nil in Hp.
  - pose proof (listing_body p s) as Hb.
    pose proof (listing_keeps p l) as Hkeep.
    destruct ((chmod X p relaxed;;; stdout_write (p +:+ nl)) s) as [[[]| |c|e] s1];
      try done.
    intros Hrest. destruct Hb as (Hout & Hp & _).
    specialize (Hkeep s1 Hp). rewrite Hrest in Hkeep. simpl in Hkeep.
    destruct (IH s1 Hrest) as [Hout' Hmodes]. split.
    + rewrite Hout', Hout, reverse_cons, <- app_assoc. done.
    + intros q f Hin. apply elem_of_cons in Hin as [-> | Hin]; [apply Hkeep | by apply Hmodes].
Qed.

End Listing.

(** C9, as the script has it.  The script changes permission bits at the
    permanent path only: [0o755] directly after the file has been moved
    there, and [0o664] once the staging directory has been removed, before
    the path is written to standard output; when the listing completes,
    every listed path that is a file has mode [0o664].  While it is staged a
    file has the mode [mkstemp] created it with, [0o600]: staging does not
    change it. *)
Theorem permission_transition (X : externals) (args : Args)
    (fs : gmap string file) (ds : gset string) (wd : string) (seed : nat) :
  (∀ after before p mode r,
      trace (run X args fs ds wd seed).2 = after ++ Ev (Chmod p mode) r :: before →
      (mode = octal 6 6 4 ∧ ∃ d, Ev (Rmtree d) Done ∈ before)
      ∨ (mode = octal 7 5 5 ∧ ∃ src rest, before = Ev (Move src p) Done :: rest))
  ∧ (∀ dir suf pre s tmp s1,
        mkstemp X dir suf pre s = (Normal tmp, s1) →
        files s1 !! tmp = Some (File (octal 6 0 0) Empty))
  ∧ (∀ dba_file d p_inds dt tmp s1 f nc_file s2,
        files s1 !! tmp = Some f →
        stage X dba_file d p_inds dt tmp s1 = (Normal nc_file, s2) →
        ∃ f', files s2 !! tmp = Some f' ∧ f_mode f' = f_mode f)
  ∧ (∀ s s',
        list_outputs X s = (Normal tt, s') →
        stdout s' = reverse (map (fun p => p +:+ nl) (output_nc_files s)) ++ stdout s
        ∧ ∀ p f, p ∈ output_nc_files s → files s' !! p = Some f → f_mode f = octal 6 6 4).
Proof.
  repeat apply conj.
  - intros after before p mode r Htr.
    destruct (run_cases X args fs ds wd seed) as [(_ & _ & Hev) | (tmp_dir & HI)].
    + specialize (Hev (Ev (Chmod p mode) r)). rewrite Htr in Hev.
      destruct Hev. apply elem_of_app. right. by left.
    + pose proof (inv_ordered _ _ _ _ _ _ HI) as Hord. rewrite Htr in Hord.
      by apply ordered_inv in Hord.
  - intros dir suf pre s tmp s1. unfold mkstemp. unfold_monad.
    destruct (isdir s dir); simpl; [| done].
    destruct (fresh_path _ _ _ _ _ _ _) as [[p n]|]; simpl; [| done].
    destruct (fault X (Mkstemp p)); simpl; [done |].
    intros [= <- <-]. simpl. by rewrite lookup_insert_eq.
  - intros dba_file d p_inds dt tmp s1 f nc_file s2 Hf Hstage.
    pose proof (mode_stage X tmp (f_mode f) dba_file d p_inds dt s1) as H.
    rewrite Hstage in H. apply H. by exists f.
  - intros s s'. unfold list_outputs. unfold bind, get. simpl. apply listing_spec.
Qed.

(** C9 does not hold as stated: when the file of the first profile is about
    to be moved it is finalized and has mode [0o600], not [0o755]; in the
    complete run the only changes of mode are made at the permanent paths. *)
Lemma staged_file_is_not_0o755 :
  let r := run (Fixture.libraries Fixture.interrupted (fun _ => true) Fixture.two_profiles)
             (Fixture.command false 0) Fixture.disk Fixture.folders "/home" 0 in
  let r' := run (Fixture.libraries Fixture.no_fault (fun _ => true) Fixture.two_profiles)
              (Fixture.command false 0) Fixture.disk Fixture.folders "/home" 0 in
  (∃ rest, trace r.2
           = Ev (Move Fixture.first_tmp Fixture.first_out)
               (Raised (Exn OtherError "KeyboardInterrupt")) :: rest)
  ∧ (∃ f, files r.2 !! Fixture.first_tmp = Some f
          ∧ finalized f ∧ f_mode f = octal 6 0 0 ∧ f_mode f ≠ octal 7 5 5)
  ∧ moves (trace r'.2)
    = [(Fixture.first_tmp, Fixture.first_out);
       ("/tmp/tmp0/ru01-19700101T000205Z-sbd-profile2.nc", Fixture.second_out)]
  ∧ chmods (trace r'.2)
    = [(Fixture.first_out, octal 7 5 5); (Fixture.second_out, octal 7 5 5);
       (Fixture.first_out, octal 6 6 4); (Fixture.second_out, octal 6 6 4)].
Proof.
  intros r r'. repeat apply conj.
  - eexists. vm_compute. reflexivity.
  - eexists. split; [vm_compute; reflexivity |].
    split; [eexists; split; reflexivity |]. split; [reflexivity | discriminate].
  - vm_compute. reflexivity.
  - vm_compute. reflexivity.
Qed.

(** * C3: the exit code *)

Lemma for_each_not_continue {B} (l : list B) (body : B -> M unit) (s : state) :
  (for_each l body s).1 ≠ Continue.
Proof.
  revert s. induction l as [|x l IH]; intros s; simpl; [done |].
  destruct (body x s) as [[[]| |c|e] s1]; simpl; auto; done.
Qed.

Lemma emits_list_outputs (X : externals) : emits_only listing_call (list_outputs X).
Proof.
  unfold list_outputs, chmod, stdout_write. repeat emits_step.
Qed.

Lemma no_removal_failure (tr : list event) :
  Forall (fun ev => ∀ d e, ev ≠ Ev (Rmtree d) (Raised e) ∨ exn_kind e ≠ OSError) tr →
  ¬ removal_failed tr.
Proof.
  intros Hall (d & e & Hin & He). rewrite Forall_forall in Hall.
  destruct (Hall _ Hin d e); done.
Qed.

Lemma loop_call_not_rmtree (b : bool) (c : call) : loop_call b c → ∀ d, c ≠ Rmtree d.
Proof. destruct c; simpl; intros H d' Heq; try discriminate Heq; done. Qed.

Lemma listing_call_not_rmtree (c : call) : listing_call c → ∀ d, c ≠ Rmtree d.
Proof. destruct c; simpl; intros H d' Heq; try discriminate Heq; done. Qed.

Section ExitCode.

Context (X : externals) (args : Args) (out_dir tmp_dir : string) (ctd_sensors : list string).

Local Abbreviation quiet :=
  (fun ev : event => ∀ d e, ev ≠ Ev (Rmtree d) (Raised e) ∨ exn_kind e ≠ OSError).

Lemma quiet_of (C : call -> Prop) (new : list event) :
  (∀ c, C c → ∀ d, c ≠ Rmtree d) →
  Forall (fun ev => C (ev_call ev)) new → Forall quiet new.
Proof.
  intros HC Hall. eapply Forall_impl; [exact Hall |].
  intros [c r] Hc d e. left. intros [= -> _]. by apply (HC _ Hc d).
Qed.

(** Once the staging directory exists, [main] returns 1 exactly when the
    removal of the directory fails, and otherwise returns 0 unless an
    exception leaves it. *)
Lemma run_batch_outcome (s : state) :
  Forall quiet (trace s) →
  let r := run_batch X args out_dir ctd_sensors tmp_dir s in
  (r.1 = Return 1 ↔ removal_failed (trace r.2))
  ∧ (r.1 = Return 0 ∨ r.1 = Return 1 ∨ ∃ e, r.1 = Raise e).
Proof.
  intros Hs. unfold run_batch. cbv [bind logging modify]. cbn [fst snd].
  set (s1 := set_log _ s).
  destruct (emits_for_each _ (dba_files args)
              (process_dba X args out_dir tmp_dir ctd_sensors)
              (emits_process_dba X args out_dir tmp_dir ctd_sensors) s1)
    as [(new & Htr & Hnew) Hret].
  pose proof (for_each_not_continue (dba_files args)
                (process_dba X args out_dir tmp_dir ctd_sensors) s1) as Hcont.
  apply (quiet_of _ _ (loop_call_not_rmtree _)) in Hnew.
  destruct (for_each _ _ s1) as [[[]| |c|e] s2]; simpl in *;
    [| by destruct Hcont | by destruct (Hret c) |].
  2: { split; [| right; right; by eexists].
       split; [done |]. intros Hf. exfalso. revert Hf. apply no_removal_failure.
       rewrite Htr. by apply Forall_app. }
  assert (Hs2 : Forall quiet (trace s2)) by (rewrite Htr; by apply Forall_app).
  unfold try_except, rmtree. unfold_monad.
  destruct (fault X (Rmtree tmp_dir)) as [e|] eqn:Hfault; simpl.
  - destruct (decide (exn_kind e = OSError)) as [He|He]; simpl.
    + split; [| by right; left]. split; [| done]. intros _.
      exists tmp_dir, e. split; [by left | done].
    + split; [| right; right; by eexists]. split; [done |].
      intros Hf. exfalso. revert Hf. apply no_removal_failure.
      constructor; [| done]. intros d e'.
      destruct (decide (exn_kind e' = OSError)) as [He'|He']; [left | by right].
      intros [= _ ->]. done.
  - match goal with |- context [isdir ?st tmp_dir] => destruct (isdir st tmp_dir) end;
      simpl.
    + match goal with |- context [list_outputs X ?s3] =>
        destruct (emits_list_outputs X s3) as [(new' & Htr' & Hnew') Hret'];
        pose proof (for_each_not_continue (output_nc_files s3)
                      (fun f => chmod X f (octal 6 6 4);;; stdout_write (f +:+ nl)) s3)
          as Hcont';
        change (for_each (output_nc_files s3) _ s3) with (list_outputs X s3) in Hcont';
        destruct (list_outputs X s3) as [[[]| |c|e] s4]
      end; simpl in *; [| by destruct Hcont' | by destruct (Hret' c) |].
      * split; [| by left]. split; [done |].
        intros Hf. exfalso. revert Hf. apply no_removal_failure.
        rewrite Htr'. apply Forall_app. split.
        -- by apply (quiet_of _ _ listing_call_not_rmtree) in Hnew'.
        -- constructor; [by left | done].
      * split; [| right; right; by eexists]. split; [done |].
        intros Hf. exfalso. revert Hf. apply no_removal_failure.
        rewrite Htr'. apply Forall_app. split.
        -- by apply (quiet_of _ _ listing_call_not_rmtree) in Hnew'.
        -- constructor; [by left | done].
    + split; [| by right; left]. split; [| done]. intros _.
      exists tmp_dir, no_such_file. split; [by left | done].
Qed.

End ExitCode.

Ltac refute_removal :=
  let Hf := fresh in
  intros Hf; exfalso; revert Hf; apply no_removal_failure;
  repeat (constructor; [intros ? ?; left; discriminate |]); constructor.

(** C3, as the script has it.  [main] returns 1 exactly when the
    configuration directory or the output directory is not a directory, or no
    dba file is given, or one of the two validations of the sensor
    definitions fails, or the removal of the staging directory raises an
    [OSError]; in every other case it returns 0, unless an exception leaves
    it: the script turns no other exception into an exit code. *)
Theorem exit_code (X : externals) (args : Args)
    (fs : gmap string file) (ds : gset string) (wd : string) (seed : nat) :
  let s0 := initial fs ds wd seed in
  let n := load_writer X (config_path args) in
  let r := run X args fs ds wd seed in
  (r.1 = Return 1 ↔
     isdir s0 (config_path args) = false
     ∨ isdir s0 (output_dir args s0) = false
     ∨ dba_files args = []
     ∨ validate_sensors X (nc_sensor_defs n) (ctd_sensors_of X args) = false
     ∨ validate_ngdac_var_names X (nc_sensor_defs n) = false
     ∨ removal_failed (trace r.2))
  ∧ (r.1 = Return 0 ∨ r.1 = Return 1 ∨ ∃ e, r.1 = Raise e).
Proof.
  intros s0 n r. subst r n. unfold run, main.
  cbv [bind get when modify logging return_ ret stdout_write emit].
  cbn [fst snd]. fold s0.
  destruct (isdir s0 (config_path args)) eqn:H1; simpl;
    [| split; [split; [by left | done] | by right; left]].
  assert (Hlog : ∀ f, isdir (set_log f s0) (output_dir args s0)
                      = isdir s0 (output_dir args s0)) by done.
  destruct (bool_decide (output_dir args s0 = "")); rewrite ?Hlog.
  all: destruct (isdir s0 (output_dir args s0)) eqn:H2; simpl;
    [| split; [split; [by right; left | done] | by right; left]].
  all: destruct (bool_decide (dba_files args = [])) eqn:H3; simpl;
    [apply bool_decide_eq_true in H3;
     split; [split; [by right; right; left | done] | by right; left] |].
  all: apply bool_decide_eq_false in H3.
  all: destruct (validate_sensors X _ _) eqn:H4; simpl;
    [| split; [split; [by right; right; right; left | done] | by right; left]].
  all: destruct (validate_ngdac_var_names X _) eqn:H5; simpl;
    [| split; [split; [by right; right; right; right; left | done] | by right; left]].
  all: assert (Hrest : ∀ (o : outcome unit) (tr : list event),
                 (o = Return 1 ↔ removal_failed tr) →
                 (o = Return 1 ↔
                    true = false ∨ true = false ∨ dba_files args = []
                    ∨ true = false ∨ true = false ∨ removal_failed tr))
    by (intros o tr [Ha Hb]; split; [by auto 10 | intros [?|[?|[?|[?|[?|?]]]]]; auto; done]).
  all: destruct (debug args); simpl;
    [split; [apply Hrest; split; [done | refute_removal] | by left] |].
  all: match goal with |- context [mkdtemp ?Y ?s] =>
         pose proof (mkdtemp_spec Y s) as Hmk; destruct (mkdtemp Y s) as [[d| |c|e] s1] end;
    simpl; try done.
  all: try (split; [apply Hrest; split; [done |] | right; right; by eexists];
            destruct Hmk as [-> | [d ->]]; simpl; refute_removal).
  all: destruct Hmk as (k & ds' & ->).
  all: match goal with |- context [run_batch ?Y ?a ?o ?c ?t ?s] =>
         assert (Hq : Forall (fun ev => ∀ d e, ev ≠ Ev (Rmtree d) (Raised e)
                                               ∨ exn_kind e ≠ OSError) (trace s))
           by (simpl; repeat (constructor; [intros ? ?; left; discriminate |]); constructor);
         destruct (run_batch_outcome Y a o t c s Hq) as [Hiff Hcases]
       end.
  all: split; [by apply Hrest | done].
Qed.

(** C3 does not hold as stated: none of the conditions that make [main]
    return 1 holds in this run, the disk is full when the first variable is
    written, and [main] neither returns 0 nor 1: the [OSError] of
    [insert_var_data] (line 221, outside every [try]) leaves it. *)
Lemma uncaught_exception_is_no_exit_code :
  let X := Fixture.libraries Fixture.disk_full (fun _ => true) Fixture.two_profiles in
  let args := Fixture.command false 0 in
  let s0 := initial Fixture.disk Fixture.folders "/home" 0 in
  let n := load_writer X (config_path args) in
  let r := run X args Fixture.disk Fixture.folders "/home" 0 in
  isdir s0 (config_path args) = true
  ∧ isdir s0 (output_dir args s0) = true
  ∧ dba_files args ≠ []
  ∧ validate_sensors X (nc_sensor_defs n) (ctd_sensors_of X args) = true
  ∧ validate_ngdac_var_names X (nc_sensor_defs n) = true
  ∧ ¬ removal_failed (trace r.2)
  ∧ r.1 = Raise (Exn OSError "No space left on device")
  ∧ r.1 ≠ Return 0 ∧ r.1 ≠ Return 1.
Proof.
  intros X args s0 n r.
  assert (Hr : r.1 = Raise (Exn OSError "No space left on device"))
    by (vm_compute; reflexivity).
  assert (Htr : ∃ tr, trace r.2 = tr ∧ Forall (fun ev => ∀ d, ev_call ev ≠ Rmtree d) tr).
  { eexists. split; [vm_compute; reflexivity |]. repeat constructor; discriminate. }
  clearbody r.
  split; [vm_compute; reflexivity |].
  split; [vm_compute; reflexivity |].
  split; [discriminate |].
  split; [vm_compute; reflexivity |].
  split; [vm_compute; reflexivity |].
  split.
  { destruct Htr as (tr & -> & Hall). intros (d & e & Hin & _).
    rewrite Forall_forall in Hall. by apply (Hall _ Hin d). }
  rewrite Hr. split; [reflexivity |]. split; discriminate.
Qed.

(** * C4: the identifier of a profile *)

Section Identifier.

Context (X : externals) (tr0 : list event) (pid0 : Z).

(** Since the trace was [tr0], [init_nc] has been called with the
    identifier [pid0] only. *)
Local Abbreviation with_id :=
  (fun c : call => match c with InitNc _ pid => pid = pid0 | _ => True end).
Local Abbreviation since :=
  (fun s : state => ∃ new, trace s = new ++ tr0 ∧ Forall (fun ev => with_id (ev_call ev)) new).
Local Abbreviation ready := (fun s : state => since s ∧ profile_id (ncw s) = pid0).
Local Abbreviation ever := (fun (_ : abrupt) (s : state) => since s).

Lemma since_emits {A} (C : call -> Prop) (m : M A) :
  emits_only C m → (∀ c, C c → with_id c) →
  hoare since m (fun _ s => since s) ever.
Proof.
  intros Hm HC s (new & Htr & Hnew).
  destruct (Hm s) as [(new' & Htr' & Hnew') _].
  assert (Hs : since (m s).2).
  { exists (new' ++ new). rewrite Htr', Htr, app_assoc. split; [done |].
    apply Forall_app. split; [| done]. eapply Forall_impl; [exact Hnew' |]. intros ev Hc. by apply HC. }
  by destruct (m s) as [[a| |c|e] s'].
Qed.

Lemma after_init_with_id (c : call) : after_init_call c → with_id c.
Proof. by destruct c. Qed.

Lemma since_log (s : state) f : since s → since (set_log f s).
Proof. done. Qed.

Lemma ready_mkstemp (dir suf pre : string) :
  hoare ready (mkstemp X dir suf pre) (fun _ s => ready s) ever.
Proof.
  intros s [(new & Htr & Hnew) Hid]. unfold mkstemp. unfold_monad.
  destruct (isdir s dir); simpl; [| by exists new].
  destruct (fresh_path _ _ _ _ _ _ _) as [[p n]|]; simpl; [| by exists new].
  destruct (fault X (Mkstemp p)); simpl.
  - exists (Ev (Mkstemp p) (Raised e) :: new). rewrite Htr. split; [done |]. by constructor.
  - split; [| done]. exists (Ev (Mkstemp p) Done :: new). rewrite Htr.
    split; [done |]. by constructor.
Qed.

Lemma ready_init_nc (p : string) :
  hoare ready (init_nc X p) (fun _ s => since s) ever.
Proof.
  intros s [(new & Htr & Hnew) Hid]. unfold init_nc. unfold_monad. rewrite Hid.
  destruct (fault X (InitNc p pid0)); simpl.
  - exists (Ev (InitNc p pid0) (Raised e) :: new). rewrite Htr. split; [done |]. by constructor.
  - exists (Ev (InitNc p pid0) Done :: new). rewrite Htr. split; [done |]. by constructor.
Qed.

Lemma since_stage (dba_file : string) (d : dba) (p_inds : list nat)
    (dt : datetime) (tmp : string) :
  hoare ready (stage X dba_file d p_inds dt tmp) (fun _ s => since s) ever.
Proof.
  destruct (emits_stage_rest X dba_file d p_inds dt tmp "" "" true)
    as (Hopen & _ & Hins & Hfin & _).
  assert (Hpop : ∀ step, emits_only after_init_call (populate X step)).
  { intros step. by destruct (emits_stage_rest X dba_file d p_inds dt tmp "" step true)
      as (_ & ? & _). }
  unfold stage.
  apply (hoare_bind _ _ (fun _ s => since s)).
  { apply hoare_try with (E1 := ever); [apply ready_init_nc | | by intros].
    intros e _ s Hs. unfold_monad. exact Hs. }
  intros ?.
  eapply hoare_bind; [exact (since_emits _ _ Hopen after_init_with_id) |]. intros ?.
  eapply hoare_bind; [exact (since_emits _ _ (Hpop _) after_init_with_id) |]. intros ?.
  apply hoare_bind_read. intros s0 _.
  eapply hoare_bind; [exact (since_emits _ _ (Hpop _) after_init_with_id) |]. intros ?.
  eapply hoare_bind; [exact (since_emits _ _ (Hpop _) after_init_with_id) |]. intros ?.
  eapply hoare_bind; [exact (since_emits _ _ (Hpop _) after_init_with_id) |]. intros ?.
  eapply hoare_bind; [exact (since_emits _ _ (Hpop _) after_init_with_id) |]. intros ?.
  eapply hoare_bind; [exact (since_emits _ _ Hins after_init_with_id) |]. intros ?.
  exact (since_emits _ _ Hfin after_init_with_id).
Qed.

Lemma since_process_profile (args : Args) (out_dir tmp_dir dba_file : string)
    (d : dba) (ts interval : list float) :
  ((start_profile_id args <? 1)%Z = true →
   ∀ pid, Np.int_of_float (Np.nanmean interval) = Some pid → pid = pid0) →
  hoare (fun s => since s ∧ ((start_profile_id args <? 1)%Z = false → profile_id (ncw s) = pid0))
    (process_profile X args out_dir tmp_dir dba_file d ts interval)
    (fun _ s => since s) ever.
Proof.
  intros Hpid. unfold process_profile, write_profile.
  apply hoare_bind_option; [by intros s _ [? _] | intros p0 _].
  apply hoare_bind_option; [by intros s _ [? _] | intros p1 _].
  cbv zeta.
  eapply hoare_bind with
    (Q := fun _ s => since s ∧ ((start_profile_id args <? 1)%Z = false → profile_id (ncw s) = pid0)).
  { apply hoare_when; [intros _ | by intros].
    intros s [Hs _]. unfold_monad. done. }
  intros ?.
  apply (hoare_bind _ _ (fun _ s => ready s)).
  { apply hoare_when.
    - intros Hlt. apply hoare_bind_option; [by intros s _ [? _] | intros pid Hint].
      intros s [(new & Htr & Hnew) _]. unfold_monad. split; [| by apply Hpid].
      exists (Ev (SetProfileId pid) Done :: new). rewrite Htr. split; [done |]. by constructor.
    - intros Hge s [Hs Hid]. split; [done | by apply Hid]. }
  intros ?.
  apply hoare_bind_option; [by intros s _ [? _] | intros dt _].
  apply hoare_bind_read. intros s0 _.
  eapply hoare_bind; [apply ready_mkstemp |]. intros tmp.
  apply hoare_bind_read. intros s1 _.
  apply (hoare_bind _ _ (fun _ s => ready s)).
  { apply hoare_when; [intros _ | by intros].
    destruct (clobber args); intros s [Hs Hid]; unfold_monad; done. }
  intros ?.
  eapply hoare_bind; [apply since_stage |]. intros nc_file.
  destruct (emits_stage_rest X dba_file d [] dt tmp
              (OsPath.join out_dir
                 (profile_filename_of (attributes_deployment_glider (ncw s0))
                    (strftime X dt "%Y%m%dT%H%M%SZ")
                    (filename_extension (dba_file_metadata d)) +:+ ".nc")) "" nc_file)
    as (_ & _ & _ & _ & Hpub).
  exact (since_emits _ _ Hpub after_init_with_id).
Qed.

End Identifier.

(** C4. With a starting identifier below 1, every call of [init_nc] made
    for a profile interval finds the writer's [profile_id] set to the
    truncated mean of that interval's timestamps (NaN entries ignored), a
    value that depends on that interval only.  With a starting identifier of
    1 or more the script never assigns [profile_id]: [init_nc] finds the
    identifier the writer had when the interval was taken up. *)
Theorem profile_identifier (X : externals) (args : Args) :
  ((start_profile_id args < 1)%Z →
   ∀ out_dir tmp_dir dba_file d ts interval s p pid r,
     Ev (InitNc p pid) r
       ∈ new_events s (process_profile X args out_dir tmp_dir dba_file d ts interval s).2 →
     Np.int_of_float (Np.nanmean interval) = Some pid)
  ∧ ((1 <= start_profile_id args)%Z →
     (∀ fs ds wd seed z r, Ev (SetProfileId z) r ∉ trace (run X args fs ds wd seed).2)
     ∧ ∀ out_dir tmp_dir dba_file d ts interval s p pid r,
         Ev (InitNc p pid) r
           ∈ new_events s (process_profile X args out_dir tmp_dir dba_file d ts interval s).2 →
         pid = profile_id (ncw s)).
Proof.
  assert (Hbody : ∀ pid0 out_dir tmp_dir dba_file d ts interval s p pid r,
            ((start_profile_id args <? 1)%Z = true →
             ∀ pid, Np.int_of_float (Np.nanmean interval) = Some pid → pid = pid0) →
            ((start_profile_id args <? 1)%Z = false → profile_id (ncw s) = pid0) →
            Ev (InitNc p pid) r
              ∈ new_events s (process_profile X args out_dir tmp_dir dba_file d ts interval s).2 →
            pid = pid0).
  { intros pid0 out_dir tmp_dir dba_file d ts interval s p pid r Hlt Hge Hin.
    pose proof (since_process_profile X (trace s) pid0 args out_dir tmp_dir dba_file d ts
                  interval Hlt s) as H.
    assert (Hend : ∃ new,
              trace (process_profile X args out_dir tmp_dir dba_file d ts interval s).2
              = new ++ trace s
              ∧ Forall (fun ev => match ev_call ev with InitNc _ q => q = pid0 | _ => True end) new).
    { destruct (process_profile X args out_dir tmp_dir dba_file d ts interval s)
        as [[[]| |c|e] s']; apply H; (split; [by exists [] | done]). }
    destruct Hend as (new & Htr & Hnew).
    rewrite (new_events_app _ _ _ Htr) in Hin.
    rewrite Forall_forall in Hnew. exact (Hnew _ Hin). }
  split.
  - intros Hstart out_dir tmp_dir dba_file d ts interval s p pid r Hin.
    assert (Hlt : (start_profile_id args <? 1)%Z = true) by (apply Z.ltb_lt; lia).
    destruct (Np.int_of_float (Np.nanmean interval)) as [pid'|] eqn:Hint.
    + f_equal. symmetry. eapply (Hbody pid'); [| | exact Hin].
      * intros _ q. rewrite Hint. by intros [= <-].
      * intros Hge. congruence.
    + exfalso.
      assert (H0 : pid = 0%Z).
      { eapply (Hbody 0%Z); [| | exact Hin]; [intros _ q; by rewrite Hint | congruence]. }
      assert (H1 : pid = 1%Z).
      { eapply (Hbody 1%Z); [| | exact Hin]; [intros _ q; by rewrite Hint | congruence]. }
      congruence.
  - intros Hstart.
    assert (Hge : (start_profile_id args <? 1)%Z = false) by (apply Z.ltb_ge; lia).
    split.
    + intros fs ds wd seed z r Hin.
      destruct (run_cases X args fs ds wd seed) as [(_ & _ & Hev) | (tmp_dir & HI)].
      * by apply Hev in Hin.
      * destruct (inv_events _ _ _ _ _ _ HI _ Hin) as [_ Hlt]. simpl in Hlt. congruence.
    + intros out_dir tmp_dir dba_file d ts interval s p pid r Hin.
      eapply (Hbody (profile_id (ncw s))); [| | exact Hin]; [congruence | done].
Qed.

Lemma profile_identifier_witness :
  let X := Fixture.libraries Fixture.no_fault (fun _ => true) Fixture.two_profiles in
  let body := fun first_id =>
                process_profile X (Fixture.command false first_id) "/out" "/tmp/tmp0"
                  "/in/ru01.sbd" Fixture.derived
                  [Fixture.fl 100; Fixture.fl 110; Fixture.fl 120; Fixture.fl 130]
                  [Fixture.fl 100; Fixture.fl 120] in
  let seventh := set_ncw (with_profile_id 7) Fixture.staging_ready in
  ((start_profile_id (Fixture.command false 0) < 1)%Z
   ∧ Ev (InitNc Fixture.first_tmp 110) Done
       ∈ new_events Fixture.staging_ready (body 0%Z Fixture.staging_ready).2
   ∧ Np.int_of_float (Np.nanmean [Fixture.fl 100; Fixture.fl 120]) = Some 110%Z)
  ∧ ((1 <= start_profile_id (Fixture.command false 7))%Z
     ∧ Ev (InitNc Fixture.first_tmp 7) Done ∈ new_events seventh (body 7%Z seventh).2
     ∧ 7%Z = profile_id (ncw seventh)).
Proof.
  intros X body seventh.
  assert (Hlt : (start_profile_id (Fixture.command false 0) < 1)%Z) by (vm_compute; reflexivity).
  assert (Hge : (1 <= start_profile_id (Fixture.command false 7))%Z) by (vm_compute; discriminate).
  assert (Hin : Ev (InitNc Fixture.first_tmp 110) Done
                  ∈ new_events Fixture.staging_ready (body 0%Z Fixture.staging_ready).2).
  { apply list_elem_of_lookup. exists 19%nat. vm_compute. reflexivity. }
  assert (Hin' : Ev (InitNc Fixture.first_tmp 7) Done ∈ new_events seventh (body 7%Z seventh).2).
  { apply list_elem_of_lookup. exists 19%nat. vm_compute. reflexivity. }
  split.
  - split; [exact Hlt |]. split; [exact Hin |].
    exact (proj1 (profile_identifier X (Fixture.command false 0)) Hlt
             _ _ _ _ _ _ _ _ _ _ Hin).
  - split; [exact Hge |]. split; [exact Hin' |].
    exact (proj2 (proj2 (profile_identifier X (Fixture.command false 7)) Hge)
             _ _ _ _ _ _ _ _ _ _ Hin').
Defined.

(** * The profiles that are skipped *)

Section Skips.

Context (X : externals).

Lemma run_mkstemp (dir suf pre : string) (s s1 : state) (tmp : string) :
  mkstemp X dir suf pre s = (Normal tmp, s1) →
  files s !! tmp = None
  ∧ ∃ n, s1 = set_trace (cons (Ev (Mkstemp tmp) Done))
                (set_files (insert tmp (File (octal 6 0 0) Empty))
                   (set_rng (fun _ => n) s)).
Proof.
  unfold mkstemp. unfold_monad.
  destruct (isdir s dir); simpl; [| discriminate].
  destruct (fresh_path _ _ _ _ _ _ _) as [[p n]|] eqn:Hfresh; simpl; [| discriminate].
  apply fresh_path_name in Hfresh as [Htaken _].
  destruct (fault X (Mkstemp p)); simpl; [discriminate |].
  intros [= <- <-]. split; [| by exists n].
  unfold path_exists, isfile in Htaken. apply orb_false_elim in Htaken as [Hfile _].
  apply bool_decide_eq_false in Hfile. by apply eq_None_not_Some.
Qed.

Lemma run_init_nc_fails (p : string) (s : state) (e : exn) :
  fault X (InitNc p (profile_id (ncw s))) = Some e →
  init_nc X p s = (Raise e, set_trace (cons (Ev (InitNc p (profile_id (ncw s))) (Raised e))) s).
Proof. intros H. unfold init_nc. unfold_monad. by rewrite H. Qed.

Lemma run_init_nc (p : string) (s : state) (f : file) :
  fault X (InitNc p (profile_id (ncw s))) = None →
  files s !! p = Some f →
  init_nc X p s
  = (Normal tt,
     set_trace (cons (Ev (InitNc p (profile_id (ncw s))) Done))
       (set_ncw (with_out_nc (Some p))
          (set_files (insert p (File (f_mode f)
                                  (NetCDF {| nc_stage_of := Initialized;
                                             nc_profile_id := profile_id (ncw s);
                                             nc_history := []; nc_vars := [] |}))) s))).
Proof. intros H Hf. unfold init_nc. unfold_monad. by rewrite H, Hf. Qed.

Lemma run_writer_step_fails (c : string -> call) (g : nc_file -> nc_file) (p : string)
    (s : state) (e : exn) :
  out_nc (ncw s) = Some p →
  fault X (c p) = Some e →
  writer_step X c g s = (Raise e, set_trace (cons (Ev (c p) (Raised e))) s).
Proof.
  intros Hp H. unfold writer_step, current_nc. unfold_monad. rewrite Hp. simpl.
  by rewrite H.
Qed.

Lemma run_writer_step (c : string -> call) (g : nc_file -> nc_file) (p : string)
    (s : state) (mode : Z) (nc : nc_file) :
  out_nc (ncw s) = Some p →
  fault X (c p) = None →
  files s !! p = Some (File mode (NetCDF nc)) →
  writer_step X c g s
  = (Normal tt,
     set_trace (cons (Ev (c p) Done))
       (set_files (insert p (File mode (NetCDF (g nc)))) s)).
Proof.
  intros Hp H Hf. unfold writer_step, current_nc, update_nc. unfold_monad. rewrite Hp. simpl.
  rewrite H. simpl. by rewrite Hf.
Qed.

Lemma run_unlink (p : string) (s : state) :
  fault X (Unlink p) = None →
  is_Some (files s !! p) →
  unlink X p s = (Normal tt, set_trace (cons (Ev (Unlink p) Done)) (set_files (delete p) s)).
Proof.
  intros H Hf. unfold unlink. unfold_monad. rewrite H. unfold isfile.
  by rewrite bool_decide_eq_true_2.
Qed.

Context (args : Args) (out_dir tmp_dir dba_file : string) (d : dba).

(** The write of one profile, once its staging file [tmp] is known. *)
Local Abbreviation finish :=
  (fun (p_inds : list nat) (dt : datetime) (tmp out : string) =>
     nc_file <- stage X dba_file d p_inds dt tmp;; publish X nc_file tmp out).

Lemma write_profile_staged (p_inds : list nat) (dt : datetime) (s s1 : state) (tmp : string) :
  let name := profile_filename_of (attributes_deployment_glider (ncw s))
                (strftime X dt "%Y%m%dT%H%M%SZ") (filename_extension (dba_file_metadata d)) in
  let out := OsPath.join out_dir (name +:+ ".nc") in
  mkstemp X tmp_dir ".nc" (OsPath.basename name) s = (Normal tmp, s1) →
  write_profile X args out_dir tmp_dir dba_file d p_inds dt s
  = (when (isfile s1 out)
       (if clobber args
        then logging INFO ("Clobbering existing NetCDF: " +:+ out)
        else logging WARNING ("Skipping existing NetCDF: " +:+ out);;; continue);;;
     finish p_inds dt tmp out) s1.
Proof.
  intros name out Hmk. unfold write_profile. cbv [bind get]. fold name. rewrite Hmk.
  reflexivity.
Qed.

Lemma skip_init (p_inds : list nat) (dt : datetime) (tmp out : string) (s : state) (e : exn) :
  exn_kind e = OSError →
  fault X (InitNc tmp (profile_id (ncw s))) = Some e →
  finish p_inds dt tmp out s
  = (Continue,
     set_log (cons (ERROR, "Error initializing " +:+ tmp +:+ ": " +:+ str_exn e))
       (set_trace (cons (Ev (InitNc tmp (profile_id (ncw s))) (Raised e))) s)).
Proof.
  intros He Hf. unfold stage. cbv [bind try_except]. rewrite (run_init_nc_fails _ _ _ Hf).
  rewrite He. reflexivity.
Qed.

Lemma skip_open (p_inds : list nat) (dt : datetime) (tmp out : string) (s : state)
    (f : file) (e : exn) :
  exn_kind e = OSError →
  files s !! tmp = Some f →
  fault X (InitNc tmp (profile_id (ncw s))) = None →
  fault X (OpenNc tmp) = Some e
  ∨ (fault X (OpenNc tmp) = None
     ∧ fault X (UpdateHistory tmp (argv0 X +:+ " " +:+ dba_file)) = Some e) →
  fault X (Unlink tmp) = None →
  ∃ s',
    finish p_inds dt tmp out s = (Continue, s')
    ∧ (∃ new, trace s' = new ++ trace s ∧ moves new = []
              ∧ head new = Some (Ev (Unlink tmp) Done))
    ∧ files s' = delete tmp (files s)
    ∧ log s' = (ERROR, "Error opening " +:+ tmp +:+ ": " +:+ str_exn e) :: log s
    ∧ output_nc_files s' = output_nc_files s.
Proof.
  intros He Hfile Hinit Hopen Hunlink.
  unfold stage, open_nc, update_history. cbv [bind try_except].
  rewrite (run_init_nc _ _ _ Hinit Hfile). cbv beta iota.
  destruct Hopen as [Hopen | [Hopen Hhist]].
  - rewrite (run_writer_step_fails _ _ tmp _ e); [| reflexivity | exact Hopen]. cbv beta iota.
    rewrite He. cbv beta iota. unfold logging at 1. cbv [modify].
    rewrite run_unlink; [| exact Hunlink | simpl; rewrite lookup_insert_eq; by eexists].
    eexists. split; [reflexivity |]. simpl. repeat apply conj; try reflexivity.
    + by exists [Ev (Unlink tmp) Done; Ev (OpenNc tmp) (Raised e);
                 Ev (InitNc tmp (profile_id (ncw s))) Done].
    + by rewrite delete_insert_eq.
  - erewrite (run_writer_step _ _ tmp);
      [| reflexivity | exact Hopen | simpl; apply lookup_insert_eq].
    cbv beta iota.
    rewrite (run_writer_step_fails _ _ tmp _ e); [| reflexivity | exact Hhist]. cbv beta iota.
    rewrite He. cbv beta iota. unfold logging at 1. cbv [modify].
    rewrite run_unlink; [| exact Hunlink | simpl; rewrite lookup_insert_eq; by eexists].
    eexists. split; [reflexivity |]. simpl. repeat apply conj; try reflexivity.
    + by exists [Ev (Unlink tmp) Done;
                 Ev (UpdateHistory tmp (argv0 X +:+ " " +:+ dba_file)) (Raised e);
                 Ev (OpenNc tmp) Done; Ev (InitNc tmp (profile_id (ncw s))) Done].
    + by rewrite insert_insert_eq, delete_insert_eq.
Qed.

End Skips.

(** X14.  Lines 156-197.  A profile interval whose mean timestamp is NaN is
    skipped with a warning before a staging file is made.  Once the staging
    file [tmp] of a profile has been made by [mkstemp]: if a file of the
    profile's name exists at the destination and [--clobber] was not given,
    the profile is skipped with a warning, no further call is made and the
    staging file stays as [mkstemp] made it; if [init_nc] raises an OS
    error, the profile is skipped with an error in the log and no further
    call is made, [os.unlink] in particular is not called; if [open_nc] or
    [update_history] raises an OS error, the profile is skipped with an
    error in the log after [os.unlink] has removed the staging file,
    provided that [os.unlink] itself does not fail.  In each of these cases
    nothing is moved, no path is added to the list of outputs, no file other
    than the staging file is touched, and the loop goes on with the
    remaining intervals of the same source. *)
Theorem skipped_profiles (X : externals) (args : Args) (out_dir tmp_dir dba_file : string)
    (d : dba) :
  (∀ ts interval s,
     interval ≠ [] → Np.isnan (Np.nanmean interval) = true →
     process_profile X args out_dir tmp_dir dba_file d ts interval s
     = (Continue, set_log (cons (WARNING, "Profile mean timestamp is Nan")) s))
  ∧ (∀ p_inds dt s tmp s1,
       let name := profile_filename_of (attributes_deployment_glider (ncw s))
                     (strftime X dt "%Y%m%dT%H%M%SZ")
                     (filename_extension (dba_file_metadata d)) in
       let out := OsPath.join out_dir (name +:+ ".nc") in
       let r := write_profile X args out_dir tmp_dir dba_file d p_inds dt s in
       mkstemp X tmp_dir ".nc" (OsPath.basename name) s = (Normal tmp, s1) →
       files s !! tmp = None
       ∧ files s1 = <[tmp := File (octal 6 0 0) Empty]> (files s)
       ∧ (isfile s1 out = true → clobber args = false →
          r.1 = Continue
          ∧ skipped WARNING ("Skipping existing NetCDF: " +:+ out) tmp s r.2
          ∧ new_events s r.2 = [Ev (Mkstemp tmp) Done]
          ∧ files r.2 !! tmp = Some (File (octal 6 0 0) Empty))
       ∧ (isfile s1 out = false ∨ clobber args = true →
          ∀ e, exn_kind e = OSError →
            (fault X (InitNc tmp (profile_id (ncw s))) = Some e →
             r.1 = Continue
             ∧ skipped ERROR ("Error initializing " +:+ tmp +:+ ": " +:+ str_exn e) tmp s r.2
             ∧ new_events s r.2
               = [Ev (InitNc tmp (profile_id (ncw s))) (Raised e); Ev (Mkstemp tmp) Done])
            ∧ (fault X (InitNc tmp (profile_id (ncw s))) = None →
               fault X (OpenNc tmp) = Some e
               ∨ (fault X (OpenNc tmp) = None
                  ∧ fault X (UpdateHistory tmp (argv0 X +:+ " " +:+ dba_file)) = Some e) →
               fault X (Unlink tmp) = None →
               r.1 = Continue
               ∧ skipped ERROR ("Error opening " +:+ tmp +:+ ": " +:+ str_exn e) tmp s r.2
               ∧ head (new_events s r.2) = Some (Ev (Unlink tmp) Done)
               ∧ files r.2 !! tmp = None)))
  ∧ (∀ ts interval rest s,
       let r := process_profile X args out_dir tmp_dir dba_file d ts interval s in
       r.1 = Continue →
       for_each (interval :: rest) (process_profile X args out_dir tmp_dir dba_file d ts) s
       = for_each rest (process_profile X args out_dir tmp_dir dba_file d ts) r.2).
Proof.
  split; [| split].
  - intros ts [|t interval] s Hne Hnan; [done |].
    unfold process_profile. unfold_monad.
    destruct (last (t :: interval)) as [p1|] eqn:Hlast.
    + simpl. rewrite Hnan. reflexivity.
    + by apply last_None in Hlast.
  - intros p_inds dt s tmp s1 name out r Hmk.
    pose proof (write_profile_staged X args out_dir tmp_dir dba_file d p_inds dt s s1 tmp Hmk)
      as Hrun.
    fold name out r in Hrun.
    destruct (run_mkstemp X _ _ _ _ _ _ Hmk) as [Hfresh [n Hs1]].
    assert (Hfiles : files s1 = <[tmp := File (octal 6 0 0) Empty]> (files s)) by by subst s1.
    assert (Htrace : trace s1 = [Ev (Mkstemp tmp) Done] ++ trace s) by by subst s1.
    assert (Hncw : ncw s1 = ncw s) by by subst s1.
    assert (Hout : output_nc_files s1 = output_nc_files s) by by subst s1.
    clear Hs1 Hmk.
    assert (Hother : ∀ p, p ≠ tmp → files s1 !! p = files s !! p).
    { intros p Hp. rewrite Hfiles. by apply lookup_insert_ne. }
    assert (Htmp : files s1 !! tmp = Some (File (octal 6 0 0) Empty)).
    { rewrite Hfiles. apply lookup_insert_eq. }
    split; [exact Hfresh |]. split; [exact Hfiles |]. split.
    + intros Hex Hcl.
      assert (Hr : r = (Continue,
                        set_log (cons (WARNING, "Skipping existing NetCDF: " +:+ out)) s1)).
      { rewrite Hrun, Hex, Hcl. reflexivity. }
      assert (Hnew : new_events s (set_log (cons (WARNING, "Skipping existing NetCDF: " +:+ out))
                                     s1) = [Ev (Mkstemp tmp) Done]).
      { by rewrite (new_events_app _ _ [Ev (Mkstemp tmp) Done]). }
      rewrite Hr. unfold skipped. simpl.
      split; [reflexivity |]. split; [| split; [exact Hnew | exact Htmp]].
      split; [reflexivity |]. split; [exact Hout |]. split; [| exact Hother].
      by rewrite Hnew.
    + intros Hgo e He.
      set (s2 := if isfile s1 out
                 then set_log (cons (INFO, "Clobbering existing NetCDF: " +:+ out)) s1
                 else s1).
      assert (Hrun2 : r = (nc_file <- stage X dba_file d p_inds dt tmp;;
                           publish X nc_file tmp out) s2).
      { rewrite Hrun. subst s2. destruct (isfile s1 out); [| reflexivity].
        destruct Hgo as [Hgo | Hgo]; [discriminate Hgo |]. rewrite Hgo. reflexivity. }
      assert (Hfiles2 : files s2 = files s1) by (subst s2; by destruct (isfile s1 out)).
      assert (Htrace2 : trace s2 = trace s1) by (subst s2; by destruct (isfile s1 out)).
      assert (Hncw2 : ncw s2 = ncw s1) by (subst s2; by destruct (isfile s1 out)).
      assert (Hout2 : output_nc_files s2 = output_nc_files s1)
        by (subst s2; by destruct (isfile s1 out)).
      clearbody s2. clear Hrun. split.
      * intros Hinit. rewrite <- Hncw, <- Hncw2 in Hinit.
        rewrite Hrun2, (skip_init X dba_file d p_inds dt tmp out s2 e He Hinit).
        unfold skipped. simpl.
        match goal with |- context [new_events s ?s'] =>
          assert (Hnew : new_events s s'
                         = [Ev (InitNc tmp (profile_id (ncw s))) (Raised e);
                            Ev (Mkstemp tmp) Done])
        end.
        { rewrite <- Hncw, <- Hncw2.
          apply new_events_app. simpl. by rewrite Htrace2, Htrace. }
        split; [reflexivity |]. split; [| exact Hnew].
        split; [reflexivity |]. split; [by rewrite Hout2 |]. split.
        -- by rewrite Hnew.
        -- intros p Hp. rewrite Hfiles2. by apply Hother.
      * intros Hinit Hopen Hunlink. rewrite <- Hncw, <- Hncw2 in Hinit.
        rewrite <- Hfiles2 in Htmp.
        destruct (skip_open X dba_file d p_inds dt tmp out s2 _ e He Htmp Hinit Hopen Hunlink)
          as (s' & Hfin & (new & Hnew & Hmoves & Hhead) & Hdel & Hlog & Houts).
        assert (Hevents : new_events s s' = new ++ [Ev (Mkstemp tmp) Done]).
        { apply new_events_app. rewrite Hnew, Htrace2, Htrace. by rewrite <- app_assoc. }
        rewrite Hrun2, Hfin. unfold skipped. simpl.
        split; [reflexivity |]. split; [| split; [| rewrite Hdel; apply lookup_delete_eq]].
        -- split; [by rewrite Hlog |]. split; [by rewrite Houts, Hout2 |]. split.
           ++ rewrite Hevents. unfold moves in *.
              rewrite reverse_app, omap_app, Hmoves. reflexivity.
           ++ intros p Hp. rewrite Hdel, lookup_delete_ne by done. rewrite Hfiles2.
              by apply Hother.
        -- rewrite Hevents. destruct new; [discriminate Hhead | exact Hhead].
  - intros ts interval rest s r Hr. simpl. fold r.
    destruct r as [[[]| |c|e] s']; simpl in Hr; try discriminate Hr. reflexivity.
Qed.

Lemma skipped_profiles_witness :
  let X := Fixture.libraries Fixture.read_only (fun _ => true) Fixture.two_profiles in
  let args := Fixture.command false 0 in
  let ts := [Fixture.fl 100; Fixture.fl 110; Fixture.fl 120; Fixture.fl 130] in
  let s := Fixture.staging_used in
  let name := profile_filename_of (attributes_deployment_glider (ncw s))
                (strftime X Fixture.first_mean "%Y%m%dT%H%M%SZ")
                (filename_extension (dba_file_metadata Fixture.derived)) in
  let out := OsPath.join "/out" (name +:+ ".nc") in
  let staging := mkstemp X "/tmp/tmp0" ".nc" (OsPath.basename name) in
  let r := write_profile X args "/out" "/tmp/tmp0" "/in/ru01.sbd" Fixture.derived [0; 1; 2]%nat
             Fixture.first_mean s in
  (process_profile X args "/out" "/tmp/tmp0" "/in/ru01.sbd" Fixture.derived ts [PrimFloat.nan]
     Fixture.staging_ready
   = (Continue, set_log (cons (WARNING, "Profile mean timestamp is Nan")) Fixture.staging_ready))
  ∧ (staging s = (Normal Fixture.first_tmp, (staging s).2)
     ∧ isfile (staging s).2 out = true
     ∧ out = Fixture.first_out
     ∧ r.1 = Continue
     ∧ skipped WARNING ("Skipping existing NetCDF: " +:+ out) Fixture.first_tmp s r.2
     ∧ new_events s r.2 = [Ev (Mkstemp Fixture.first_tmp) Done]
     ∧ files r.2 !! Fixture.first_tmp = Some (File (octal 6 0 0) Empty)).
Proof.
  intros X args ts s name out staging r.
  pose proof (skipped_profiles X args "/out" "/tmp/tmp0" "/in/ru01.sbd" Fixture.derived)
    as (Hnan & Hskip & _).
  split.
  - apply Hnan; [discriminate | vm_compute; reflexivity].
  - assert (Hmk : staging s = (Normal Fixture.first_tmp, (staging s).2))
      by (vm_compute; reflexivity).
    assert (Hex : isfile (staging s).2 out = true) by (vm_compute; reflexivity).
    assert (Hout : out = Fixture.first_out) by (vm_compute; reflexivity).
    split; [exact Hmk |]. split; [exact Hex |]. split; [exact Hout |].
    exact (proj1 (proj2 (proj2 (Hskip [0; 1; 2]%nat Fixture.first_mean s
                                  Fixture.first_tmp _ Hmk))) Hex eq_refl).
Defined.

(** C6. Two runs in which a profile is skipped with its staging file left
    behind, and one in which the staging file is removed.  The profile's
    file exists already and [--clobber] is not given: the profile is
    skipped (line 181) and the staging file stays where [mkstemp] made it.
    [init_nc] raises an OS error (line 188), and so does the removal of the
    staging directory: [os.unlink] is never called, the run returns 1 and
    the staging file of the skipped profile is still there.  [open_nc]
    raises an OS error (lines 194-197): the staging file is unlinked before
    the profile is skipped. *)
Theorem skipped_profile_keeps_its_staging_file :
  let ts := [Fixture.fl 100; Fixture.fl 110; Fixture.fl 120; Fixture.fl 130] in
  let b := process_profile (Fixture.libraries Fixture.no_fault (fun _ => true) Fixture.two_profiles)
             (Fixture.command false 0) "/out" "/tmp/tmp0" "/in/ru01.sbd" Fixture.derived ts
             [Fixture.fl 100; Fixture.fl 120] Fixture.staging_used in
  let r := run (Fixture.libraries Fixture.read_only (fun _ => true) Fixture.one_profile)
             (Fixture.command false 0) Fixture.disk Fixture.folders "/home" 0 in
  let r' := run (Fixture.libraries Fixture.unreadable (fun _ => true) Fixture.one_profile)
              (Fixture.command false 0) Fixture.disk Fixture.folders "/home" 0 in
  (b.1 = Continue
   ∧ head (log b.2) = Some (WARNING, "Skipping existing NetCDF: " +:+ Fixture.first_out)
   ∧ files b.2 !! Fixture.first_tmp = Some (File (octal 6 0 0) Empty))
  ∧ (r.1 = Return 1
     ∧ Ev (InitNc Fixture.first_tmp 110) (Raised (Exn OSError "Permission denied")) ∈ trace r.2
     ∧ (∀ p res, Ev (Unlink p) res ∉ trace r.2)
     ∧ files r.2 !! Fixture.first_tmp = Some (File (octal 6 0 0) Empty))
  ∧ (r'.1 = Return 1
     ∧ Ev (OpenNc Fixture.first_tmp) (Raised (Exn OSError "Permission denied")) ∈ trace r'.2
     ∧ Ev (Unlink Fixture.first_tmp) Done ∈ trace r'.2
     ∧ files r'.2 !! Fixture.first_tmp = None).
Proof.
  intros ts b r r'.
  assert (Hb1 : b.1 = Continue) by (vm_compute; reflexivity).
  assert (Hb2 : head (log b.2)
                = Some (WARNING, "Skipping existing NetCDF: " +:+ Fixture.first_out))
    by (vm_compute; reflexivity).
  assert (Hb3 : files b.2 !! Fixture.first_tmp = Some (File (octal 6 0 0) Empty))
    by (vm_compute; reflexivity).
  assert (Hr1 : r.1 = Return 1) by (vm_compute; reflexivity).
  assert (Hr4 : files r.2 !! Fixture.first_tmp = Some (File (octal 6 0 0) Empty))
    by (vm_compute; reflexivity).
  assert (Htr : ∃ tr, trace r.2 = tr
                      ∧ tr = [Ev (Rmtree "/tmp/tmp0") (Raised (Exn OSError "Directory not empty"));
                              Ev (InitNc Fixture.first_tmp 110)
                                (Raised (Exn OSError "Permission denied"));
                              Ev (Mkstemp Fixture.first_tmp) Done;
                              Ev (SetProfileId 110) Done;
                              Ev (Mkdtemp "/tmp/tmp0") Done]).
  { eexists. split; [reflexivity |]. vm_compute. reflexivity. }
  assert (Hr'1 : r'.1 = Return 1) by (vm_compute; reflexivity).
  assert (Hr'4 : files r'.2 !! Fixture.first_tmp = None) by (vm_compute; reflexivity).
  assert (Htr' : ∃ tr, trace r'.2 = tr
                       ∧ tr = [Ev (Rmtree "/tmp/tmp0")
                                 (Raised (Exn OSError "Directory not empty"));
                               Ev (Unlink Fixture.first_tmp) Done;
                               Ev (OpenNc Fixture.first_tmp)
                                 (Raised (Exn OSError "Permission denied"));
                               Ev (InitNc Fixture.first_tmp 110) Done;
                               Ev (Mkstemp Fixture.first_tmp) Done;
                               Ev (SetProfileId 110) Done;
                               Ev (Mkdtemp "/tmp/tmp0") Done]).
  { eexists. split; [reflexivity |]. vm_compute. reflexivity. }
  destruct Htr as (tr & Htr & Heq). destruct Htr' as (tr' & Htr' & Heq').
  clearbody b r r'.
  split; [by repeat split |]. split.
  - split; [exact Hr1 |]. rewrite Htr, Heq. split; [| split; [| exact Hr4]].
    + apply elem_of_cons. right. apply elem_of_cons. by left.
    + intros p res Hin. repeat (apply elem_of_cons in Hin as [Hin | Hin]; [discriminate Hin |]).
      by apply elem_of_nil in Hin.
  - split; [exact Hr'1 |]. rewrite Htr', Heq'. split; [| split; [| exact Hr'4]].
    + do 2 (apply elem_of_cons; right). apply elem_of_cons. by left.
    + apply elem_of_cons. right. apply elem_of_cons. by left.
Qed.

(** * C2 and C5: two runs of the script *)

(** C2. A run that returns 0 and lists a path although nothing was produced:
    [--clobber] is given, a file of the profile's name exists already, and
    [finish_nc] returns a false value.  Nothing is moved, yet the
    destination is appended to [output_nc_files] (line 234 is outside the
    [if nc_file:] of line 226) and printed; the file at that path is the
    older one, with its mode changed by line 248. *)
Theorem unfinished_profile_is_listed :
  let r := run (Fixture.libraries Fixture.no_fault (fun _ => false) Fixture.one_profile)
             (Fixture.command true 0) Fixture.used_disk Fixture.folders "/home" 0 in
  r.1 = Return 0
  ∧ stdout r.2 = [Fixture.first_out +:+ nl]
  ∧ Ev (FinishNc Fixture.first_tmp) Declined ∈ trace r.2
  ∧ moves (trace r.2) = []
  ∧ files r.2 !! Fixture.first_out = Some (File (octal 6 6 4) (Foreign "an older file")).
Proof.
  intros r. subst r. repeat apply conj; try (vm_compute; reflexivity).
  apply list_elem_of_lookup. exists 3%nat. vm_compute. reflexivity.
Qed.

(** C5. A run in which segmentation raises [ValueError]: the handler of
    line 103 formats the exception with [{:s}], which raises [TypeError];
    the run ends with that exception instead of going on with the next
    file, and nothing is printed. *)
Theorem segmentation_error_ends_the_run :
  let r := run (Fixture.libraries Fixture.no_fault (fun _ => true)
                  (inl (Exn ValueError "could not segment the signal")))
             (Fixture.command false 0) Fixture.disk Fixture.folders "/home" 0 in
  r.1 = Raise (Exn TypeError "unsupported format string passed to ValueError.__format__")
  ∧ stdout r.2 = []
  ∧ processed_dbas r.2 = [].
Proof. intros r. subst r. repeat apply conj; vm_compute; reflexivity. Qed.

(** * What the parts of the script leave as it is *)

#[global] Instance keeps_preorder {T} (f : state -> T) : PreOrder (keeps f).
Proof.
  split.
  - intros s. reflexivity.
  - intros s1 s2 s3 H1 H2. unfold keeps in *. congruence.
Qed.

#[global] Instance no_new_file_preorder : PreOrder no_new_file.
Proof.
  split.
  - intros s p Hp. exact Hp.
  - intros s1 s2 s3 H1 H2 p Hp. apply H2, H1, Hp.
Qed.

Section Steps.

Context (R : relation state) `{!PreOrder R}.

Lemma steps_ret {A} (a : A) : steps R (ret a).
Proof. intros s. reflexivity. Qed.

Lemma steps_raise {A} (e : exn) : steps R (@raise A e).
Proof. intros s. reflexivity. Qed.

Lemma steps_continue {A} : steps R (@continue A).
Proof. intros s. reflexivity. Qed.

Lemma steps_return {A} (c : Z) : steps R (@return_ A c).
Proof. intros s. reflexivity. Qed.

Lemma steps_get : steps R get.
Proof. intros s. reflexivity. Qed.

Lemma steps_of_option {A} (o : option A) (e : exn) : steps R (of_option o e).
Proof. destruct o; [apply steps_ret | apply steps_raise]. Qed.

Lemma steps_modify (f : state -> state) : (∀ s, R s (f s)) → steps R (modify f).
Proof. intros Hf s. apply Hf. Qed.

Lemma steps_bind {A B} (m : M A) (k : A -> M B) :
  steps R m → (∀ a, steps R (k a)) → steps R (bind m k).
Proof.
  intros Hm Hk s. unfold bind. specialize (Hm s).
  destruct (m s) as [[a| |c|e] s1]; simpl in *; try done.
  etrans; [exact Hm | apply Hk].
Qed.

Lemma steps_when (b : bool) (m : M unit) : (b = true → steps R m) → steps R (when b m).
Proof. destruct b; [auto | intros; apply steps_ret]. Qed.

Lemma steps_try {A} (m : M A) (cls : exn_class) (h : exn -> M A) :
  steps R m → (∀ e, steps R (h e)) → steps R (try_except m cls h).
Proof.
  intros Hm Hh s. unfold try_except. specialize (Hm s).
  destruct (m s) as [[a| |c|e] s1]; simpl in *; try done.
  destruct (decide (exn_kind e = cls)); [| done].
  etrans; [exact Hm | apply Hh].
Qed.

Lemma steps_for_each {B} (l : list B) (body : B -> M unit) :
  (∀ x, steps R (body x)) → steps R (for_each l body).
Proof.
  intros Hbody. induction l as [|x l IH]; [apply steps_ret |].
  intros s. simpl. specialize (Hbody x s).
  destruct (body x s) as [[[]| |c|e] s1]; simpl in *; try done.
  - etrans; [exact Hbody | apply IH].
  - etrans; [exact Hbody | apply IH].
Qed.

End Steps.

(** The steps of a part of the script, one after the other; [tac] shows
    that an update of the state is in the relation. *)
Ltac steps_step tac :=
  first
    [ apply steps_ret; typeclasses eauto
    | apply steps_raise; typeclasses eauto
    | apply steps_continue; typeclasses eauto
    | apply steps_return; typeclasses eauto
    | apply steps_get; typeclasses eauto
    | apply steps_of_option; typeclasses eauto
    | apply steps_bind; [typeclasses eauto | | intros ?]
    | apply steps_when; [typeclasses eauto | intros ?]
    | apply steps_try; [typeclasses eauto | | intros ?]
    | apply steps_for_each; [typeclasses eauto | intros ?]
    | apply steps_modify; intros ?; tac ()
    | match goal with
      | |- steps _ (match ?x with _ => _ end) => destruct x
      | |- steps _ (let _ := _ in _) => cbv zeta
      | |- steps _ (if ?b then _ else _) => destruct b
      end ].

Ltac unfold_script :=
  unfold process_dba, process_profile, write_profile, stage, publish, insert_all,
    skip_no_position, column_of, format_s_exn, mkstemp, init_nc, finish_nc, populate,
    open_nc, update_history, unlink, insert_var_data, writer_step, update_nc, current_nc,
    move, chmod, stdout_write, failing, emit, logging.

Section Frames.

Context (X : externals) (args : Args) (out_dir tmp_dir : string) (ctd_sensors : list string).

(** The loop over the input files writes nothing to standard output and
    neither makes nor removes a directory. *)
Lemma loop_keeps_stdout (dba_file : string) :
  steps (keeps stdout) (process_dba X args out_dir tmp_dir ctd_sensors dba_file).
Proof. unfold_script. repeat steps_step ltac:(fun _ => reflexivity). Qed.

Lemma loop_keeps_dirs (dba_file : string) :
  steps (keeps dirs) (process_dba X args out_dir tmp_dir ctd_sensors dba_file).
Proof. unfold_script. repeat steps_step ltac:(fun _ => reflexivity). Qed.

(** The listing changes the mode of files that exist and makes none. *)
Lemma chmod_no_new_file (p : string) (mode : Z) : steps no_new_file (chmod X p mode).
Proof.
  intros s q Hq. unfold chmod. unfold_monad.
  destruct (fault X (Chmod p mode)); simpl; [exact Hq |].
  destruct (files s !! p) as [f|] eqn:Hp; simpl.
  - rewrite lookup_insert_ne; [exact Hq | congruence].
  - by destruct (isdir s p).
Qed.

Lemma listing_no_new_file : steps no_new_file (list_outputs X).
Proof.
  unfold list_outputs.
  apply steps_bind; [typeclasses eauto | apply steps_get; typeclasses eauto | intros s0].
  apply steps_for_each; [typeclasses eauto | intros p].
  apply steps_bind; [typeclasses eauto | apply chmod_no_new_file | intros _].
  unfold stdout_write, emit. repeat steps_step ltac:(fun _ => intros q Hq; exact Hq).
Qed.

Lemma listing_keeps_dirs : steps (keeps dirs) (list_outputs X).
Proof. unfold list_outputs. unfold_script. repeat steps_step ltac:(fun _ => reflexivity). Qed.

End Frames.

(** * The files that were there before the run *)

Section Preserves.

Context (J : state -> Prop).

Lemma preserves_ret {A} (a : A) : preserves J (ret a).
Proof. by intros s Hs. Qed.

Lemma preserves_raise {A} (e : exn) : preserves J (@raise A e).
Proof. by intros s Hs. Qed.

Lemma preserves_continue {A} : preserves J (@continue A).
Proof. by intros s Hs. Qed.

Lemma preserves_return {A} (c : Z) : preserves J (@return_ A c).
Proof. by intros s Hs. Qed.

Lemma preserves_get : preserves J get.
Proof. by intros s Hs. Qed.

Lemma preserves_of_option {A} (o : option A) (e : exn) : preserves J (of_option o e).
Proof. destruct o; [apply preserves_ret | apply preserves_raise]. Qed.

Lemma preserves_modify (f : state -> state) : (∀ s, J s → J (f s)) → preserves J (modify f).
Proof. intros Hf s Hs. by apply Hf. Qed.

Lemma preserves_bind_yield {A B} (Q : A -> Prop) (m : M A) (k : A -> M B) :
  preserves J m → yields J Q m → (∀ a, Q a → preserves J (k a)) →
  preserves J (bind m k).
Proof.
  intros Hm HQ Hk s Hs. unfold bind. specialize (Hm s Hs). specialize (HQ s).
  destruct (m s) as [[a| |c|e] s1]; simpl in *; try done.
  apply Hk; [by apply HQ | done].
Qed.

Lemma preserves_bind {A B} (m : M A) (k : A -> M B) :
  preserves J m → (∀ a, preserves J (k a)) → preserves J (bind m k).
Proof.
  intros Hm Hk. apply (preserves_bind_yield (fun _ => True)); [done | done | auto].
Qed.

Lemma preserves_when (b : bool) (m : M unit) :
  (b = true → preserves J m) → preserves J (when b m).
Proof. destruct b; [auto | intros; apply preserves_ret]. Qed.

Lemma preserves_try {A} (m : M A) (cls : exn_class) (h : exn -> M A) :
  preserves J m → (∀ e, preserves J (h e)) → preserves J (try_except m cls h).
Proof.
  intros Hm Hh s Hs. unfold try_except. specialize (Hm s Hs).
  destruct (m s) as [[a| |c|e] s1]; simpl in *; try done.
  destruct (decide (exn_kind e = cls)); [by apply Hh | done].
Qed.

Lemma preserves_for_each {B} (l : list B) (body : B -> M unit) :
  (∀ x, preserves J (body x)) → preserves J (for_each l body).
Proof.
  intros Hbody. induction l as [|x l IH]; [apply preserves_ret |].
  intros s Hs. simpl. specialize (Hbody x s Hs).
  destruct (body x s) as [[[]| |c|e] s1]; simpl in *; try done; by apply IH.
Qed.

End Preserves.

Ltac preserves_step tac :=
  first
    [ apply preserves_ret | apply preserves_raise | apply preserves_continue
    | apply preserves_return | apply preserves_get | apply preserves_of_option
    | tac ()
    | apply preserves_bind; [| intros ?]
    | apply preserves_when; intros ?
    | apply preserves_try; [| intros ?]
    | apply preserves_for_each; intros ?
    | apply preserves_modify; intros ? ?; assumption
    | match goal with
      | |- preserves _ (match ?x with _ => _ end) => destruct x
      | |- preserves _ (let _ := _ in _) => cbv zeta
      | |- preserves _ (if ?b then _ else _) => destruct b
      end ].

Section Guarded.

Context (X : externals) (fs0 : gmap string file) (tmp_dir : string).
Hypothesis names : ∀ n, OsPath.starts_with_slash (random_name X n) = false.
Hypothesis named : tmp_dir ≠ "".

Local Abbreviation G := (guarded fs0 tmp_dir).
Local Abbreviation staging := (fun p : string => OsPath.below tmp_dir p = true).

Lemma guarded_insert (s : state) (p : string) (f : file) (n : writer) :
  G s → (∀ q, out_nc n = Some q → staging q) →
  G (set_ncw (fun _ => n) (set_files (insert p f) s)).
Proof.
  intros [Hw Hf] Hn. split; [exact Hn |]. intros q Hq Hb. simpl.
  destruct (decide (p = q)) as [-> | Hne]; [by rewrite lookup_insert_eq |].
  rewrite lookup_insert_ne by done. by apply Hf.
Qed.

Lemma guarded_delete (s : state) (p : string) :
  G s → staging p → G (set_files (delete p) s).
Proof.
  intros [Hw Hf] Hp. split; [exact Hw |]. intros q Hq Hb. simpl.
  rewrite lookup_delete_ne by congruence. by apply Hf.
Qed.

Lemma guarded_mkstemp (pre : string) : preserves G (mkstemp X tmp_dir ".nc" pre).
Proof.
  intros s Hs. unfold mkstemp. unfold_monad.
  destruct (isdir s tmp_dir); simpl; [| done].
  destruct (fresh_path _ _ _ _ _ _ _) as [[p n]|]; simpl; [| done].
  destruct (fault X (Mkstemp p)); simpl; [done |].
  apply (guarded_insert (set_rng (fun _ => n) s) p _ (ncw s)); [done | apply Hs].
Qed.

Lemma guarded_mkstemp_yields (name : string) :
  yields G staging (mkstemp X tmp_dir ".nc" (OsPath.basename name)).
Proof.
  intros s q _. unfold mkstemp. unfold_monad.
  destruct (isdir s tmp_dir); simpl; [| done].
  destruct (fresh_path _ _ _ _ _ _ _) as [[p n]|] eqn:Hfresh; simpl; [| done].
  apply fresh_path_name in Hfresh as [_ [k ->]].
  destruct (fault X (Mkstemp _)); simpl; [done |]. intros [= <-].
  apply below_join; [exact named | by apply staging_name_start].
Qed.

Lemma guarded_init_nc (p : string) : staging p → preserves G (init_nc X p).
Proof.
  intros Hp s Hs. unfold init_nc. unfold_monad.
  destruct (fault X (InitNc p _)); simpl; [done |].
  apply (guarded_insert s p _ (with_out_nc (Some p) (ncw s))); [done |].
  by intros q [= <-].
Qed.

Lemma guarded_writer_step (c : string -> call) (g : nc_file -> nc_file) :
  preserves G (writer_step X c g).
Proof.
  intros s Hs. unfold writer_step, current_nc, update_nc. unfold_monad.
  destruct (out_nc (ncw s)) as [p|]; simpl; [| done].
  destruct (fault X (c p)); simpl; [done |].
  destruct (files s !! p) as [[mode [x| |nc|part]]|]; simpl; try done.
  apply (guarded_insert s p _ (ncw s)); [done | apply Hs].
Qed.

Lemma guarded_finish_nc : preserves G (finish_nc X).
Proof.
  intros s Hs. unfold finish_nc, update_nc. unfold_monad.
  destruct (out_nc (ncw s)) as [p|]; simpl; [| done].
  destruct (fault X (FinishNc p)); simpl; [done |].
  destruct (finish_nc_returns X p); simpl; [| done].
  destruct (files s !! p) as [[mode [x| |nc|part]]|]; simpl; try done.
  apply (guarded_insert s p _ (with_out_nc None (with_profile_id _ (ncw s)))); [done |].
  intros q Hq. discriminate Hq.
Qed.

Lemma guarded_unlink (p : string) : staging p → preserves G (unlink X p).
Proof.
  intros Hp s Hs. unfold unlink. unfold_monad.
  destruct (fault X (Unlink p)); simpl; [done |].
  destruct (isfile s p); simpl; [| done]. by apply guarded_delete.
Qed.

Lemma guarded_move (src dst : string) : staging src → preserves G (move X src dst).
Proof.
  intros Hp s Hs. unfold move. unfold_monad.
  destruct (isdir s dst && path_exists s _); simpl; [done |].
  destruct (files s !! src) as [f|]; simpl; [| done].
  destruct (fault X (Move src dst)); simpl.
  - unfold left_by_move. destruct (bool_decide (src = _)); [done |].
    destruct (move_reached X src dst); [done | | |];
      (eapply (guarded_insert s _ _ (ncw s)); [done | apply Hs]).
  - pose proof (guarded_insert (set_files (delete src) s)
                  (if isdir s dst then OsPath.join dst (OsPath.basename src) else dst)
                  f (ncw s)) as H.
    apply H; [by apply guarded_delete | apply Hs].
Qed.

Lemma guarded_chmod (p : string) (mode : Z) : preserves G (chmod X p mode).
Proof.
  intros s Hs. unfold chmod. unfold_monad.
  destruct (fault X (Chmod p mode)); simpl; [done |].
  destruct (files s !! p) as [f|]; simpl.
  - apply (guarded_insert s p _ (ncw s)); [done | apply Hs].
  - by destruct (isdir s p).
Qed.

Lemma guarded_rmtree : preserves G (rmtree X tmp_dir).
Proof.
  intros s [Hw Hf]. unfold rmtree. unfold_monad.
  destruct (fault X (Rmtree tmp_dir)); simpl; [done |].
  destruct (isdir s tmp_dir); simpl; [| done].
  split; [exact Hw |]. intros q Hq Hb. simpl.
  destruct (Hf q Hq Hb) as [f Hfile]. exists f.
  apply map_lookup_filter_Some. split; [exact Hfile | exact Hb].
Qed.

Ltac guarded_call :=
  first
    [ apply guarded_writer_step | apply guarded_finish_nc | apply guarded_chmod
    | apply guarded_rmtree | apply guarded_mkstemp
    | apply guarded_init_nc; assumption
    | apply guarded_unlink; assumption
    | apply guarded_move; assumption
    | apply (preserves_bind_yield G staging);
      [apply guarded_mkstemp | apply guarded_mkstemp_yields | intros ? ?] ].

(** From the creation of the staging directory to the end of [main], no
    file outside the staging directory is removed. *)
Lemma guarded_run_batch (args : Args) (out_dir : string) (ctd_sensors : list string) :
  preserves G (run_batch X args out_dir ctd_sensors tmp_dir).
Proof.
  unfold run_batch, list_outputs, process_dba, process_profile, write_profile, stage, publish,
    insert_all, skip_no_position, column_of, format_s_exn, populate, open_nc,
    update_history, insert_var_data, stdout_write, emit, logging.
  repeat preserves_step ltac:(fun _ => guarded_call).
Qed.

End Guarded.

(** * The staging directory and standard output over a whole run *)

Lemma mkdtemp_made (X : externals) (s s' : state) (d : string) :
  mkdtemp X s = (Normal d, s') →
  d ∈ dirs s' ∧ trace s' = Ev (Mkdtemp d) Done :: trace s
  ∧ files s' = files s ∧ stdout s' = stdout s ∧ log s' = log s ∧ ncw s' = ncw s
  ∧ output_nc_files s' = output_nc_files s.
Proof.
  unfold mkdtemp. unfold_monad.
  destruct (isdir s (gettempdir X)); simpl; [| discriminate].
  destruct (fresh_path _ _ _ _ _ _ _) as [[p n]|]; simpl; [| discriminate].
  destruct (fault X (Mkdtemp p)); simpl; [discriminate |].
  intros [= <- <-]. simpl. split; [| done].
  apply elem_of_union. left. by apply elem_of_singleton.
Qed.

Lemma mkdtemp_failed (X : externals) (s s' : state) (e : exn) :
  mkdtemp X s = (Raise e, s') →
  files s' = files s ∧ dirs s' = dirs s ∧ stdout s' = stdout s
  ∧ output_nc_files s' = output_nc_files s
  ∧ ∀ ev, ev ∈ trace s' → ev ∈ trace s ∨ ∃ d, ev = Ev (Mkdtemp d) (Raised e).
Proof.
  unfold mkdtemp. unfold_monad.
  destruct (isdir s (gettempdir X)); simpl; [| intros [= <- <-]; repeat split; auto].
  destruct (fresh_path _ _ _ _ _ _ _) as [[p n]|]; simpl; [| intros [= <- <-]; repeat split; auto].
  destruct (fault X (Mkdtemp p)); simpl; [| discriminate].
  intros [= <- <-]. simpl. repeat split; try done.
  intros ev Hev. apply elem_of_cons in Hev as [-> | Hev]; [right; by eexists | by left].
Qed.

Section Batch.

Context (X : externals) (args : Args) (out_dir tmp_dir : string) (ctd_sensors : list string).

Local Abbreviation not_mkdtemp := (fun ev : event => ∀ d, ev_call ev ≠ Mkdtemp d).

Lemma not_mkdtemp_of (C : call -> Prop) (new : list event) :
  (∀ c, C c → ∀ d, c ≠ Mkdtemp d) →
  Forall (fun ev => C (ev_call ev)) new → Forall not_mkdtemp new.
Proof. intros HC Hall. eapply Forall_impl; [exact Hall |]. intros ev Hc. by apply HC. Qed.

Lemma loop_call_not_mkdtemp (b : bool) (c : call) : loop_call b c → ∀ d, c ≠ Mkdtemp d.
Proof. destruct c; simpl; intros H d' Heq; try discriminate Heq; done. Qed.

Lemma listing_call_not_mkdtemp (c : call) : listing_call c → ∀ d, c ≠ Mkdtemp d.
Proof. destruct c; simpl; intros H d' Heq; try discriminate Heq; done. Qed.

(** From the creation of the staging directory to the end of [main]. *)
Lemma batch_facts (s : state) :
  let r := run_batch X args out_dir ctd_sensors tmp_dir s in
  (r.1 = Return 1 → stdout r.2 = stdout s)
  ∧ (r.1 = Return 0 →
     (tmp_dir ∉ dirs r.2) ∧ ∀ p, OsPath.below tmp_dir p = true → files r.2 !! p = None)
  ∧ ((∀ res, Ev (Rmtree tmp_dir) res ∉ trace r.2) →
     (∃ e, r.1 = Raise e) ∧ dirs r.2 = dirs s)
  ∧ (Ev (Rmtree tmp_dir) Done ∉ trace r.2 → stdout r.2 = stdout s)
  ∧ ∃ new, trace r.2 = new ++ trace s ∧ Forall not_mkdtemp new.
Proof.
  unfold run_batch. cbv [bind logging modify]. cbn [fst snd].
  set (s1 := set_log _ s).
  destruct (emits_for_each _ (dba_files args)
              (process_dba X args out_dir tmp_dir ctd_sensors)
              (emits_process_dba X args out_dir tmp_dir ctd_sensors) s1)
    as [(new & Htr & Hnew) Hret].
  pose proof (for_each_not_continue (dba_files args)
                (process_dba X args out_dir tmp_dir ctd_sensors) s1) as Hcont.
  pose proof (steps_for_each (keeps stdout) (dba_files args) _
                (loop_keeps_stdout X args out_dir tmp_dir ctd_sensors) s1) as Hout.
  pose proof (steps_for_each (keeps dirs) (dba_files args) _
                (loop_keeps_dirs X args out_dir tmp_dir ctd_sensors) s1) as Hdirs.
  apply (not_mkdtemp_of _ _ (loop_call_not_mkdtemp _)) in Hnew.
  unfold keeps in Hout, Hdirs.
  destruct (for_each _ _ s1) as [[[]| |c|e] s2]; simpl in *;
    [| by destruct Hcont | by destruct (Hret c) |].
  2: { repeat apply conj; try done; [intros _; split; [by eexists | done] | by exists new]. }
  unfold try_except, rmtree. unfold_monad.
  destruct (fault X (Rmtree tmp_dir)) as [e|] eqn:Hfault; simpl.
  - assert (Hev : ∃ new', Ev (Rmtree tmp_dir) (Raised e) :: trace s2 = new' ++ trace s
                          ∧ Forall not_mkdtemp new').
    { exists (Ev (Rmtree tmp_dir) (Raised e) :: new). rewrite Htr. split; [done |].
      constructor; [done | exact Hnew]. }
    destruct (decide (exn_kind e = OSError)); simpl.
    all: repeat apply conj; try done.
    all: intros Hno; exfalso; apply (Hno (Raised e)); by left.
  - match goal with |- context [isdir ?st tmp_dir] => destruct (isdir st tmp_dir) eqn:Hdir end;
      simpl.
    + match goal with |- context [list_outputs X ?t] =>
        set (s3 := t);
        destruct (emits_list_outputs X s3) as [(new' & Htr' & Hnew') Hret'];
        pose proof (listing_no_new_file X s3) as Hfiles;
        pose proof (listing_keeps_dirs X s3) as Hdirs';
        pose proof (for_each_not_continue (output_nc_files s3)
                      (fun f => chmod X f (octal 6 6 4);;; stdout_write (f +:+ nl)) s3)
          as Hcont';
        change (for_each (output_nc_files s3) _ s3) with (list_outputs X s3) in Hcont'
      end.
      apply (not_mkdtemp_of _ _ listing_call_not_mkdtemp) in Hnew'.
      assert (Hdone : Ev (Rmtree tmp_dir) Done ∈ trace (list_outputs X s3).2).
      { rewrite Htr'. apply elem_of_app. right. by left. }
      assert (Hev : ∃ new'', trace (list_outputs X s3).2 = new'' ++ trace s
                             ∧ Forall not_mkdtemp new'').
      { exists (new' ++ Ev (Rmtree tmp_dir) Done :: new). rewrite Htr'. simpl. rewrite Htr.
        split; [by rewrite <- app_assoc |]. apply Forall_app. split; [done |].
        constructor; [done | exact Hnew]. }
      unfold keeps in Hdirs'. unfold no_new_file in Hfiles.
      destruct (list_outputs X s3) as [[[]| |c|e] s4]; simpl in *;
        [| by destruct Hcont' | by destruct (Hret' c) |].
      * repeat apply conj; try done.
        -- intros _. split.
           ++ rewrite Hdirs'. subst s3. simpl. intros Hin.
              apply elem_of_difference in Hin as [_ Hn]. apply Hn.
              by apply elem_of_singleton.
           ++ intros p Hp. apply Hfiles. subst s3. simpl.
              apply map_lookup_filter_None. right. intros f _. simpl. by rewrite Hp.
        -- intros Hno. by destruct (Hno Done).
      * repeat apply conj; try done.
        intros Hno. by destruct (Hno Done).
    + assert (Hev : ∃ new', Ev (Rmtree tmp_dir) (Raised (no_such_file)) :: trace s2
                            = new' ++ trace s ∧ Forall not_mkdtemp new').
      { exists (Ev (Rmtree tmp_dir) (Raised no_such_file) :: new). rewrite Htr.
        split; [done |]. constructor; [done | exact Hnew]. }
      repeat apply conj; try done.
      intros Hno; exfalso; apply (Hno (Raised no_such_file)); by left.
Qed.

End Batch.

(** A run ends before the staging directory is made, or goes through
    [run_batch] from the state in which the directory has just been made. *)
Lemma run_stages (X : externals) (args : Args)
    (fs : gmap string file) (ds : gset string) (wd : string) (seed : nat) :
  let s0 := initial fs ds wd seed in
  let r := run X args fs ds wd seed in
  (files r.2 = fs ∧ dirs r.2 = ds ∧ output_nc_files r.2 = []
   ∧ ((r.1 = Return 1 ∧ stdout r.2 = [] ∧ trace r.2 = [])
      ∨ (debug args = true ∧ r.1 = Return 0
         ∧ ∃ line, stdout r.2 = [line] ∧ trace r.2 = [Ev (StdoutWrite line) Done])
      ∨ ((∃ e, r.1 = Raise e) ∧ stdout r.2 = []
         ∧ ∀ ev, ev ∈ trace r.2 → ∃ d e, ev = Ev (Mkdtemp d) (Raised e))))
  ∨ (debug args = false
     ∧ ∃ d s1, d ∈ dirs s1 ∧ trace s1 = [Ev (Mkdtemp d) Done] ∧ stdout s1 = []
         ∧ files s1 = fs ∧ out_nc (ncw s1) = None ∧ output_nc_files s1 = [] ∧ d ≠ ""
         ∧ r = run_batch X args (output_dir args s0) (ctd_sensors_of X args) d s1).
Proof.
  intros s0 r. subst r. unfold run, main.
  cbv [bind get when modify logging return_ ret stdout_write emit].
  cbn [fst snd]. fold s0.
  destruct (negb (isdir s0 (config_path args))); [left; simpl; auto 10 |].
  destruct (bool_decide (output_dir args s0 = "")).
  all: destruct (negb (isdir _ (output_dir args s0))); [left; simpl; auto 10 |].
  all: destruct (bool_decide (dba_files args = [])); [left; simpl; auto 10 |].
  all: simpl.
  all: destruct (negb (validate_sensors X _ _)); [left; simpl; auto 10 |].
  all: destruct (negb (validate_ngdac_var_names X _)); [left; simpl; auto 10 |].
  all: destruct (debug args) eqn:Hdebug;
    [left; simpl; split; [done |]; split; [done |]; split; [done |]; right; left;
     split; [done |]; split; [done |]; by eexists |].
  all: match goal with |- context [mkdtemp ?Y ?s] =>
         pose proof (mkdtemp_made Y s) as Hmk; pose proof (mkdtemp_failed Y s) as Hmf;
         pose proof (mkdtemp_spec Y s) as Hsp; pose proof (mkdtemp_named Y s) as Hnm;
         destruct (mkdtemp Y s) as [[d| |c|e] s1] end;
    try done.
  all: try (right; split; [done |]; exists d, s1;
            destruct (Hmk s1 d eq_refl) as (Hd & Htr & Hfs & Hout & _ & Hw & Hl);
            specialize (Hnm s1 d eq_refl); rewrite Hw, Hfs, Hout, Htr, Hl;
            repeat split; done).
  all: left; destruct (Hmf s1 e eq_refl) as (Hf & Hd & Ho & Hl & Hev); simpl in *.
  all: split; [done |]; split; [done |]; split; [done |]; right; right.
  all: split; [by eexists |]; split; [done |].
  all: intros ev Hin; destruct (Hev ev Hin) as [Hnil | [d ->]];
    [by apply elem_of_nil in Hnil | by do 2 eexists].
Qed.

Lemma staging_directory_unique (new : list event) (d d0 : string) :
  Forall (fun ev => ∀ d', ev_call ev ≠ Mkdtemp d') new →
  Ev (Mkdtemp d) Done ∈ new ++ [Ev (Mkdtemp d0) Done] → d = d0.
Proof.
  intros Hnew Hin. apply elem_of_app in Hin as [Hin | Hin].
  - rewrite Forall_forall in Hnew. by destruct (Hnew _ Hin d).
  - apply list_elem_of_singleton in Hin. congruence.
Qed.

(** X7.  Nothing reaches standard output before the staging directory has been
    removed: a run that returns 1 has printed nothing, whatever it moved to
    the output directory, and so has a run without [--debug] in which the
    removal did not succeed. *)
Theorem failed_run_prints_nothing (X : externals) (args : Args)
    (fs : gmap string file) (ds : gset string) (wd : string) (seed : nat) :
  let r := run X args fs ds wd seed in
  (r.1 = Return 1 → stdout r.2 = [])
  ∧ (debug args = false → (∀ d, Ev (Rmtree d) Done ∉ trace r.2) → stdout r.2 = []).
Proof.
  intros r. subst r.
  destruct (run_stages X args fs ds wd seed)
    as [(_ & _ & _ & [(_ & Hout & _) | [(Hdebug & Hret & _) | (_ & Hout & _)]])
       | (Hdebug & d & s1 & _ & _ & Hout & _ & _ & _ & _ & ->)].
  - done.
  - split; [rewrite Hret; discriminate | congruence].
  - done.
  - destruct (batch_facts X args (output_dir args (initial fs ds wd seed)) d
                (ctd_sensors_of X args) s1) as (H1 & _ & _ & H4 & _).
    split.
    + intros Hret. rewrite <- Hout. by apply H1.
    + intros _ Hno. rewrite <- Hout. apply H4, Hno.
Qed.

Lemma failed_run_prints_nothing_witness :
  let X := Fixture.libraries Fixture.read_only (fun _ => true) Fixture.two_profiles in
  let args := Fixture.command false 0 in
  (run X args Fixture.disk Fixture.folders "/home" 0).1 = Return 1
  ∧ stdout (run X args Fixture.disk Fixture.folders "/home" 0).2 = [].
Proof.
  intros X args.
  assert (Hret : (run X args Fixture.disk Fixture.folders "/home" 0).1 = Return 1)
    by (vm_compute; reflexivity).
  split; [exact Hret |].
  exact (proj1 (failed_run_prints_nothing X args Fixture.disk Fixture.folders "/home" 0) Hret).
Defined.

(** X8.  When [main] returns 0 the staging directory it made is gone, and no
    file is left below it. *)
Theorem staging_directory_is_removed (X : externals) (args : Args)
    (fs : gmap string file) (ds : gset string) (wd : string) (seed : nat) (d : string) :
  let r := run X args fs ds wd seed in
  r.1 = Return 0 →
  Ev (Mkdtemp d) Done ∈ trace r.2 →
  (d ∉ dirs r.2) ∧ ∀ p, OsPath.below d p = true → files r.2 !! p = None.
Proof.
  intros r. subst r.
  destruct (run_stages X args fs ds wd seed)
    as [(_ & _ & _ & [(_ & _ & Htr) | [(_ & _ & line & _ & Htr) | (_ & _ & Hev)]])
       | (Hdebug & d0 & s1 & _ & Htr1 & _ & _ & _ & _ & _ & ->)].
  - intros _ Hin. rewrite Htr in Hin. by apply elem_of_nil in Hin.
  - intros _ Hin. rewrite Htr in Hin. by apply list_elem_of_singleton in Hin.
  - intros _ Hin. by destruct (Hev _ Hin) as (? & ? & ?).
  - destruct (batch_facts X args (output_dir args (initial fs ds wd seed)) d0
                (ctd_sensors_of X args) s1) as (_ & H2 & _ & _ & new & Htr & Hnew).
    intros Hret Hin. rewrite Htr, Htr1 in Hin.
    rewrite (staging_directory_unique _ _ _ Hnew Hin). by apply H2.
Qed.

Lemma staging_directory_is_removed_witness :
  let X := Fixture.libraries Fixture.no_fault (fun _ => true) Fixture.two_profiles in
  let args := Fixture.command false 0 in
  (run X args Fixture.disk Fixture.folders "/home" 0).1 = Return 0
  ∧ Ev (Mkdtemp "/tmp/tmp0") Done ∈ trace (run X args Fixture.disk Fixture.folders "/home" 0).2
  ∧ ("/tmp/tmp0" ∉ dirs (run X args Fixture.disk Fixture.folders "/home" 0).2)
  ∧ ∀ p, OsPath.below "/tmp/tmp0" p = true →
         files (run X args Fixture.disk Fixture.folders "/home" 0).2 !! p = None.
Proof.
  intros X args.
  assert (Hret : (run X args Fixture.disk Fixture.folders "/home" 0).1 = Return 0)
    by (vm_compute; reflexivity).
  assert (Hin : Ev (Mkdtemp "/tmp/tmp0") Done
                  ∈ trace (run X args Fixture.disk Fixture.folders "/home" 0).2).
  { apply list_elem_of_lookup.
    exists (length (trace (run X args Fixture.disk Fixture.folders "/home" 0).2) - 1)%nat.
    vm_compute. reflexivity. }
  split; [exact Hret |]. split; [exact Hin |].
  exact (staging_directory_is_removed X args Fixture.disk Fixture.folders "/home" 0
           "/tmp/tmp0" Hret Hin).
Defined.

(** X9.  The script has no [finally]: when the removal of the staging directory
    is never attempted, an exception has left [main] and the directory is
    still there. *)
Theorem exception_leaves_staging_directory (X : externals) (args : Args)
    (fs : gmap string file) (ds : gset string) (wd : string) (seed : nat) (d : string) :
  let r := run X args fs ds wd seed in
  Ev (Mkdtemp d) Done ∈ trace r.2 →
  (∀ res, Ev (Rmtree d) res ∉ trace r.2) →
  (∃ e, r.1 = Raise e) ∧ d ∈ dirs r.2.
Proof.
  intros r. subst r.
  destruct (run_stages X args fs ds wd seed)
    as [(_ & _ & _ & [(_ & _ & Htr) | [(_ & _ & line & _ & Htr) | (_ & _ & Hev)]])
       | (Hdebug & d0 & s1 & Hd0 & Htr1 & _ & _ & _ & _ & _ & ->)].
  - intros Hin. rewrite Htr in Hin. by apply elem_of_nil in Hin.
  - intros Hin. rewrite Htr in Hin. by apply list_elem_of_singleton in Hin.
  - intros Hin. by destruct (Hev _ Hin) as (? & ? & ?).
  - destruct (batch_facts X args (output_dir args (initial fs ds wd seed)) d0
                (ctd_sensors_of X args) s1) as (_ & _ & H3 & _ & new & Htr & Hnew).
    intros Hin Hno. rewrite Htr, Htr1 in Hin.
    rewrite (staging_directory_unique _ _ _ Hnew Hin) in *.
    destruct (H3 Hno) as [He Hdirs]. split; [exact He | by rewrite Hdirs].
Qed.

Lemma exception_leaves_staging_directory_witness :
  let X := Fixture.libraries Fixture.disk_full (fun _ => true) Fixture.two_profiles in
  let args := Fixture.command false 0 in
  Ev (Mkdtemp "/tmp/tmp0") Done ∈ trace (run X args Fixture.disk Fixture.folders "/home" 0).2
  ∧ (∀ res, Ev (Rmtree "/tmp/tmp0") res
              ∉ trace (run X args Fixture.disk Fixture.folders "/home" 0).2)
  ∧ (∃ e, (run X args Fixture.disk Fixture.folders "/home" 0).1 = Raise e)
  ∧ "/tmp/tmp0" ∈ dirs (run X args Fixture.disk Fixture.folders "/home" 0).2.
Proof.
  intros X args.
  assert (Hin : Ev (Mkdtemp "/tmp/tmp0") Done
                  ∈ trace (run X args Fixture.disk Fixture.folders "/home" 0).2).
  { apply list_elem_of_lookup.
    exists (length (trace (run X args Fixture.disk Fixture.folders "/home" 0).2) - 1)%nat.
    vm_compute. reflexivity. }
  assert (Hno : ∀ res, Ev (Rmtree "/tmp/tmp0") res
                         ∉ trace (run X args Fixture.disk Fixture.folders "/home" 0).2).
  { intros res Hev.
    assert (Hall : forallb (fun ev => match ev_call ev with Rmtree _ => false | _ => true end)
                     (trace (run X args Fixture.disk Fixture.folders "/home" 0).2) = true)
      by (vm_compute; reflexivity).
    rewrite forallb_forall in Hall. apply list_elem_of_In in Hev.
    apply Hall in Hev. discriminate Hev. }
  split; [exact Hin |]. split; [exact Hno |].
  exact (exception_leaves_staging_directory X args Fixture.disk Fixture.folders "/home" 0
           "/tmp/tmp0" Hin Hno).
Defined.

(** * The checks made before anything is processed *)

(** X1.  Lines 41-69.  When one of the checks made before anything is processed
    fails, [main] returns 1 with the error of the first failing check as
    the last entry of the log, the checks being made in the order:
    configuration directory, output directory, list of input files,
    [validate_sensors], [validate_ngdac_var_names].  No file and no
    directory is changed, nothing is printed and no call is made: the
    staging directory is not created. *)
Theorem precondition_failures (X : externals) (args : Args)
    (fs : gmap string file) (ds : gset string) (wd : string) (seed : nat) :
  let s0 := initial fs ds wd seed in
  let n := load_writer X (config_path args) in
  let out := output_dir args s0 in
  let r := run X args fs ds wd seed in
  (isdir s0 (config_path args) = false →
   fails_early fs ds r ("Invalid configuration directory: " +:+ config_path args))
  ∧ (isdir s0 (config_path args) = true →
     (isdir s0 out = false → fails_early fs ds r ("Invalid output_path: " +:+ out))
     ∧ (isdir s0 out = true →
        (dba_files args = [] → fails_early fs ds r "No Slocum dba files specified")
        ∧ (dba_files args ≠ [] →
           (validate_sensors X (nc_sensor_defs n) (ctd_sensors_of X args) = false →
            fails_early fs ds r ("Bad sensor definitions: " +:+ sensor_defs_file n))
           ∧ (validate_sensors X (nc_sensor_defs n) (ctd_sensors_of X args) = true →
              validate_ngdac_var_names X (nc_sensor_defs n) = false →
              fails_early fs ds r ("Bad sensor definitions: " +:+ sensor_defs_file n))))).
Proof.
  intros s0 n out r. subst r n out. unfold run, main, fails_early.
  cbv [bind get when modify logging return_ ret stdout_write emit].
  cbn [fst snd]. fold s0.
  split; [intros ->; simpl; done |]. intros ->. simpl.
  assert (Hlog : ∀ f, isdir (set_log f s0) (output_dir args s0)
                      = isdir s0 (output_dir args s0)) by done.
  split.
  { intros Hout. destruct (bool_decide (output_dir args s0 = "")); rewrite ?Hlog, Hout; done. }
  intros Hout. split.
  { intros Hnone.
    destruct (bool_decide (output_dir args s0 = "")); rewrite ?Hlog, Hout; simpl;
      rewrite bool_decide_eq_true_2 by done; done. }
  intros Hsome. split.
  { intros Hval.
    destruct (bool_decide (output_dir args s0 = "")); rewrite ?Hlog, Hout; simpl;
      rewrite bool_decide_eq_false_2 by done; simpl; rewrite Hval; done. }
  intros Hval Hngdac.
  destruct (bool_decide (output_dir args s0 = "")); rewrite ?Hlog, Hout; simpl;
    rewrite bool_decide_eq_false_2 by done; simpl; rewrite Hval, Hngdac; done.
Qed.

Lemma precondition_failures_witness :
  let X := Fixture.libraries Fixture.no_fault (fun _ => true) Fixture.two_profiles in
  let args := Fixture.command false 0 in
  isdir (initial Fixture.disk {[ "/cfg"; "/tmp"; "/in" ]} "/home" 0) (config_path args) = true
  ∧ isdir (initial Fixture.disk {[ "/cfg"; "/tmp"; "/in" ]} "/home" 0)
      (output_dir args (initial Fixture.disk {[ "/cfg"; "/tmp"; "/in" ]} "/home" 0)) = false
  ∧ fails_early Fixture.disk {[ "/cfg"; "/tmp"; "/in" ]}
      (run X args Fixture.disk {[ "/cfg"; "/tmp"; "/in" ]} "/home" 0)
      ("Invalid output_path: "
       +:+ output_dir args (initial Fixture.disk {[ "/cfg"; "/tmp"; "/in" ]} "/home" 0)).
Proof.
  intros X args.
  assert (H1 : isdir (initial Fixture.disk {[ "/cfg"; "/tmp"; "/in" ]} "/home" 0)
                 (config_path args) = true) by (vm_compute; reflexivity).
  assert (H2 : isdir (initial Fixture.disk {[ "/cfg"; "/tmp"; "/in" ]} "/home" 0)
                 (output_dir args (initial Fixture.disk {[ "/cfg"; "/tmp"; "/in" ]} "/home" 0))
               = false) by (vm_compute; reflexivity).
  split; [exact H1 |]. split; [exact H2 |].
  exact (proj1 (proj2 (precondition_failures X args Fixture.disk {[ "/cfg"; "/tmp"; "/in" ]}
                         "/home" 0) H1) H2).
Defined.

(** X2.  Lines 71-73.  With [--debug], once the checks have passed, [main]
    prints the writer and returns 0: no input file is looked at (a missing
    one is not reported), no file and no directory is changed, and the
    staging directory is not created. *)
Theorem debug_processes_nothing (X : externals) (args : Args)
    (fs : gmap string file) (ds : gset string) (wd : string) (seed : nat) :
  let s0 := initial fs ds wd seed in
  let n := load_writer X (config_path args) in
  let r := run X args fs ds wd seed in
  isdir s0 (config_path args) = true →
  isdir s0 (output_dir args s0) = true →
  dba_files args ≠ [] →
  validate_sensors X (nc_sensor_defs n) (ctd_sensors_of X args) = true →
  validate_ngdac_var_names X (nc_sensor_defs n) = true →
  debug args = true →
  r.1 = Return 0
  ∧ stdout r.2
    = [writer_repr X (with_out_nc None (with_profile_id (start_profile_id args) n)) +:+ nl]
  ∧ (∀ lv msg, (lv, msg) ∈ log r.2 → lv = INFO)
  ∧ files r.2 = fs ∧ dirs r.2 = ds ∧ processed_dbas r.2 = []
  ∧ ∀ ev, ev ∈ trace r.2 → ∃ line, ev = Ev (StdoutWrite line) Done.
Proof.
  intros s0 n r Hcfg Hout Hsome Hval Hngdac Hdebug. subst r n. unfold run, main.
  cbv [bind get when modify logging return_ ret stdout_write emit].
  cbn [fst snd]. fold s0. rewrite Hcfg. simpl.
  assert (Hlog : ∀ f, isdir (set_log f s0) (output_dir args s0)
                      = isdir s0 (output_dir args s0)) by done.
  destruct (bool_decide (output_dir args s0 = "")); rewrite ?Hlog, Hout; simpl;
    rewrite bool_decide_eq_false_2 by done; simpl; rewrite Hval, Hngdac, Hdebug; simpl.
  all: repeat apply conj; try done.
  all: try (intros ev Hev; apply list_elem_of_singleton in Hev as ->; by eexists).
  all: intros lv msg Hin;
    first [ by apply elem_of_nil in Hin
          | apply list_elem_of_singleton in Hin; congruence ].
Qed.

Lemma debug_processes_nothing_witness :
  let X := Fixture.libraries Fixture.no_fault (fun _ => true) Fixture.two_profiles in
  let args := {| loglevel := "info"; config_path := "/cfg"; output_path := Some "/out";
                 dba_files := ["/in/missing.sbd"]; start_profile_id := 0; clobber := false;
                 compression := 1; nc_format := "NETCDF4_CLASSIC";
                 ctd_sensor_prefix := "sci"; debug := true |} in
  (run X args Fixture.disk Fixture.folders "/home" 0).1 = Return 0
  ∧ stdout (run X args Fixture.disk Fixture.folders "/home" 0).2
    = ["<ProfileNetCDFWriter>" +:+ nl]
  ∧ files (run X args Fixture.disk Fixture.folders "/home" 0).2 = Fixture.disk.
Proof.
  intros X args.
  destruct (debug_processes_nothing X args Fixture.disk Fixture.folders "/home" 0)
    as (H1 & H2 & _ & H3 & _);
    [vm_compute; reflexivity | vm_compute; reflexivity | discriminate
    | reflexivity | reflexivity | reflexivity |].
  split; [exact H1 |]. split; [exact H2 | exact H3].
Defined.

(** * The input files that are skipped *)

(** X3.  Lines 84-123.  An input file is passed over, with [continue], when it
    is not a regular file (an error is logged), when its frame has no rows
    (a warning), when [slice_sensor_data] returns [None] (nothing is logged
    beyond the line that announces the file), when no profile is indexed
    (an information), and when the latitudes, or else the longitudes, are
    all NaN (a warning that does not name the file, then an information).
    In each case the log is all that changes: no call is made, no file is
    touched and the file is not added to [processed_dbas]; the loop goes on
    with the next input file.  When [slice_sensor_data] returns [None] for
    the CTD sensors, the subscript of line 116 raises [TypeError], which
    nothing catches. *)
Theorem skipped_sources (X : externals) (args : Args) (out_dir tmp_dir : string)
    (ctd_sensors : list string) (dba_file : string) (s : state) :
  let d := create_llat_dba_reader X dba_file in
  let r := process_dba X args out_dir tmp_dir ctd_sensors dba_file s in
  let taken := set_log (cons (INFO, "Processing dba file: " +:+ dba_file)) s in
  let no_position := fun what =>
    set_log (cons (INFO, "Skipping dba: " +:+ dba_file))
      (set_log (cons (WARNING, "dba contains no valid " +:+ what +:+ " values")) taken) in
  (isfile s dba_file = false →
   r = (Continue, set_log (cons (ERROR, "Invalid dba file specified: " +:+ dba_file)) s))
  ∧ (isfile s dba_file = true →
     (Np.nrows (dba_data d) = 0%nat →
      r = (Continue, set_log (cons (WARNING, "Skipping empty dba file: " +:+ dba_file)) taken))
     ∧ (Np.nrows (dba_data d) ≠ 0%nat →
        (slice_sensor_data X d None = None → r = (Continue, taken))
        ∧ ∀ yo, slice_sensor_data X d None = Some yo →
            (find_profiles X yo = inr [] →
             r = (Continue, set_log (cons (INFO, "No profiles indexed: " +:+ dba_file)) taken))
            ∧ ∀ intervals, find_profiles X yo = inr intervals → intervals ≠ [] →
                (slice_sensor_data X d (Some ctd_sensors) = None →
                 r = (Raise (Exn TypeError "'NoneType' object is not subscriptable"), taken))
                ∧ ∀ ctd lat, slice_sensor_data X d (Some ctd_sensors) = Some ctd →
                    Np.column ctd 2 = Some lat →
                    (Np.all_isnan lat = true → r = (Continue, no_position "llat_latitude"))
                    ∧ ∀ lon, Np.all_isnan lat = false → Np.column ctd 3 = Some lon →
                        Np.all_isnan lon = true →
                        r = (Continue, no_position "llat_longitude")))
  ∧ (r.1 = Continue →
     ∀ rest,
       for_each (dba_file :: rest) (process_dba X args out_dir tmp_dir ctd_sensors) s
       = for_each rest (process_dba X args out_dir tmp_dir ctd_sensors) r.2).
Proof.
  intros d r taken no_position. split; [| split].
  - intros Hfile. subst r. unfold process_dba. cbv [bind get when]. rewrite Hfile. reflexivity.
  - intros Hfile. subst r taken no_position. unfold process_dba, skip_no_position.
    cbv [bind get when try_except logging modify ret continue]. rewrite Hfile.
    cbv beta iota. fold d. split.
    + intros Hrows. rewrite bool_decide_eq_true_2 by exact Hrows. reflexivity.
    + intros Hrows. rewrite bool_decide_eq_false_2 by exact Hrows. cbv beta iota. split.
      * intros Hyo. rewrite Hyo. reflexivity.
      * intros yo Hyo. rewrite Hyo. cbv beta iota. split.
        -- intros Hpt. rewrite Hpt. reflexivity.
        -- intros intervals Hpt Hsome. rewrite Hpt. cbv beta iota.
           rewrite (bool_decide_eq_false_2 (length intervals = 0%nat))
             by (by destruct intervals).
           cbv beta iota. split.
           ++ intros Hctd. rewrite Hctd. reflexivity.
           ++ intros ctd lat Hctd Hlat. rewrite Hctd. cbv [column_of of_option ret].
              rewrite Hlat. cbv beta iota. split.
              ** intros Hnan. rewrite Hnan. reflexivity.
              ** intros lon Hnan Hlon Hnan'. rewrite Hnan, Hlon. cbv beta iota.
                 rewrite Hnan'. reflexivity.
  - intros Hr rest. simpl. fold r.
    destruct r as [[[]| |c|e] s']; simpl in Hr; try discriminate Hr. reflexivity.
Qed.

Lemma skipped_sources_witness :
  let X := Fixture.libraries Fixture.no_fault (fun _ => true) Fixture.two_profiles in
  let body := process_dba X (Fixture.command false 0) "/out" "/tmp/tmp0"
                (ctd_sensors_of X (Fixture.command false 0)) in
  isfile Fixture.staging_ready "/in/missing.sbd" = false
  ∧ body "/in/missing.sbd" Fixture.staging_ready
    = (Continue,
       set_log (cons (ERROR, "Invalid dba file specified: " +:+ "/in/missing.sbd"))
         Fixture.staging_ready)
  ∧ for_each ["/in/missing.sbd"; "/in/ru01.sbd"] body Fixture.staging_ready
    = for_each ["/in/ru01.sbd"] body (body "/in/missing.sbd" Fixture.staging_ready).2.
Proof.
  intros X body.
  assert (Hfile : isfile Fixture.staging_ready "/in/missing.sbd" = false)
    by (vm_compute; reflexivity).
  destruct (skipped_sources X (Fixture.command false 0) "/out" "/tmp/tmp0"
              (ctd_sensors_of X (Fixture.command false 0)) "/in/missing.sbd"
              Fixture.staging_ready) as (Hskip & _ & Hnext).
  split; [exact Hfile |]. split; [exact (Hskip Hfile) |].
  apply Hnext. unfold body. rewrite (Hskip Hfile). reflexivity.
Defined.

(** * Moving a finished file to its place *)

(** X6.  Lines 226-234, for a staging file [tmp] that [finish_nc] reported and a
    destination [out] that is not a directory.  When the move and the
    change of mode succeed, the file is at [out] with mode [0o755], whatever
    was at [out] before is replaced, the staging path is free and [out] is
    appended to the list of outputs.  When the move raises, the staging
    file stays where it is, no path other than [out] is touched, and [out]
    is as it was or holds what the unfinished copy wrote, a part of the
    file or all of it; on an OS error the profile is given up with an error
    in the log and nothing is listed, and an exception of another class
    leaves the loop.  When the move succeeds and the change of mode raises
    an OS error the profile is given up in the same way although the file
    is in its place: it keeps the mode it had in the staging directory and
    its path is not listed. *)
Theorem publish_outcomes (X : externals) (tmp out : string) (s : state) (f : file) :
  let r := publish X true tmp out s in
  let gave_up := fun e =>
    r.1 = Continue
    ∧ head (log r.2)
      = Some (ERROR, "Error moving temp NetCDF file " +:+ tmp +:+ ": " +:+ str_exn e)
    ∧ output_nc_files r.2 = output_nc_files s in
  files s !! tmp = Some f →
  isdir s out = false →
  (fault X (Move tmp out) = None → fault X (Chmod out (octal 7 5 5)) = None →
   r.1 = Normal tt
   ∧ files r.2 = <[out := File (octal 7 5 5) (f_content f)]> (delete tmp (files s))
   ∧ output_nc_files r.2 = output_nc_files s ++ [out])
  ∧ (∀ e, fault X (Move tmp out) = Some e →
       files r.2 !! tmp = Some f
       ∧ (∀ p, p ≠ out → files r.2 !! p = files s !! p)
       ∧ (files r.2 !! out = files s !! out
          ∨ ∃ g, files r.2 !! out = Some g
                 ∧ (f_content g = Partial (f_content f) ∨ f_content g = f_content f))
       ∧ (exn_kind e = OSError → gave_up e)
       ∧ (exn_kind e ≠ OSError →
          r.1 = Raise e ∧ output_nc_files r.2 = output_nc_files s))
  ∧ (∀ e, fault X (Move tmp out) = None → fault X (Chmod out (octal 7 5 5)) = Some e →
       exn_kind e = OSError →
       gave_up e ∧ files r.2 = <[out := f]> (delete tmp (files s))).
Proof.
  intros r gave_up Htmp Hdir. subst r gave_up.
  unfold publish, move, chmod. unfold_monad. rewrite Htmp, Hdir. simpl.
  split; [| split].
  - intros Hmove Hchmod. rewrite Hmove. simpl. rewrite Hchmod. simpl.
    rewrite lookup_insert_eq. simpl. by rewrite insert_insert_eq.
  - intros e Hmove. rewrite Hmove. simpl.
    assert (Hleft : ∀ fs' : gmap string file,
              fs' = left_by_move X (move_reached X tmp out) s tmp out f (files s) →
              fs' !! tmp = Some f
              ∧ (∀ p, p ≠ out → fs' !! p = files s !! p)
              ∧ (fs' !! out = files s !! out
                 ∨ ∃ g, fs' !! out = Some g
                        ∧ (f_content g = Partial (f_content f) ∨ f_content g = f_content f))).
    { intros fs' ->. unfold left_by_move.
      destruct (bool_decide (tmp = out)) eqn:Hsame; [by auto |].
      apply bool_decide_eq_false in Hsame.
      destruct (move_reached X tmp out); [by auto | | |];
        (split; [by rewrite lookup_insert_ne | split;
           [intros p Hp; by rewrite lookup_insert_ne
           | right; eexists; rewrite lookup_insert_eq; split; [reflexivity | simpl; auto]]]). }
    destruct (decide (exn_kind e = OSError)) as [He | He]; simpl.
    + destruct (Hleft _ eq_refl) as (H1 & H2 & H3). repeat split; try done.
    + destruct (Hleft _ eq_refl) as (H1 & H2 & H3). repeat split; try done.
  - intros e Hmove Hchmod He. rewrite Hmove. simpl. rewrite Hchmod. simpl. rewrite He.
    simpl. done.
Qed.

Lemma publish_outcomes_witness :
  let X := Fixture.libraries
             (fun c => match c with
                       | Chmod _ _ => Some (Exn OSError "Operation not permitted")
                       | _ => None
                       end) (fun _ => true) Fixture.two_profiles in
  let s := set_files (insert Fixture.first_tmp (File (octal 6 0 0) Empty)) Fixture.staging_ready in
  let r := publish X true Fixture.first_tmp Fixture.first_out s in
  r.1 = Continue
  ∧ files r.2 = <[Fixture.first_out := File (octal 6 0 0) Empty]>
                  (delete Fixture.first_tmp (files s))
  ∧ output_nc_files r.2 = [].
Proof.
  intros X s r.
  destruct (publish_outcomes X Fixture.first_tmp Fixture.first_out s (File (octal 6 0 0) Empty))
    as (_ & _ & H); [vm_compute; reflexivity | vm_compute; reflexivity |].
  destruct (H (Exn OSError "Operation not permitted") eq_refl eq_refl eq_refl)
    as ((H1 & _ & H2) & H3).
  split; [exact H1 |]. split; [exact H3 | exact H2].
Defined.

(** * The order of the calls on a staging file *)

Lemma take_at_length (col : list float) (inds : list nat) (xs : list float) :
  Np.take_at col inds = Some xs → length xs = length inds.
Proof.
  revert xs. induction inds as [|i inds IH]; intros xs; simpl; [by intros [= <-] |].
  destruct (col !! i); [| done]. destruct (Np.take_at col inds); [| done].
  intros [= <-]. simpl. f_equal. by apply IH.
Qed.

Section Order.

Context (X : externals) (tmp : string) (tr0 : list event) (glider : string).

(** The calls made since the trace was [tr0] are [tr], newest first, and
    the writer works on [tmp]. *)
Local Abbreviation made :=
  (fun (tr : list event) (s : state) =>
     trace s = tr ++ tr0 ∧ out_nc (ncw s) = Some tmp
     ∧ deployment_configs_glider (ncw s) = glider).
Local Abbreviation anyhow := (fun (_ : abrupt) (_ : state) => True).
Local Abbreviation abruptly := (fun (k : abrupt) (_ : state) => k ≠ ACont).

Lemma order_writer_step (c : string -> call) (g : nc_file -> nc_file) (tr : list event) :
  hoare (made tr) (writer_step X c g) (fun _ => made (Ev (c tmp) Done :: tr)) abruptly.
Proof.
  intros s (Htr & Hp & Hg). unfold writer_step, current_nc, update_nc. unfold_monad.
  rewrite Hp. simpl. destruct (fault X (c tmp)); simpl; [done |].
  destruct (files s !! tmp) as [[mode [x| |nc|part]]|]; simpl; try done.
  by rewrite Htr.
Qed.

Lemma order_insert_all (d : dba) (p_inds : list nat) (l : list nat) :
  ∀ tr,
    hoare (made tr)
      (for_each l
         (fun v =>
            sn <- of_option (dba_sensors d !! v) index_error;;
            var_data <- of_option (Np.rows_of_column (dba_data d) p_inds v) index_error;;
            logging DEBUG ("Inserting " +:+ sensor_name sn +:+ " data array");;;
            insert_var_data X (sensor_name sn) var_data))
      (fun _ s =>
         ∃ vars : list (string * list float),
           made (reverse (map (fun var => Ev (InsertVar tmp var.1 var.2) Done) vars) ++ tr) s
           ∧ Forall2 (fun v var =>
                        sensor_name <$> dba_sensors d !! v = Some var.1
                        ∧ Np.rows_of_column (dba_data d) p_inds v = Some var.2) l vars)
      abruptly.
Proof.
  induction l as [|v l IH]; intros tr s Hs; simpl.
  - exists []. split; [exact Hs | constructor].
  - unfold bind at 1. destruct (dba_sensors d !! v) as [sn|] eqn:Hsn; simpl; [| done].
    unfold bind at 1.
    destruct (Np.rows_of_column (dba_data d) p_inds v) as [data|] eqn:Hdata; simpl; [| done].
    unfold bind at 1, logging at 1, modify at 1. unfold insert_var_data.
    match goal with |- context [writer_step X ?c ?g ?t] =>
      pose proof (order_writer_step c g tr t Hs) as Hstep;
      destruct (writer_step X c g t) as [[[]| |c'|e] s1]
    end; try done.
    specialize (IH _ s1 Hstep).
    destruct (for_each l _ s1) as [[[]| |c'|e] s2]; try done.
    destruct IH as (vars & Hmade & Hall).
    exists ((sensor_name sn, data) :: vars). split.
    + destruct Hmade as (Htr & Hp & Hg). split; [| done]. rewrite Htr. cbn [map].
      rewrite reverse_cons. by rewrite <- (app_assoc _ [_] tr).
    + constructor; [| exact Hall]. simpl. by rewrite Hsn.
Qed.

Lemma order_init_nc (pid : Z) :
  hoare (fun s => trace s = tr0 ∧ profile_id (ncw s) = pid
                  ∧ deployment_configs_glider (ncw s) = glider)
    (init_nc X tmp) (fun _ => made [Ev (InitNc tmp pid) Done]) abruptly.
Proof.
  intros s (Htr & Hpid & Hg). unfold init_nc. unfold_monad. rewrite Hpid.
  destruct (fault X (InitNc tmp pid)); simpl; [done |]. by rewrite Htr.
Qed.

Lemma order_finish_nc (tr : list event) :
  hoare (made tr) (finish_nc X)
    (fun b s => trace s = (Ev (FinishNc tmp) (if b then Done else Declined) :: tr) ++ tr0
                ∧ b = finish_nc_returns X tmp)
    abruptly.
Proof.
  intros s (Htr & Hp & Hg). unfold finish_nc, update_nc. unfold_monad. rewrite Hp.
  destruct (fault X (FinishNc tmp)); simpl; [done |].
  destruct (finish_nc_returns X tmp); simpl; [| by rewrite Htr].
  destruct (files s !! tmp) as [[mode [x| |nc|part]]|]; simpl; try done.
  by rewrite Htr.
Qed.

Lemma order_stage (dba_file : string) (d : dba) (p_inds : list nat) (dt : datetime)
    (pid : Z) :
  hoare (fun s => trace s = tr0 ∧ profile_id (ncw s) = pid
                  ∧ deployment_configs_glider (ncw s) = glider)
    (stage X dba_file d p_inds dt tmp)
    (fun b s =>
       ∃ vars : list (string * list float),
         Forall2 (fun v var =>
                    sensor_name <$> dba_sensors d !! v = Some var.1
                    ∧ Np.rows_of_column (dba_data d) p_inds v = Some var.2)
           (seq 0 (length (dba_sensors d))) vars
         ∧ trace s
           = (Ev (FinishNc tmp) (if b then Done else Declined)
                :: reverse (map (fun var => Ev (InsertVar tmp var.1 var.2) Done) vars)
                ++ [Ev (Populate tmp "set_container_variables") Done;
                    Ev (Populate tmp "update_data_file_sensor_defs") Done;
                    Ev (Populate tmp ("set_source_file_var "
                                      +:+ filename_label (dba_file_metadata d))) Done;
                    Ev (Populate tmp ("set_title " +:+ glider +:+ "-"
                                      +:+ strftime X dt "%Y%m%d%H%M%SZ"
                                      +:+ " Vertical Profile")) Done;
                    Ev (Populate tmp "set_trajectory_id") Done;
                    Ev (UpdateHistory tmp (argv0 X +:+ " " +:+ dba_file)) Done;
                    Ev (OpenNc tmp) Done;
                    Ev (InitNc tmp pid) Done]) ++ tr0
         ∧ b = finish_nc_returns X tmp)
    anyhow.
Proof.
  unfold stage, open_nc, update_history, populate.
  eapply hoare_bind.
  { apply hoare_try with (E1 := abruptly); [apply order_init_nc | | done].
    intros e _ s _. unfold_monad. done. }
  intros ?. eapply hoare_bind.
  { apply hoare_try with (E1 := abruptly); [| | done].
    - eapply hoare_bind; [apply order_writer_step | intros ?; apply order_writer_step].
    - intros e _ s _. unfold unlink. unfold_monad.
      destruct (fault X (Unlink tmp)); simpl; [done |]. by destruct (isfile _ tmp). }
  intros ?.
  apply (fun H => hoare_conseq _ _ _ _ _ abruptly anyhow H
                    (fun s Hs => Hs) (fun a s Hs => Hs) (fun k s _ => I)).
  eapply hoare_bind; [apply order_writer_step |]. intros ?.
  apply hoare_bind_read. intros s0 (_ & _ & Hg). rewrite Hg.
  eapply hoare_bind; [apply order_writer_step |]. intros ?.
  eapply hoare_bind; [apply order_writer_step |]. intros ?.
  eapply hoare_bind; [apply order_writer_step |]. intros ?.
  eapply hoare_bind; [apply order_writer_step |]. intros ?.
  eapply hoare_bind; [apply order_insert_all |]. intros ?.
  intros s (vars & Hmade & Hvars).
  pose proof (order_finish_nc _ s Hmade) as Hfin.
  destruct (finish_nc X s) as [[b| |c|e] s']; try done.
  exists vars. split; [exact Hvars | exact Hfin].
Qed.

End Order.

(** X5.  Lines 183-224.  When the staging of a profile comes to its end, the
    calls it made on the writer are, in this order: [init_nc] with the
    staging file and the identifier the writer held, [open_nc],
    [update_history] with the command line, the five calls that set the
    trajectory, the title, the source file, the sensor definitions and the
    container variables, one [insert_var_data] for every sensor of the
    frame, in the order of the frame and with the sensor's name and the
    entries of its column at the rows of the profile, each as long as the
    list of rows, and [finish_nc] last, whose answer is the result.  No
    other call is made. *)
Theorem stage_call_order (X : externals) (dba_file : string) (d : dba) (p_inds : list nat)
    (dt : datetime) (tmp : string) (s s' : state) (b : bool) :
  stage X dba_file d p_inds dt tmp s = (Normal b, s') →
  ∃ vars : list (string * list float),
    length vars = length (dba_sensors d)
    ∧ (∀ v name data, vars !! v = Some (name, data) →
         sensor_name <$> dba_sensors d !! v = Some name
         ∧ Np.rows_of_column (dba_data d) p_inds v = Some data
         ∧ length data = length p_inds)
    ∧ reverse (new_events s s')
      = map (fun c => Ev c Done)
          [InitNc tmp (profile_id (ncw s)); OpenNc tmp;
           UpdateHistory tmp (argv0 X +:+ " " +:+ dba_file);
           Populate tmp "set_trajectory_id";
           Populate tmp ("set_title " +:+ deployment_configs_glider (ncw s) +:+ "-"
                         +:+ strftime X dt "%Y%m%d%H%M%SZ" +:+ " Vertical Profile");
           Populate tmp ("set_source_file_var " +:+ filename_label (dba_file_metadata d));
           Populate tmp "update_data_file_sensor_defs";
           Populate tmp "set_container_variables"]
        ++ map (fun var => Ev (InsertVar tmp var.1 var.2) Done) vars
        ++ [Ev (FinishNc tmp) (if b then Done else Declined)]
    ∧ b = finish_nc_returns X tmp.
Proof.
  intros Hstage.
  pose proof (order_stage X tmp (trace s) (deployment_configs_glider (ncw s)) dba_file d
                p_inds dt (profile_id (ncw s)) s (conj eq_refl (conj eq_refl eq_refl))) as H.
  rewrite Hstage in H. destruct H as (vars & Hvars & Htr & Hb).
  exists vars. split; [| split; [| split; [| exact Hb]]].
  - apply Forall2_length in Hvars. by rewrite length_seq in Hvars.
  - intros v name data Hv.
    destruct (Forall2_lookup_r _ _ _ _ _ Hvars Hv) as (i & Hi & Hname & Hdata).
    apply lookup_seq in Hi as [-> _]. simpl in *. split; [done |]. split; [done |].
    unfold Np.rows_of_column in Hdata. destruct (Np.column (dba_data d) v); [| done].
    by apply take_at_length in Hdata.
  - rewrite (new_events_app _ _ _ Htr). rewrite reverse_cons, reverse_app, reverse_involutive.
    by rewrite <- app_assoc.
Qed.

Lemma stage_call_order_witness :
  let X := Fixture.libraries Fixture.no_fault (fun _ => true) Fixture.two_profiles in
  let s := (mkstemp X "/tmp/tmp0" ".nc" "ru01-19700101T000150Z-sbd-profile"
              Fixture.staging_ready).2 in
  let r := stage X "/in/ru01.sbd" Fixture.derived [0; 1; 2]%nat Fixture.first_mean
             Fixture.first_tmp s in
  r = (Normal true, r.2)
  ∧ ∃ vars : list (string * list float),
      length vars = length (dba_sensors Fixture.derived)
      ∧ reverse (new_events s r.2)
        = map (fun c => Ev c Done)
            [InitNc Fixture.first_tmp (profile_id (ncw s)); OpenNc Fixture.first_tmp;
             UpdateHistory Fixture.first_tmp (argv0 X +:+ " " +:+ "/in/ru01.sbd");
             Populate Fixture.first_tmp "set_trajectory_id";
             Populate Fixture.first_tmp
               ("set_title " +:+ deployment_configs_glider (ncw s) +:+ "-"
                +:+ strftime X Fixture.first_mean "%Y%m%d%H%M%SZ" +:+ " Vertical Profile");
             Populate Fixture.first_tmp
               ("set_source_file_var "
                +:+ filename_label (dba_file_metadata Fixture.derived));
             Populate Fixture.first_tmp "update_data_file_sensor_defs";
             Populate Fixture.first_tmp "set_container_variables"]
          ++ map (fun var => Ev (InsertVar Fixture.first_tmp var.1 var.2) Done) vars
          ++ [Ev (FinishNc Fixture.first_tmp) Done].
Proof.
  intros X s r.
  assert (Hst : r = (Normal true, r.2)) by (vm_compute; reflexivity).
  split; [exact Hst |].
  destruct (stage_call_order X "/in/ru01.sbd" Fixture.derived [0; 1; 2]%nat Fixture.first_mean
              Fixture.first_tmp s r.2 true Hst) as (vars & Hlen & _ & Htr & _).
  exists vars. split; [exact Hlen | exact Htr].
Defined.

(** * C10: the rows of a profile *)

Lemma flatnonzero_from_sorted (mask : list bool) (k : nat) :
  StronglySorted lt (Np.flatnonzero_from k mask).
Proof.
  revert k. induction mask as [|b mask IH]; intros k; simpl; [constructor |].
  destruct b; [| apply IH]. constructor; [apply IH |].
  apply Forall_forall. intros i Hi. apply flatnonzero_from_spec in Hi. lia.
Qed.

Lemma rows_between_within (ts : list float) (p0 p1 : float) :
  rows_within ts p0 p1 (Np.rows_between ts p0 p1).
Proof.
  split; [apply flatnonzero_from_sorted |].
  intros i. unfold Np.rows_between. rewrite flatnonzero_spec, lookup_map.
  unfold Np.in_interval, Np.ge, Np.le. split.
  - destruct (ts !! i) as [t|]; simpl; [| done].
    intros [= H]. apply andb_true_iff in H. eauto.
  - intros (t & -> & H1 & H2). simpl. by rewrite H1, H2.
Qed.

Lemma take_at_entries (col : list float) (inds : list nat) (xs : list float) :
  Np.take_at col inds = Some xs → Forall2 (fun i x => col !! i = Some x) inds xs.
Proof.
  revert xs. induction inds as [|i inds IH]; intros xs; simpl.
  - intros [= <-]. constructor.
  - destruct (col !! i) as [x|] eqn:Hx; [| done].
    destruct (Np.take_at col inds) as [xs'|]; [| done].
    intros [= <-]. constructor; [done | by apply IH].
Qed.

Lemma writes_rows_interval (d : dba) (ts : list float) (p0 p1 : float) (c : call) :
  writes_rows d (Np.rows_between ts p0 p1) c → writes_interval d ts p0 p1 c.
Proof.
  destruct c; simpl; try done.
  intros (v & sn & Hsn & Hname & Hdata). unfold Np.rows_of_column in Hdata.
  destruct (Np.column (dba_data d) v) as [col|] eqn:Hcol; [| done].
  exists v, sn, col, (Np.rows_between ts p0 p1).
  split; [done |]. split; [done |]. split; [done |].
  split; [apply rows_between_within | by apply take_at_entries].
Qed.

Lemma emits_bind_ret {A B} (C : call -> Prop) (a : A) (k : A -> M B) :
  emits_only C (k a) → emits_only C (bind (ret a) k).
Proof. intros H s. apply H. Qed.

Lemma emits_bind_raise {A B} (C : call -> Prop) (e : exn) (k : A -> M B) :
  emits_only C (bind (raise e) k).
Proof. intros s. split; [by exists [] | done]. Qed.

Section Rows.

Context (X : externals) (d : dba) (p_inds : list nat).

Lemma emits_insert_all : emits_only (writes_rows d p_inds) (insert_all X d p_inds).
Proof.
  unfold insert_all. apply emits_for_each. intros v.
  destruct (dba_sensors d !! v) as [sn|] eqn:Hsn;
    [apply emits_bind_ret | apply emits_bind_raise].
  destruct (Np.rows_of_column (dba_data d) p_inds v) as [data|] eqn:Hdata;
    [apply emits_bind_ret | apply emits_bind_raise].
  assert (Hc : ∀ p, writes_rows d p_inds (InsertVar p (sensor_name sn) data)).
  { intros p. simpl. eauto. }
  unfold insert_var_data, writer_step, update_nc, current_nc, logging.
  repeat first [apply emits_emit; apply Hc | apply emits_failing; apply Hc | emits_step].
Qed.

Lemma emits_write_profile (args : Args) (out_dir tmp_dir dba_file : string)
    (dt : datetime) :
  emits_only (writes_rows d p_inds)
    (write_profile X args out_dir tmp_dir dba_file d p_inds dt).
Proof.
  unfold write_profile, stage, publish, mkstemp, init_nc, finish_nc, populate, open_nc,
    update_history, unlink, writer_step, update_nc, current_nc, move, chmod, logging.
  repeat first [apply emits_insert_all | emits_step].
Qed.

End Rows.

Lemma hoare_and {A} (P1 P2 : state -> Prop) (m : M A)
    (Q1 Q2 : A -> state -> Prop) (E1 E2 : abrupt -> state -> Prop) :
  hoare P1 m Q1 E1 → hoare P2 m Q2 E2 →
  hoare (fun s => P1 s ∧ P2 s) m (fun a s => Q1 a s ∧ Q2 a s) (fun k s => E1 k s ∧ E2 k s).
Proof.
  intros H1 H2 s [Hs1 Hs2]. specialize (H1 s Hs1). specialize (H2 s Hs2).
  by destruct (m s) as [[a| |c|e] s'].
Qed.

Lemma filled_quiet (d : dba) (new : list event) :
  Forall (fun ev => not_finish (ev_call ev)) new → filled d new.
Proof.
  intros Hq p res Hin. rewrite Forall_forall in Hq. by destruct (Hq _ Hin).
Qed.

(** Calls other than [finish_nc] that come later change nothing to it. *)
Lemma filled_more (d : dba) (more new : list event) :
  Forall (fun ev => not_finish (ev_call ev)) more → filled d new → filled d (more ++ new).
Proof.
  intros Hq Hf p res Hin. apply elem_of_app in Hin as [Hin | Hin].
  - rewrite Forall_forall in Hq. by destruct (Hq _ Hin).
  - intros v sn Hsn. destruct (Hf p res Hin v sn Hsn) as [data Hdata].
    exists data. apply elem_of_app. by right.
Qed.

Ltac emits_other :=
  unfold stage, publish, mkstemp, init_nc, populate, open_nc, update_history, unlink,
    insert_all, insert_var_data, writer_step, update_nc, current_nc, move, chmod, logging;
  repeat emits_step.

Section Filled.

Context (X : externals) (d : dba) (tmp : string) (tr1 : list event) (glider : string).

(** Since the trace was [tr1]: [finish_nc] has not been called; it has
    been called only on files that hold every sensor. *)
Local Abbreviation quiet :=
  (fun s : state =>
     ∃ new, trace s = new ++ tr1 ∧ Forall (fun ev => not_finish (ev_call ev)) new).
Local Abbreviation full :=
  (fun s : state => ∃ new, trace s = new ++ tr1 ∧ filled d new).
Local Abbreviation made :=
  (fun (tr : list event) (s : state) =>
     trace s = tr ++ tr1 ∧ out_nc (ncw s) = Some tmp
     ∧ deployment_configs_glider (ncw s) = glider).
Local Abbreviation fully := (fun (_ : abrupt) (s : state) => full s).

Lemma quiet_full (s : state) : quiet s → full s.
Proof. intros (new & Htr & Hq). exists new. split; [done | by apply filled_quiet]. Qed.

Lemma quiet_emits {A} (m : M A) :
  emits_only not_finish m →
  hoare quiet m (fun _ s => quiet s) (fun _ s => quiet s).
Proof.
  intros Hm s (new & Htr & Hnew).
  destruct (Hm s) as [(new' & Htr' & Hnew') _].
  assert (Hs : quiet (m s).2).
  { exists (new' ++ new). rewrite Htr', Htr, app_assoc. split; [done |].
    by apply Forall_app. }
  by destruct (m s) as [[a| |c|e] s'].
Qed.

Lemma full_emits {A} (m : M A) :
  emits_only not_finish m →
  hoare full m (fun _ s => full s) fully.
Proof.
  intros Hm s (new & Htr & Hnew).
  destruct (Hm s) as [(new' & Htr' & Hnew') _].
  assert (Hs : full (m s).2).
  { exists (new' ++ new). rewrite Htr', Htr, app_assoc. split; [done |].
    by apply filled_more. }
  by destruct (m s) as [[a| |c|e] s'].
Qed.

Lemma with_quiet {A} (m : M A) (P : state -> Prop) (Q : A -> state -> Prop)
    (E : abrupt -> state -> Prop) :
  hoare P m Q E → emits_only not_finish m →
  hoare (fun s => P s ∧ quiet s) m (fun a s => Q a s ∧ quiet s) fully.
Proof.
  intros H Hm.
  eapply hoare_conseq; [exact (hoare_and _ _ _ _ _ _ _ H (quiet_emits m Hm)) | | |];
    [done | done | intros k s [_ ?]; by apply quiet_full].
Qed.

Lemma filled_finish_nc (p_inds : list nat) (tr : list event) :
  hoare (fun s => (∃ vars : list (string * list float),
                     made (reverse (map (fun var => Ev (InsertVar tmp var.1 var.2) Done) vars)
                           ++ tr) s
                     ∧ Forall2 (fun v var =>
                                  sensor_name <$> dba_sensors d !! v = Some var.1
                                  ∧ Np.rows_of_column (dba_data d) p_inds v = Some var.2)
                         (seq 0 (length (dba_sensors d))) vars)
                  ∧ quiet s)
    (finish_nc X) (fun _ s => full s) fully.
Proof.
  intros s [(vars & (Htr & Hp & _) & Hvars) (new & Hnew & Hq)].
  assert (Hfull : ∀ r, ∃ new0, Ev (FinishNc tmp) r :: trace s = new0 ++ tr1 ∧ filled d new0).
  { intros r. exists (Ev (FinishNc tmp) r :: new). split; [by rewrite Hnew |].
    intros p res Hin v sn Hsn.
    apply elem_of_cons in Hin as [[= -> _] | Hin];
      [| rewrite Forall_forall in Hq; by destruct (Hq _ Hin)].
    assert (Hv : seq 0 (length (dba_sensors d)) !! v = Some v).
    { apply lookup_seq. split; [done |]. by apply lookup_lt_Some in Hsn. }
    destruct (Forall2_lookup_l _ _ _ _ _ Hvars Hv) as ([name data] & Hvar & Hname & _).
    simpl in Hname. rewrite Hsn in Hname. injection Hname as <-.
    exists data. right.
    rewrite Htr in Hnew. apply app_inv_tail in Hnew. subst new.
    apply elem_of_app. left. rewrite elem_of_reverse.
    apply list_elem_of_fmap. exists (sensor_name sn, data). split; [done |].
    by apply list_elem_of_lookup_2 in Hvar. }
  unfold finish_nc, update_nc. unfold_monad. rewrite Hp.
  destruct (fault X (FinishNc tmp)); simpl; [apply Hfull |].
  destruct (finish_nc_returns X tmp); simpl; [| apply Hfull].
  destruct (files s !! tmp) as [[mode [x| |nc|part]]|]; simpl; apply Hfull.
Qed.

Lemma filled_stage (dba_file : string) (p_inds : list nat) (dt : datetime) (pid : Z) :
  hoare (fun s => trace s = tr1 ∧ profile_id (ncw s) = pid
                  ∧ deployment_configs_glider (ncw s) = glider)
    (stage X dba_file d p_inds dt tmp) (fun _ s => full s) fully.
Proof.
  unfold stage, open_nc, update_history, populate.
  apply (hoare_bind _ _ (fun _ s => made [Ev (InitNc tmp pid) Done] s ∧ quiet s)).
  { apply hoare_try with (E1 := fully).
    - eapply hoare_pre; [eapply with_quiet; [apply order_init_nc | emits_other] |].
      intros s Hs. split; [exact Hs |]. exists []. split; [apply Hs | constructor].
    - intros e _ s Hs. unfold_monad. exact Hs.
    - by intros k s Hs _. }
  intros ?. eapply hoare_bind.
  { apply hoare_try with (E1 := fully).
    - eapply hoare_bind;
        [eapply with_quiet; [apply order_writer_step | emits_other]
        | intros ?; eapply with_quiet; [apply order_writer_step | emits_other]].
    - intros e _ s (new & Hnew & Hf).
      assert (Hfull : ∀ r, ∃ new0, Ev (Unlink tmp) r :: trace s = new0 ++ tr1
                                   ∧ filled d new0).
      { intros r. exists (Ev (Unlink tmp) r :: new). split; [by rewrite Hnew |].
        apply (filled_more d [_]); [| done]. by repeat constructor. }
      unfold unlink. unfold_monad.
      destruct (fault X (Unlink tmp)); simpl; [apply Hfull |].
      destruct (isfile _ tmp); simpl; apply Hfull.
    - by intros k s Hs _. }
  intros ?.
  eapply hoare_bind; [eapply with_quiet; [apply order_writer_step | emits_other] |].
  intros ?.
  apply hoare_bind_read. intros s0 [(_ & _ & Hg) _]. rewrite Hg.
  eapply hoare_bind; [eapply with_quiet; [apply order_writer_step | emits_other] |].
  intros ?.
  eapply hoare_bind; [eapply with_quiet; [apply order_writer_step | emits_other] |].
  intros ?.
  eapply hoare_bind; [eapply with_quiet; [apply order_writer_step | emits_other] |].
  intros ?.
  eapply hoare_bind; [eapply with_quiet; [apply order_writer_step | emits_other] |].
  intros ?.
  eapply hoare_bind; [eapply with_quiet; [apply order_insert_all | emits_other] |].
  intros ?.
  eapply hoare_conseq; [apply filled_finish_nc | | |]; [| done | by intros k s Hs].
  intros s Hs. exact Hs.
Qed.

End Filled.

Lemma filled_after (d : dba) (new old : list event) :
  Forall (fun ev => not_finish (ev_call ev)) old → filled d new → filled d (new ++ old).
Proof.
  intros Hq Hf p res Hin. apply elem_of_app in Hin as [Hin | Hin].
  - intros v sn Hsn. destruct (Hf p res Hin v sn Hsn) as [data Hdata].
    exists data. apply elem_of_app. by left.
  - rewrite Forall_forall in Hq. by destruct (Hq _ Hin).
Qed.

Lemma hoare_at {A} (P : state -> Prop) (m : M A) (Q : A -> state -> Prop)
    (E : abrupt -> state -> Prop) :
  (∀ s0, P s0 → hoare (fun s => s = s0) m Q E) → hoare P m Q E.
Proof. intros H s Hs. by apply (H s Hs). Qed.

Section ProfileRows.

Context (X : externals) (args : Args) (out_dir tmp_dir dba_file : string) (d : dba).
Context (tr0 : list event).

Local Abbreviation quiet :=
  (fun s : state =>
     ∃ new, trace s = new ++ tr0 ∧ Forall (fun ev => not_finish (ev_call ev)) new).
Local Abbreviation full :=
  (fun s : state => ∃ new, trace s = new ++ tr0 ∧ filled d new).
Local Abbreviation fully := (fun (_ : abrupt) (s : state) => full s).

Lemma filled_write_profile (p_inds : list nat) (dt : datetime) :
  hoare quiet (write_profile X args out_dir tmp_dir dba_file d p_inds dt)
    (fun _ s => full s) fully.
Proof.
  assert (Hquiet : ∀ A (m : M A), emits_only not_finish m →
            hoare quiet m (fun _ s => quiet s) fully).
  { intros A m Hm. eapply hoare_conseq; [apply (quiet_emits tr0 m Hm) | done | done |].
    intros k s Hs. by apply quiet_full. }
  unfold write_profile. cbv zeta.
  apply hoare_bind_read. intros s0 _.
  eapply hoare_bind; [apply Hquiet; emits_other |]. intros tmp.
  apply hoare_bind_read. intros s1 _.
  eapply hoare_bind.
  { apply Hquiet. destruct (clobber args); emits_other. }
  intros ?.
  apply (hoare_bind _ _ (fun _ s => full s)).
  - apply hoare_at. intros s2 (new & Hnew & Hq).
    eapply hoare_conseq;
      [apply (filled_stage X d tmp (trace s2) (deployment_configs_glider (ncw s2))
                dba_file p_inds dt (profile_id (ncw s2)))
      | by intros s -> | |].
    + intros b s (new' & Hnew' & Hf). exists (new' ++ new).
      rewrite Hnew', Hnew, app_assoc. split; [done | by apply filled_after].
    + intros k s (new' & Hnew' & Hf). exists (new' ++ new).
      rewrite Hnew', Hnew, app_assoc. split; [done | by apply filled_after].
  - intros nc_file. apply (full_emits d tr0). emits_other.
Qed.

Lemma filled_process_profile (ts interval : list float) :
  hoare (fun s => trace s = tr0)
    (process_profile X args out_dir tmp_dir dba_file d ts interval)
    (fun _ s => full s) fully.
Proof.
  assert (Hquiet : ∀ A (m : M A), emits_only not_finish m →
            hoare quiet m (fun _ s => quiet s) fully).
  { intros A m Hm. eapply hoare_conseq; [apply (quiet_emits tr0 m Hm) | done | done |].
    intros k s Hs. by apply quiet_full. }
  apply hoare_pre with (P := quiet);
    [| intros s Hs; exists []; split; [exact Hs | constructor]].
  unfold process_profile.
  apply hoare_bind_option; [intros s _ Hs; by apply quiet_full | intros p0 _].
  apply hoare_bind_option; [intros s _ Hs; by apply quiet_full | intros p1 _].
  cbv zeta.
  eapply hoare_bind; [apply Hquiet; emits_other |]. intros ?.
  eapply hoare_bind; [apply Hquiet; emits_other |]. intros ?.
  apply hoare_bind_option; [intros s _ Hs; by apply quiet_full | intros dt _].
  apply filled_write_profile.
Qed.

End ProfileRows.

(** C10. The rows written into the file of a profile are exactly the rows
    of the frame whose timestamp [t] satisfies [p0 <= t <= p1], where [p0]
    and [p1] are the first and the last entry of the profile's interval.
    In every run of the loop body on an interval, however it ends: every
    call of [insert_var_data] carries, under the name of a sensor of the
    frame, the entries of that sensor's column at these rows, in the order
    of the frame; and [finish_nc] is called on the file only after such a
    call was made for every sensor of the frame.  Both ends are included:
    a row whose timestamp is the boundary shared by two consecutive
    intervals is among the rows of both. *)
Theorem profile_rows_closed_interval (X : externals) (args : Args)
    (out_dir tmp_dir dba_file : string) (d : dba) (ts interval : list float)
    (p0 p1 : float) (s : state) :
  let r := process_profile X args out_dir tmp_dir dba_file d ts interval s in
  head interval = Some p0 → last interval = Some p1 →
  (∀ p name data res,
     Ev (InsertVar p name data) res ∈ new_events s r.2 →
     ∃ v sn col rows,
       dba_sensors d !! v = Some sn ∧ name = sensor_name sn
       ∧ Np.column (dba_data d) v = Some col
       ∧ rows_within ts p0 p1 rows
       ∧ Forall2 (fun i x => col !! i = Some x) rows data)
  ∧ (∀ p res,
       Ev (FinishNc p) res ∈ new_events s r.2 →
       ∀ v sn, dba_sensors d !! v = Some sn →
         ∃ data, Ev (InsertVar p (sensor_name sn) data) Done ∈ new_events s r.2)
  ∧ (∀ i b q0 q1 rows0 rows1,
       ts !! i = Some b → Np.isnan b = false →
       Np.le q0 b = true → Np.le b q1 = true →
       rows_within ts q0 b rows0 → rows_within ts b q1 rows1 →
       i ∈ rows0 ∧ i ∈ rows1).
Proof.
  intros r Hhead Hlast. subst r. split; [| split].
  - assert (Hemits : emits_only (writes_rows d (Np.rows_between ts p0 p1))
                       (process_profile X args out_dir tmp_dir dba_file d ts interval)).
    { unfold process_profile. rewrite Hhead, Hlast. simpl of_option.
      do 2 apply emits_bind_ret. cbv zeta.
      repeat first [apply emits_write_profile | emits_step]. }
    destruct (Hemits s) as [(new & Htr & Hnew) _].
    rewrite (new_events_app _ _ _ Htr). intros p name data res Hin.
    rewrite Forall_forall in Hnew.
    exact (writes_rows_interval d ts p0 p1 _ (Hnew _ Hin)).
  - pose proof (filled_process_profile X args out_dir tmp_dir dba_file d (trace s) ts
                  interval s eq_refl) as H.
    assert (Hfull : ∃ new,
              trace (process_profile X args out_dir tmp_dir dba_file d ts interval s).2
              = new ++ trace s ∧ filled d new).
    { by destruct (process_profile X args out_dir tmp_dir dba_file d ts interval s)
        as [[a| |c|e] s']. }
    destruct Hfull as (new & Htr & Hf). rewrite (new_events_app _ _ _ Htr). exact Hf.
  - intros i b q0 q1 rows0 rows1 Hi Hnan H0 H1 [_ Hrows0] [_ Hrows1].
    split; [apply Hrows0 | apply Hrows1]; exists b;
      (split; [done |]); split; auto using le_refl.
Qed.

Lemma profile_rows_closed_interval_witness :
  let X := Fixture.libraries Fixture.no_fault (fun _ => true) Fixture.two_profiles in
  let ts := [Fixture.fl 100; Fixture.fl 110; Fixture.fl 120; Fixture.fl 130] in
  let r := process_profile X (Fixture.command false 0) "/out" "/tmp/tmp0" "/in/ru01.sbd"
             Fixture.derived ts [Fixture.fl 100; Fixture.fl 120] Fixture.staging_ready in
  Ev (InsertVar Fixture.first_tmp "llat_time" [Fixture.fl 100; Fixture.fl 110; Fixture.fl 120])
    Done ∈ new_events Fixture.staging_ready r.2
  ∧ ∃ v sn col rows,
      dba_sensors Fixture.derived !! v = Some sn ∧ "llat_time" = sensor_name sn
      ∧ Np.column (dba_data Fixture.derived) v = Some col
      ∧ rows_within ts (Fixture.fl 100) (Fixture.fl 120) rows
      ∧ Forall2 (fun i x => col !! i = Some x) rows
          [Fixture.fl 100; Fixture.fl 110; Fixture.fl 120].
Proof.
  intros X ts r.
  assert (Hin : Ev (InsertVar Fixture.first_tmp "llat_time"
                      [Fixture.fl 100; Fixture.fl 110; Fixture.fl 120]) Done
                  ∈ new_events Fixture.staging_ready r.2).
  { apply list_elem_of_lookup. exists 11%nat. vm_compute. reflexivity. }
  split; [exact Hin |].
  exact (proj1 (profile_rows_closed_interval X (Fixture.command false 0) "/out" "/tmp/tmp0"
                  "/in/ru01.sbd" Fixture.derived ts [Fixture.fl 100; Fixture.fl 120]
                  (Fixture.fl 100) (Fixture.fl 120) Fixture.staging_ready eq_refl eq_refl)
           _ _ _ _ Hin).
Defined.

(** * The derived-variable step: when it fails *)

Lemma not_appended (sa da : attrs) (sensors : list sensor) (zi : nat) (sz : sensor) :
  ((sensors ++ [{| sensor_name := "salinity"; sensor_attrs := sa |}])
     ++ [{| sensor_name := "density"; sensor_attrs := da |}]) !! zi = Some sz →
  sensor_name sz = "llat_depth" →
  sensors !! zi = Some sz.
Proof.
  intros Hzi Hname. rewrite <- app_assoc in Hzi. simpl in Hzi.
  destruct (decide (zi < length sensors)%nat) as [Hlt|Hge].
  - by rewrite lookup_app_l in Hzi.
  - exfalso. rewrite lookup_app_r in Hzi by lia.
    destruct (zi - length sensors)%nat as [|[|k]]; simpl in Hzi;
      [| | done]; injection Hzi as <-; simpl in Hname; discriminate.
Qed.

(** X4.  Lines 127-141, for a frame with as many sensors as columns and CTD
    data that has its columns 0, 1, 5 and 6.  The step fails with
    [KeyError] when the writer has no definition for [salinity] or, once
    salinity has been appended, none for [density], and with [ValueError]
    when no sensor of the frame is named [llat_depth]; nothing in [main]
    catches these.  It succeeds exactly when both definitions exist, the
    computed salinity and density have one entry per row, a sensor is named
    [llat_depth], and the computed depth has one entry per row or a single
    entry. *)
Theorem derived_variables_failures (X : externals) (n : writer) (d : dba)
    (ctd : list (list float)) (mean_lat mean_lon : float) (c0 c1 c5 c6 : list float) :
  let sal := calculate_practical_salinity X c5 c6 c1 in
  let den := calculate_density X c0 c5 c1 sal mean_lat mean_lon in
  let dep := calculate_depth X c1 mean_lat in
  let rows := Np.nrows (dba_data d) in
  let r := derive X n d ctd mean_lat mean_lon in
  ctd !! 0%nat = Some c0 → ctd !! 1%nat = Some c1 →
  ctd !! 5%nat = Some c5 → ctd !! 6%nat = Some c6 →
  length (dba_sensors d) = Np.ncols (dba_data d) →
  (nc_sensor_defs n !! "salinity" = None → r = inl (Exn KeyError "salinity"))
  ∧ (is_Some (nc_sensor_defs n !! "salinity") → length sal = rows →
     nc_sensor_defs n !! "density" = None → r = inl (Exn KeyError "density"))
  ∧ (is_Some (nc_sensor_defs n !! "salinity") → length sal = rows →
     is_Some (nc_sensor_defs n !! "density") → length den = rows →
     (∀ sn, sn ∈ dba_sensors d → sensor_name sn ≠ "llat_depth") →
     r = inl (Exn ValueError "'llat_depth' is not in list"))
  ∧ ((∃ d', r = inr d')
     ↔ is_Some (nc_sensor_defs n !! "salinity") ∧ is_Some (nc_sensor_defs n !! "density")
       ∧ length sal = rows ∧ length den = rows
       ∧ (∃ sn, sn ∈ dba_sensors d ∧ sensor_name sn = "llat_depth")
       ∧ (length dep = rows ∨ length dep = 1%nat)).
Proof.
  intros sal den dep rows r E0 E1 E5 E6 Hlen. subst r. unfold derive.
  rewrite E0, E1, E5, E6. cbv zeta. fold sal. fold den. fold dep.
  destruct (nc_sensor_defs n !! "salinity") as [sa|].
  2: { cbn [Np.nrows Np.columns]. split; [done |]. split; [intros [? Hx]; discriminate Hx |]. split; [intros [? Hx]; discriminate Hx |].
       split; [intros [? Hx]; discriminate Hx | intros ([? Hx] & _); discriminate Hx]. }
  unfold Np.append_column. fold rows.
  destruct (decide (length sal = rows)) as [Hsal|Hsal].
  2: { cbn [Np.nrows Np.columns]. split; [done |]. split; [done |]. split; [done |].
       split; [intros [? Hx]; discriminate Hx | by intros (_ & _ & ? & _)]. }
  destruct (nc_sensor_defs n !! "density") as [da|].
  2: { cbn [Np.nrows Np.columns]. split; [done |]. split; [done |]. split; [intros _ _ [? Hx]; discriminate Hx |].
       split; [intros [? Hx]; discriminate Hx | intros (_ & [? Hx] & _); discriminate Hx]. }
  cbn [Np.nrows Np.columns]. fold rows.
  destruct (decide (length den = rows)) as [Hden|Hden].
  2: { cbn [Np.nrows Np.columns]. split; [done |]. split; [done |]. split; [done |].
       split; [intros [? Hx]; discriminate Hx | by intros (_ & _ & _ & ? & _)]. }
  set (sensors2 := (dba_sensors d ++ [_]) ++ [_]).
  destruct (list_find _ sensors2) as [[zi sz]|] eqn:Hfind.
  - apply list_find_Some in Hfind as (Hzi & Hname & _).
    apply not_appended in Hzi; [| exact Hname].
    assert (Hin : sz ∈ dba_sensors d) by (by apply list_elem_of_lookup_2 in Hzi).
    assert (Hlt : (zi < length (dba_sensors d))%nat) by (by apply lookup_lt_Some in Hzi).
    split; [done |]. split; [done |].
    split; [intros _ _ _ _ Hnone; by destruct (Hnone sz Hin) |].
    unfold Np.set_column, Np.ncols. cbn [Np.nrows Np.columns]. fold rows.
    rewrite !length_app. cbn [length]. unfold Np.ncols in Hlen.
    destruct (decide (zi < length (Np.columns (dba_data d)) + 1 + 1)%nat); [| lia].
    destruct (decide (length dep = rows)) as [Hdep|Hdep].
    + split; [intros _ | intros _; by eexists].
      repeat (split; [done |]). split; [by exists sz | by left].
    + destruct dep as [|x [|y dep']] eqn:Hd.
      * split; [intros [? Hx]; discriminate Hx |]. intros (_ & _ & _ & _ & _ & [? | ?]); done.
      * split; [intros _ | intros _; by eexists].
        repeat (split; [done |]). split; [by exists sz | by right].
      * split; [intros [? Hx]; discriminate Hx |]. intros (_ & _ & _ & _ & _ & [? | ?]); done.
  - apply list_find_None in Hfind. rewrite Forall_forall in Hfind.
    split; [done |]. split; [done |]. split; [done |].
    split; [intros [? Hx]; discriminate Hx |]. intros (_ & _ & _ & _ & (sn & Hin & Hname) & _).
    destruct (Hfind sn); [| done]. subst sensors2. apply elem_of_app. left.
    apply elem_of_app. by left.
Qed.

Lemma derived_variables_failures_witness :
  let X := Fixture.libraries Fixture.no_fault (fun _ => true) Fixture.two_profiles in
  Fixture.ctd_columns !! 0%nat = Some (map Fixture.fl [100; 110; 120; 130])
  ∧ Fixture.ctd_columns !! 1%nat = Some (map Fixture.fl [1; 5; 9; 2])
  ∧ Fixture.ctd_columns !! 5%nat = Some (map Fixture.fl [3; 3; 3; 3])
  ∧ Fixture.ctd_columns !! 6%nat = Some (map Fixture.fl [10; 10; 10; 10])
  ∧ length (dba_sensors Fixture.segment) = Np.ncols (dba_data Fixture.segment)
  ∧ nc_sensor_defs null_writer !! "salinity" = None
  ∧ derive X null_writer Fixture.segment Fixture.ctd_columns (Fixture.fl 40) (Fixture.fl 70)
    = inl (Exn KeyError "salinity").
Proof.
  intros X.
  assert (E0 : Fixture.ctd_columns !! 0%nat = Some (map Fixture.fl [100; 110; 120; 130]))
    by (vm_compute; reflexivity).
  assert (E1 : Fixture.ctd_columns !! 1%nat = Some (map Fixture.fl [1; 5; 9; 2]))
    by (vm_compute; reflexivity).
  assert (E5 : Fixture.ctd_columns !! 5%nat = Some (map Fixture.fl [3; 3; 3; 3]))
    by (vm_compute; reflexivity).
  assert (E6 : Fixture.ctd_columns !! 6%nat = Some (map Fixture.fl [10; 10; 10; 10]))
    by (vm_compute; reflexivity).
  assert (Hlen : length (dba_sensors Fixture.segment) = Np.ncols (dba_data Fixture.segment))
    by reflexivity.
  assert (Hnone : nc_sensor_defs null_writer !! "salinity" = None) by reflexivity.
  do 6 (split; [assumption |]).
  exact (proj1 (derived_variables_failures X null_writer Fixture.segment Fixture.ctd_columns
                  (Fixture.fl 40) (Fixture.fl 70) _ _ _ _ E0 E1 E5 E6 Hlen) Hnone).
Defined.

(** X10.  The script removes no file that was there before the run: when
    the random names of [tempfile] do not begin with a slash, every file
    that existed when [main] was entered and does not lie below the staging
    directory the run made still exists when [main] is left, however it is
    left. *)
Theorem existing_files_survive (X : externals) (args : Args)
    (fs : gmap string file) (ds : gset string) (wd : string) (seed : nat) (p : string) :
  let r := run X args fs ds wd seed in
  (∀ n, OsPath.starts_with_slash (random_name X n) = false) →
  is_Some (fs !! p) →
  (∀ d, Ev (Mkdtemp d) Done ∈ trace r.2 → OsPath.below d p = false) →
  is_Some (files r.2 !! p).
Proof.
  intros r Hnames Hp Hout. subst r.
  destruct (run_stages X args fs ds wd seed)
    as [(Hfs & _) | (_ & d & s1 & _ & Htr1 & _ & Hfs1 & Hw1 & _ & Hd & Hrun)].
  - by rewrite Hfs.
  - rewrite Hrun in Hout |- *.
    destruct (batch_facts X args (output_dir args (initial fs ds wd seed)) d
                (ctd_sensors_of X args) s1) as (_ & _ & _ & _ & new & Htr & _).
    assert (Hbelow : OsPath.below d p = false).
    { apply Hout. rewrite Htr, Htr1. apply elem_of_app. right. by left. }
    assert (Hs1 : guarded fs d s1).
    { split; [intros q Hq; congruence | intros q Hq _; by rewrite Hfs1]. }
    apply (guarded_run_batch X fs d Hnames Hd args _ _ s1 Hs1); done.
Qed.

Lemma existing_files_survive_witness :
  let X := Fixture.plainly_named
             (Fixture.libraries Fixture.no_fault (fun _ => true) Fixture.two_profiles) in
  let args := Fixture.command false 0 in
  (∀ n, OsPath.starts_with_slash (random_name X n) = false)
  ∧ is_Some (Fixture.disk !! "/in/ru01.sbd")
  ∧ (∀ d, Ev (Mkdtemp d) Done ∈ trace (run X args Fixture.disk Fixture.folders "/home" 0).2 →
          OsPath.below d "/in/ru01.sbd" = false)
  ∧ is_Some (files (run X args Fixture.disk Fixture.folders "/home" 0).2 !! "/in/ru01.sbd").
Proof.
  intros X args.
  assert (Hnames : ∀ n, OsPath.starts_with_slash (random_name X n) = false)
    by (intros n; reflexivity).
  assert (Hp : is_Some (Fixture.disk !! "/in/ru01.sbd")) by (eexists; vm_compute; reflexivity).
  assert (Hout : ∀ d, Ev (Mkdtemp d) Done
                        ∈ trace (run X args Fixture.disk Fixture.folders "/home" 0).2 →
                      OsPath.below d "/in/ru01.sbd" = false).
  { intros d Hev.
    assert (Hall : forallb (fun ev => match ev_call ev with
                                      | Mkdtemp d' => negb (OsPath.below d' "/in/ru01.sbd")
                                      | _ => true
                                      end)
                     (trace (run X args Fixture.disk Fixture.folders "/home" 0).2) = true)
      by (vm_compute; reflexivity).
    rewrite forallb_forall in Hall. apply list_elem_of_In in Hev.
    apply Hall in Hev. simpl in Hev. by apply negb_true_iff in Hev. }
  split; [exact Hnames |]. split; [exact Hp |]. split; [exact Hout |].
  exact (existing_files_survive X args Fixture.disk Fixture.folders "/home" 0 "/in/ru01.sbd"
           Hnames Hp Hout).
Defined.

(** * What [--clobber] is needed for *)

Section Untouched.

Context (X : externals) (fs0 : gmap string file) (tmp_dir : string).
Hypothesis names : ∀ n, OsPath.starts_with_slash (random_name X n) = false.
Hypothesis named : tmp_dir ≠ "".

Local Abbreviation U := (untouched fs0 tmp_dir).
Local Abbreviation staging := (fun p : string => OsPath.below tmp_dir p = true).
Local Abbreviation free := (unprotected fs0 tmp_dir).

Lemma untouched_at (s : state) (p : string) : U s → files s !! p = None → free p.
Proof.
  intros (_ & Hf & _) Hp. destruct (OsPath.below tmp_dir p) eqn:Hb; [by left | right].
  destruct (fs0 !! p) as [f0|] eqn:H0; [| done]. rewrite (Hf p f0 H0 Hb) in Hp. done.
Qed.

Lemma untouched_insert (s s' : state) (p : string) (f : file) :
  U s → free p → (∀ q, out_nc (ncw s') = Some q → staging q) →
  files s' = <[p := f]> (files s) → output_nc_files s' = output_nc_files s →
  U s'.
Proof.
  intros (Hw & Hf & Hl) Hp Hn Hfiles Hlist. split; [exact Hn |]. split.
  - intros q f0 Hq Hb. rewrite Hfiles, lookup_insert_ne; [by apply Hf |].
    intros ->. destruct Hp; congruence.
  - intros q. rewrite Hlist. apply Hl.
Qed.

Lemma untouched_delete (s s' : state) (p : string) :
  U s → staging p → ncw s' = ncw s →
  files s' = delete p (files s) → output_nc_files s' = output_nc_files s →
  U s'.
Proof.
  intros (Hw & Hf & Hl) Hp Hn Hfiles Hlist. split; [by rewrite Hn |]. split.
  - intros q f0 Hq Hb. rewrite Hfiles, lookup_delete_ne by congruence. by apply Hf.
  - intros q. rewrite Hlist. apply Hl.
Qed.

Lemma untouched_init_nc (p : string) : staging p → preserves U (init_nc X p).
Proof.
  intros Hp s Hs. unfold init_nc. unfold_monad.
  destruct (fault X (InitNc p _)); simpl; [done |].
  eapply (untouched_insert s _ p); [done | by left | | reflexivity | reflexivity].
  by intros q [= <-].
Qed.

Lemma untouched_writer_step (c : string -> call) (g : nc_file -> nc_file) :
  preserves U (writer_step X c g).
Proof.
  intros s Hs. unfold writer_step, current_nc, update_nc. unfold_monad.
  destruct (out_nc (ncw s)) as [p|] eqn:Hp; simpl; [| done].
  destruct (fault X (c p)); simpl; [done |].
  destruct (files s !! p) as [[mode [x| |nc|part]]|]; simpl; try done.
  eapply (untouched_insert s _ p);
    [done | left; by apply Hs | apply Hs | reflexivity | reflexivity].
Qed.

Lemma untouched_finish_nc : preserves U (finish_nc X).
Proof.
  intros s Hs. unfold finish_nc, update_nc. unfold_monad.
  destruct (out_nc (ncw s)) as [p|] eqn:Hp; simpl; [| done].
  destruct (fault X (FinishNc p)); simpl; [done |].
  destruct (finish_nc_returns X p); simpl; [| done].
  destruct (files s !! p) as [[mode [x| |nc|part]]|]; simpl; try done.
  eapply (untouched_insert s _ p);
    [done | left; by apply Hs | | reflexivity | reflexivity].
  intros q Hq. discriminate Hq.
Qed.

Lemma untouched_unlink (p : string) : staging p → preserves U (unlink X p).
Proof.
  intros Hp s Hs. unfold unlink. unfold_monad.
  destruct (fault X (Unlink p)); simpl; [done |].
  destruct (isfile s p); simpl; [| done].
  by eapply (untouched_delete s _ p).
Qed.

Lemma untouched_move (tmp out : string) : staging tmp → free out → preserves U (move X tmp out).
Proof.
  intros Htmp Hout s Hs. unfold move. unfold_monad.
  destruct (isdir s out && path_exists s _) eqn:Hex; simpl; [done |].
  assert (Hfree : free (if isdir s out then OsPath.join out (OsPath.basename tmp) else out)).
  { destruct (isdir s out); [| exact Hout]. simpl in Hex.
    unfold path_exists, isfile in Hex. apply orb_false_elim in Hex as [Hex _].
    apply bool_decide_eq_false in Hex. apply (untouched_at s); [done |].
    by apply eq_None_not_Some. }
  destruct (files s !! tmp) as [f|] eqn:Hf; simpl; [| done].
  destruct (fault X (Move tmp out)) as [e|]; simpl.
  - unfold left_by_move. destruct (bool_decide (tmp = _)); [done |].
    destruct (move_reached X tmp out); [done | | |];
      (eapply (untouched_insert s _ _);
       [exact Hs | exact Hfree | apply Hs | reflexivity | reflexivity]).
  - eapply (untouched_insert (set_files (delete tmp) s) _
              (if isdir s out then OsPath.join out (OsPath.basename tmp) else out) f);
      [by eapply (untouched_delete s _ tmp) | exact Hfree | apply Hs
      | reflexivity | reflexivity].
Qed.

Lemma untouched_chmod (p : string) (mode : Z) : free p → preserves U (chmod X p mode).
Proof.
  intros Hp s Hs. unfold chmod. unfold_monad.
  destruct (fault X (Chmod p mode)); simpl; [done |].
  destruct (files s !! p) as [f|] eqn:Hfile; simpl; [| by destruct (isdir s p)].
  eapply (untouched_insert s _ p); [done | done | apply Hs | reflexivity | reflexivity].
Qed.

Lemma untouched_rmtree : preserves U (rmtree X tmp_dir).
Proof.
  intros s (Hw & Hf & Hl). unfold rmtree. unfold_monad.
  destruct (fault X (Rmtree tmp_dir)); simpl; [done |].
  destruct (isdir s tmp_dir); simpl; [| done].
  split; [exact Hw |]. split; [| exact Hl]. intros q f0 Hq Hb. simpl.
  apply map_lookup_filter_Some. split; [by apply Hf | exact Hb].
Qed.

Lemma untouched_mkstemp (pre : string) :
  preserves U (mkstemp X tmp_dir ".nc" (OsPath.basename pre)).
Proof.
  intros s Hs. unfold mkstemp. unfold_monad.
  destruct (isdir s tmp_dir); simpl; [| done].
  destruct (fresh_path _ _ _ _ _ _ _) as [[p n]|] eqn:Hfresh; simpl; [| done].
  apply fresh_path_name in Hfresh as [_ [k ->]].
  destruct (fault X (Mkstemp _)); simpl; [done |].
  eapply (untouched_insert s); [done | | apply Hs | reflexivity | reflexivity].
  left. apply below_join; [exact named | by apply staging_name_start].
Qed.

Lemma untouched_mkstemp_yields (name : string) :
  yields U staging (mkstemp X tmp_dir ".nc" (OsPath.basename name)).
Proof.
  intros s q _. unfold mkstemp. unfold_monad.
  destruct (isdir s tmp_dir); simpl; [| done].
  destruct (fresh_path _ _ _ _ _ _ _) as [[p n]|] eqn:Hfresh; simpl; [| done].
  apply fresh_path_name in Hfresh as [_ [k ->]].
  destruct (fault X (Mkstemp _)); simpl; [done |]. intros [= <-].
  apply below_join; [exact named | by apply staging_name_start].
Qed.

Lemma untouched_listed (out : string) :
  free out → preserves U (modify (set_output_nc_files (fun l => l ++ [out]))).
Proof.
  intros Hout s (Hw & Hf & Hl). split; [exact Hw |]. split; [exact Hf |].
  intros p Hp. simpl in Hp. apply elem_of_app in Hp as [Hp | Hp]; [by apply Hl |].
  apply list_elem_of_singleton in Hp as ->. exact Hout.
Qed.

Ltac untouched_call :=
  first
    [ apply untouched_writer_step | apply untouched_finish_nc | apply untouched_rmtree
    | apply untouched_init_nc; assumption
    | apply untouched_unlink; assumption
    | apply untouched_move; assumption
    | apply untouched_chmod; assumption
    | apply untouched_listed; assumption ].

(** Lines 183-234 for a destination at which no file of [fs0] is. *)
Lemma untouched_finish (dba_file : string) (d : dba) (p_inds : list nat) (dt : datetime)
    (tmp out : string) :
  staging tmp → free out →
  preserves U (nc_file <- stage X dba_file d p_inds dt tmp;; publish X nc_file tmp out).
Proof.
  intros Htmp Hout.
  unfold stage, publish, insert_all, populate, open_nc, update_history, insert_var_data,
    logging.
  repeat preserves_step ltac:(fun _ => untouched_call).
Qed.

(** Lines 167-234 without [--clobber]. *)
Lemma untouched_write_profile (args : Args) (out_dir dba_file : string) (d : dba)
    (p_inds : list nat) (dt : datetime) :
  clobber args = false →
  preserves U (write_profile X args out_dir tmp_dir dba_file d p_inds dt).
Proof.
  intros Hclobber s Hs. unfold write_profile. cbv [bind get].
  pose proof (untouched_mkstemp
                (profile_filename_of (attributes_deployment_glider (ncw s))
                   (strftime X dt "%Y%m%dT%H%M%SZ")
                   (filename_extension (dba_file_metadata d))) s Hs) as Hs1.
  pose proof (untouched_mkstemp_yields
                (profile_filename_of (attributes_deployment_glider (ncw s))
                   (strftime X dt "%Y%m%dT%H%M%SZ")
                   (filename_extension (dba_file_metadata d))) s) as Htmp.
  destruct (mkstemp X tmp_dir ".nc" _ s) as [[tmp| |c|e] s1]; simpl in *; try done.
  specialize (Htmp tmp Hs eq_refl). rewrite Hclobber.
  match goal with |- context [isfile s1 ?o] =>
    set (out := o); destruct (isfile s1 out) eqn:Hex end; simpl; [done |].
  assert (Hout : free out).
  { apply (untouched_at s1); [done |]. unfold isfile in Hex.
    apply bool_decide_eq_false in Hex. by apply eq_None_not_Some. }
  exact (untouched_finish dba_file d p_inds dt tmp out Htmp Hout s1 Hs1).
Qed.

(** Lines 246-249: the modes that change are those of listed files. *)
Lemma untouched_listing (l : list string) :
  Forall free l →
  preserves U (for_each l (fun p => chmod X p (octal 6 6 4);;; stdout_write (p +:+ nl))).
Proof.
  induction 1 as [|p l Hp Hl IH]; intros s Hs; simpl; [done |].
  assert (Hbody : preserves U (chmod X p (octal 6 6 4);;; stdout_write (p +:+ nl))).
  { unfold stdout_write, emit. repeat preserves_step ltac:(fun _ => untouched_call). }
  specialize (Hbody s Hs).
  destruct ((chmod X p (octal 6 6 4);;; stdout_write (p +:+ nl)) s) as [[[]| |c|e] s1];
    simpl in *; try done; by apply IH.
Qed.

Lemma untouched_list_outputs : preserves U (list_outputs X).
Proof.
  intros s Hs. unfold list_outputs. cbv [bind get].
  apply untouched_listing; [| done]. apply Forall_forall. apply Hs.
Qed.

Lemma untouched_run_batch (args : Args) (out_dir : string) (ctd_sensors : list string) :
  clobber args = false →
  preserves U (run_batch X args out_dir ctd_sensors tmp_dir).
Proof.
  intros Hclobber.
  unfold run_batch, process_dba, process_profile, skip_no_position, column_of,
    format_s_exn, logging.
  repeat preserves_step
    ltac:(fun _ => first [ apply untouched_write_profile; assumption
                         | apply untouched_list_outputs | apply untouched_rmtree ]).
Qed.

End Untouched.

(** X11.  Without [--clobber] the script overwrites nothing: when the
    random names of [tempfile] do not begin with a slash, every file that
    existed when [main] was entered and does not lie below the staging
    directory the run made is, when [main] is left and however it is left,
    at its place with the content and the mode it had. *)
Theorem no_clobber_keeps_files (X : externals) (args : Args)
    (fs : gmap string file) (ds : gset string) (wd : string) (seed : nat)
    (p : string) (f0 : file) :
  let r := run X args fs ds wd seed in
  (∀ n, OsPath.starts_with_slash (random_name X n) = false) →
  clobber args = false →
  fs !! p = Some f0 →
  (∀ d, Ev (Mkdtemp d) Done ∈ trace r.2 → OsPath.below d p = false) →
  files r.2 !! p = Some f0.
Proof.
  intros r Hnames Hclobber Hp Hout. subst r.
  destruct (run_stages X args fs ds wd seed)
    as [(Hfs & _) | (_ & d & s1 & _ & Htr1 & _ & Hfs1 & Hw1 & Hl1 & Hd & Hrun)].
  - by rewrite Hfs.
  - rewrite Hrun in Hout |- *.
    destruct (batch_facts X args (output_dir args (initial fs ds wd seed)) d
                (ctd_sensors_of X args) s1) as (_ & _ & _ & _ & new & Htr & _).
    assert (Hbelow : OsPath.below d p = false).
    { apply Hout. rewrite Htr, Htr1. apply elem_of_app. right. by left. }
    assert (Hs1 : untouched fs d s1).
    { split; [intros q Hq; congruence |]. split; [intros q g Hq _; by rewrite Hfs1 |].
      intros q Hq. rewrite Hl1 in Hq. by apply elem_of_nil in Hq. }
    apply (untouched_run_batch X fs d Hnames Hd args _ _ Hclobber s1 Hs1); done.
Qed.

Lemma no_clobber_keeps_files_witness :
  let X := Fixture.plainly_named
             (Fixture.libraries Fixture.no_fault (fun _ => true) Fixture.two_profiles) in
  let args := Fixture.command false 0 in
  (∀ n, OsPath.starts_with_slash (random_name X n) = false)
  ∧ clobber args = false
  ∧ Fixture.used_disk !! Fixture.first_out = Some (File (octal 6 6 4) (Foreign "an older file"))
  ∧ (∀ d, Ev (Mkdtemp d) Done
            ∈ trace (run X args Fixture.used_disk Fixture.folders "/home" 0).2 →
          OsPath.below d Fixture.first_out = false)
  ∧ files (run X args Fixture.used_disk Fixture.folders "/home" 0).2 !! Fixture.first_out
    = Some (File (octal 6 6 4) (Foreign "an older file")).
Proof.
  intros X args.
  assert (Hnames : ∀ n, OsPath.starts_with_slash (random_name X n) = false)
    by (intros n; reflexivity).
  assert (Hp : Fixture.used_disk !! Fixture.first_out
               = Some (File (octal 6 6 4) (Foreign "an older file")))
    by (vm_compute; reflexivity).
  assert (Hout : ∀ d, Ev (Mkdtemp d) Done
                        ∈ trace (run X args Fixture.used_disk Fixture.folders "/home" 0).2 →
                      OsPath.below d Fixture.first_out = false).
  { intros d Hev.
    assert (Hall : forallb (fun ev => match ev_call ev with
                                      | Mkdtemp d' => negb (OsPath.below d' Fixture.first_out)
                                      | _ => true
                                      end)
                     (trace (run X args Fixture.used_disk Fixture.folders "/home" 0).2) = true)
      by (vm_compute; reflexivity).
    rewrite forallb_forall in Hall. apply list_elem_of_In in Hev.
    apply Hall in Hev. simpl in Hev. by apply negb_true_iff in Hev. }
  split; [exact Hnames |]. split; [reflexivity |]. split; [exact Hp |]. split; [exact Hout |].
  exact (no_clobber_keeps_files X args Fixture.used_disk Fixture.folders "/home" 0
           Fixture.first_out _ Hnames eq_refl Hp Hout).
Defined.

(** * The list of outputs when [finish_nc] never declines *)

Lemma stage_answer (X : externals) (dba_file : string) (d : dba) (p_inds : list nat)
    (dt : datetime) (tmp : string) (s s' : state) (b : bool) :
  stage X dba_file d p_inds dt tmp s = (Normal b, s') → b = finish_nc_returns X tmp.
Proof.
  intros Hstage.
  pose proof (order_stage X tmp (trace s) (deployment_configs_glider (ncw s)) dba_file d
                p_inds dt (profile_id (ncw s)) s (conj eq_refl (conj eq_refl eq_refl))) as H.
  rewrite Hstage in H. by destruct H as (vars & _ & _ & Hb).
Qed.

Lemma moved_to_more (new tr : list event) (p : string) :
  moved_to tr p → moved_to (new ++ tr) p.
Proof. intros [src H]. exists src. apply elem_of_app. by right. Qed.

(** Calls and lines of the log keep the account. *)
Lemma accounted_more (s s' : state) (new : list event) :
  accounted s → trace s' = new ++ trace s →
  output_nc_files s' = output_nc_files s → stdout s' = stdout s →
  accounted s'.
Proof.
  intros [Hl Hp] Htr Hlist Hout. split.
  - intros p. rewrite Hlist, Htr. intros Hin. by apply moved_to_more, Hl.
  - intros line. rewrite Hout, Htr. intros Hin. destruct (Hp line Hin) as (p & -> & Hm).
    exists p. split; [done | by apply moved_to_more].
Qed.

Ltac accounted_update :=
  apply preserves_modify;
  let s := fresh "s" in let HA := fresh "HA" in
  intros s HA;
  first [ apply (accounted_more s _ []); [exact HA | reflexivity | reflexivity | reflexivity]
        | eapply (accounted_more s _ [_]);
          [exact HA | reflexivity | reflexivity | reflexivity] ].

Section Accounted.

Context (X : externals).
Hypothesis finishes : ∀ p, finish_nc_returns X p = true.

Lemma accounted_stage (dba_file : string) (d : dba) (p_inds : list nat) (dt : datetime)
    (tmp : string) :
  preserves accounted (stage X dba_file d p_inds dt tmp).
Proof.
  unfold stage, insert_all, finish_nc, populate, open_nc, update_history, unlink, init_nc,
    insert_var_data, writer_step, update_nc, current_nc, failing, emit, logging.
  repeat preserves_step ltac:(fun _ => accounted_update).
Qed.

(** Lines 226-234 when [finish_nc] gave a path: the destination is listed
    after the move to it. *)
Lemma accounted_publish (tmp out : string) : preserves accounted (publish X true tmp out).
Proof.
  intros s Hs. unfold publish. simpl. unfold bind at 1, try_except, bind at 1.
  assert (Hmove : preserves accounted (move X tmp out)).
  { unfold move, failing, emit. repeat preserves_step ltac:(fun _ => accounted_update). }
  assert (Hchmod : preserves accounted (chmod X out (octal 7 5 5))).
  { unfold chmod, failing, emit. repeat preserves_step ltac:(fun _ => accounted_update). }
  assert (Hmoved : ∀ s1, (move X tmp out s).1 = Normal tt → s1 = (move X tmp out s).2 →
                         moved_to (trace s1) out).
  { intros s1. unfold move. unfold_monad.
    destruct (isdir s out && path_exists s _); simpl; [done |].
    destruct (files s !! tmp); simpl; [| done].
    destruct (fault X (Move tmp out)); simpl; [done |].
    intros _ ->. exists tmp. by left. }
  specialize (Hmove s Hs).
  destruct (move X tmp out s) as [[[]| |c|e] s1]; simpl in *; try done.
  - specialize (Hmoved s1 eq_refl eq_refl). specialize (Hchmod s1 Hmove).
    assert (Hgrow : ∃ new, trace (chmod X out (octal 7 5 5) s1).2 = new ++ trace s1).
    { unfold chmod. unfold_monad.
      destruct (fault X (Chmod out (octal 7 5 5))); simpl; [by eexists [_] |].
      destruct (files s1 !! out); simpl; [by eexists [_] |].
      destruct (isdir s1 out); simpl; by eexists [_]. }
    destruct Hgrow as [new Hgrow].
    destruct (chmod X out (octal 7 5 5) s1) as [[[]| |c|e] s2]; simpl in *; try done.
    + destruct Hchmod as [Hl Hp]. split; [| exact Hp]. intros p Hin.
      apply elem_of_app in Hin as [Hin | Hin]; [by apply Hl |].
      apply list_elem_of_singleton in Hin as ->. simpl. rewrite Hgrow.
      by apply moved_to_more.
    + destruct (decide (exn_kind e = OSError)); [| done].
      by apply (accounted_more s2 _ []).
  - destruct (decide (exn_kind e = OSError)); [| done].
    by apply (accounted_more s1 _ []).
Qed.

(** Lines 246-249: the lines printed are paths of the list. *)
Lemma accounted_listing (l : list string) (s : state) :
  accounted s → Forall (moved_to (trace s)) l →
  accounted (for_each l (fun p => chmod X p (octal 6 6 4);;; stdout_write (p +:+ nl)) s).2.
Proof.
  revert s. induction l as [|p l IH]; intros s Hs Hall; simpl; [done |].
  apply Forall_cons in Hall as [Hp Hl].
  assert (Hchmod : preserves accounted (chmod X p (octal 6 6 4))).
  { unfold chmod, failing, emit. repeat preserves_step ltac:(fun _ => accounted_update). }
  assert (Hgrow : ∃ new, trace (chmod X p (octal 6 6 4) s).2 = new ++ trace s).
  { unfold chmod. unfold_monad.
    destruct (fault X (Chmod p (octal 6 6 4))); simpl; [by eexists [_] |].
    destruct (files s !! p); simpl; [by eexists [_] |].
    destruct (isdir s p); simpl; by eexists [_]. }
  destruct Hgrow as [new Hgrow]. specialize (Hchmod s Hs).
  unfold bind at 1. unfold stdout_write. unfold_monad.
  assert (Hrest : Forall (moved_to (trace (chmod X p (octal 6 6 4) s).2)) l).
  { rewrite Hgrow. eapply Forall_impl; [exact Hl |]. intros q Hq. by apply moved_to_more. }
  destruct (chmod X p (octal 6 6 4) s) as [[[]| |c|e] s1]; simpl in *; try done;
    [| by apply IH].
  apply IH.
  - destruct Hchmod as [Hlist Hout]. split.
    + intros q Hq. simpl in *. apply (moved_to_more [_]). by apply Hlist.
    + intros line Hin. simpl in *. apply elem_of_cons in Hin as [-> | Hin].
      * exists p. split; [done |]. rewrite Hgrow. apply (moved_to_more (_ :: new)). exact Hp.
      * destruct (Hout line Hin) as (q & -> & Hq). exists q. split; [done |].
        by apply (moved_to_more [_]).
  - simpl. rewrite Hgrow. eapply Forall_impl; [exact Hl |]. intros q Hq.
    by apply (moved_to_more (_ :: new)).
Qed.

Lemma accounted_list_outputs : preserves accounted (list_outputs X).
Proof.
  intros s Hs. unfold list_outputs. cbv [bind get].
  apply accounted_listing; [done |]. apply Forall_forall. apply Hs.
Qed.

Lemma accounted_run_batch (args : Args) (out_dir tmp_dir : string)
    (ctd_sensors : list string) :
  preserves accounted (run_batch X args out_dir ctd_sensors tmp_dir).
Proof.
  unfold run_batch, process_dba, process_profile, write_profile,
    skip_no_position, column_of, format_s_exn, mkstemp, rmtree, failing, emit, logging.
  repeat preserves_step
    ltac:(fun _ =>
            first [ accounted_update
                  | apply accounted_list_outputs
                  | apply (preserves_bind_yield accounted (fun b => b = true));
                    [ apply accounted_stage
                    | intros ? ? _ Hb; destruct (stage X _ _ _ _ _ _) as [[b'| | |] ?] eqn:Hst;
                      try discriminate Hb; injection Hb as <-;
                      rewrite (stage_answer _ _ _ _ _ _ _ _ _ Hst); apply finishes
                    | intros ? ->; apply accounted_publish ] ]).
Qed.

End Accounted.

(** X13.  When [finish_nc] never declines, the script lists what it moved:
    in a run without [--debug], every path in the list of outputs, and
    every line written to standard output, is the destination of a move
    the run completed (the line is the path followed by a newline). *)
Theorem listed_files_were_moved (X : externals) (args : Args)
    (fs : gmap string file) (ds : gset string) (wd : string) (seed : nat) :
  let r := run X args fs ds wd seed in
  (∀ p, finish_nc_returns X p = true) →
  debug args = false →
  (∀ p, p ∈ output_nc_files r.2 → ∃ src, Ev (Move src p) Done ∈ trace r.2)
  ∧ (∀ line, line ∈ stdout r.2 →
       ∃ p src, line = p +:+ nl ∧ Ev (Move src p) Done ∈ trace r.2).
Proof.
  intros r Hfin Hdebug. subst r.
  assert (Hacc : accounted (run X args fs ds wd seed).2).
  { destruct (run_stages X args fs ds wd seed)
      as [(_ & _ & Hl & [(_ & Hout & _) | [(Hd & _) | (_ & Hout & _)]])
         | (_ & d & s1 & _ & _ & Hout1 & _ & _ & Hl1 & _ & Hrun)].
    - split; [intros p | intros line]; rewrite ?Hl, ?Hout; intros Hp;
        by apply elem_of_nil in Hp.
    - congruence.
    - split; [intros p | intros line]; rewrite ?Hl, ?Hout; intros Hp;
        by apply elem_of_nil in Hp.
    - rewrite Hrun. apply (accounted_run_batch X Hfin). split.
      + intros p. rewrite Hl1. intros Hp. by apply elem_of_nil in Hp.
      + intros line. rewrite Hout1. intros Hp. by apply elem_of_nil in Hp. }
  destruct Hacc as [Hl Hp]. split; [exact Hl |].
  intros line Hin. destruct (Hp line Hin) as (p & -> & src & Hsrc). by exists p, src.
Qed.

Lemma listed_files_were_moved_witness :
  let X := Fixture.libraries Fixture.no_fault (fun _ => true) Fixture.two_profiles in
  let args := Fixture.command false 0 in
  (∀ p, finish_nc_returns X p = true)
  ∧ debug args = false
  ∧ stdout (run X args Fixture.disk Fixture.folders "/home" 0).2
    = [Fixture.second_out +:+ nl; Fixture.first_out +:+ nl]
  ∧ ∃ p src, Fixture.first_out +:+ nl = p +:+ nl
             ∧ Ev (Move src p) Done ∈ trace (run X args Fixture.disk Fixture.folders "/home" 0).2.
Proof.
  intros X args.
  assert (Hfin : ∀ p, finish_nc_returns X p = true) by (intros p; reflexivity).
  assert (Hout : stdout (run X args Fixture.disk Fixture.folders "/home" 0).2
                 = [Fixture.second_out +:+ nl; Fixture.first_out +:+ nl])
    by (vm_compute; reflexivity).
  split; [exact Hfin |]. split; [reflexivity |]. split; [exact Hout |].
  apply (proj2 (listed_files_were_moved X args Fixture.disk Fixture.folders "/home" 0
                  Hfin eq_refl)).
  rewrite Hout. right. left.
Defined.

(** * The directories *)

Lemma mkdtemp_fresh (X : externals) (s s' : state) (d : string) :
  mkdtemp X s = (Normal d, s') → (d ∉ dirs s) ∧ dirs s' = {[d]} ∪ dirs s.
Proof.
  unfold mkdtemp. unfold_monad.
  destruct (isdir s (gettempdir X)); simpl; [| discriminate].
  destruct (fresh_path _ _ _ _ _ _ _) as [[p n]|] eqn:Hfresh; simpl; [| discriminate].
  apply fresh_path_name in Hfresh as [Htaken _].
  destruct (fault X (Mkdtemp p)); simpl; [discriminate |].
  intros [= <- <-]. split; [| done].
  unfold path_exists, isdir in Htaken. apply orb_false_elim in Htaken as [_ Hdir].
  by apply bool_decide_eq_false in Hdir.
Qed.

Section Directories.

Context (X : externals) (s0 : state) (tmp_dir : string).

Local Abbreviation D := (same_directories s0 tmp_dir).

Lemma same_directories_rmtree : preserves D (rmtree X tmp_dir).
Proof.
  intros s [Hin Hout]. unfold rmtree. unfold_monad.
  destruct (fault X (Rmtree tmp_dir)); simpl; [done |].
  destruct (isdir s tmp_dir); simpl; [| done]. split.
  - intros q Hq. simpl in Hq. apply elem_of_difference in Hq as [Hq _].
    apply elem_of_filter in Hq as [_ Hq]. by apply Hin.
  - intros q Hq Hne Hb. simpl. apply elem_of_difference. split.
    + apply elem_of_filter. split; [exact Hb | by apply Hout].
    + intros Heq. apply elem_of_singleton in Heq. done.
Qed.

Lemma same_directories_run_batch (args : Args) (out_dir : string)
    (ctd_sensors : list string) :
  preserves D (run_batch X args out_dir ctd_sensors tmp_dir).
Proof.
  unfold run_batch, list_outputs.
  unfold_script.
  repeat preserves_step ltac:(fun _ => apply same_directories_rmtree).
Qed.

End Directories.

(** X12.  [main] makes one directory at most, its staging directory, and
    removes no other: a directory that exists when [main] is left existed
    before or is the staging directory, and a directory that existed
    before and does not lie below the staging directory still exists. *)
Theorem directories_kept (X : externals) (args : Args)
    (fs : gmap string file) (ds : gset string) (wd : string) (seed : nat) (q : string) :
  let r := run X args fs ds wd seed in
  (q ∈ dirs r.2 → q ∈ ds ∨ Ev (Mkdtemp q) Done ∈ trace r.2)
  ∧ (q ∈ ds →
     (∀ d, Ev (Mkdtemp d) Done ∈ trace r.2 → OsPath.below d q = false) →
     q ∈ dirs r.2).
Proof.
  intros r. subst r. unfold run, main.
  cbv [bind get when modify logging return_ ret stdout_write emit].
  cbn [fst snd].
  set (s0 := initial fs ds wd seed).
  destruct (negb (isdir s0 (config_path args))); [simpl; auto |].
  destruct (bool_decide (output_dir args s0 = "")).
  all: destruct (negb (isdir _ (output_dir args s0))); [simpl; auto |].
  all: destruct (bool_decide (dba_files args = [])); [simpl; auto |].
  all: simpl.
  all: destruct (negb (validate_sensors X _ _)); [simpl; auto |].
  all: destruct (negb (validate_ngdac_var_names X _)); [simpl; auto |].
  all: destruct (debug args); [simpl; auto |].
  all: match goal with |- context [mkdtemp ?Y ?s] =>
         pose proof (mkdtemp_made Y s) as Hmk; pose proof (mkdtemp_failed Y s) as Hmf;
         pose proof (mkdtemp_spec Y s) as Hsp; pose proof (mkdtemp_fresh Y s) as Hfr;
         destruct (mkdtemp Y s) as [[d| |c|e] s1] end;
    try done.
  all: try (destruct (Hmf s1 e eq_refl) as (_ & Hd & _); simpl in *; rewrite Hd; by auto).
  all: destruct (Hmk s1 d eq_refl) as (_ & Htr1 & _); destruct (Hfr s1 d eq_refl) as [Hnew Hds].
  all: simpl in Hnew, Hds.
  all: match goal with |- context [run_batch ?Y ?a ?o ?c ?t ?s] =>
         pose proof (same_directories_run_batch Y s t a o c s) as Hb;
         destruct (batch_facts Y a o t c s) as (_ & _ & _ & _ & new & Htr & _)
       end.
  all: destruct Hb as [Hin Hout]; [by split |].
  all: rewrite Htr, Htr1; split.
  all: try (intros Hq; apply Hin in Hq; rewrite Hds in Hq;
            apply elem_of_union in Hq as [Hq | Hq]; [| by left];
            apply elem_of_singleton in Hq as ->; right; apply elem_of_app; right; by left).
  all: intros Hq Hbelow; apply Hout;
    [ rewrite Hds; apply elem_of_union; by right
    | intros ->; by destruct Hnew
    | apply Hbelow, elem_of_app; right; by left ].
Qed.

Lemma directories_kept_witness :
  let X := Fixture.libraries Fixture.no_fault (fun _ => true) Fixture.two_profiles in
  let args := Fixture.command false 0 in
  "/out" ∈ Fixture.folders
  ∧ (∀ d, Ev (Mkdtemp d) Done ∈ trace (run X args Fixture.disk Fixture.folders "/home" 0).2 →
          OsPath.below d "/out" = false)
  ∧ "/out" ∈ dirs (run X args Fixture.disk Fixture.folders "/home" 0).2.
Proof.
  intros X args.
  assert (Hq : "/out" ∈ Fixture.folders) by (apply (bool_decide_unpack ("/out" ∈ Fixture.folders)); vm_compute; exact I).
  assert (Hout : ∀ d, Ev (Mkdtemp d) Done
                        ∈ trace (run X args Fixture.disk Fixture.folders "/home" 0).2 →
                      OsPath.below d "/out" = false).
  { intros d Hev.
    assert (Hall : forallb (fun ev => match ev_call ev with
                                      | Mkdtemp d' => negb (OsPath.below d' "/out")
                                      | _ => true
                                      end)
                     (trace (run X args Fixture.disk Fixture.folders "/home" 0).2) = true)
      by (vm_compute; reflexivity).
    rewrite forallb_forall in Hall. apply list_elem_of_In in Hev.
    apply Hall in Hev. simpl in Hev. by apply negb_true_iff in Hev. }
  split; [exact Hq |]. split; [exact Hout |].
  exact (proj2 (directories_kept X args Fixture.disk Fixture.folders "/home" 0 "/out") Hq Hout).
Defined.

(** * The name of a profile's file *)

Section Target.

Context (X : externals) (tmp out : string) (tr1 : list event).

(** Since the trace was [tr1], calls for [tmp] and [out] only were made;
    the writer works on [tmp]. *)
Local Abbreviation only :=
  (fun s : state =>
     ∃ new, trace s = new ++ tr1 ∧ Forall (fun ev => staging_call tmp out (ev_call ev)) new).
Local Abbreviation working := (fun s : state => out_nc (ncw s) = Some tmp ∧ only s).
Local Abbreviation ever := (fun (_ : abrupt) (s : state) => only s).

Lemma only_cons (s : state) (c : call) (r : result) :
  only s → staging_call tmp out c →
  ∃ new, Ev c r :: trace s = new ++ tr1
         ∧ Forall (fun ev => staging_call tmp out (ev_call ev)) new.
Proof.
  intros (new & Htr & Hnew) Hc. exists (Ev c r :: new). rewrite Htr.
  split; [done | by constructor].
Qed.

Lemma only_emits {A} (m : M A) :
  emits_only (staging_call tmp out) m → hoare only m (fun _ s => only s) ever.
Proof.
  intros Hm s (new & Htr & Hnew).
  destruct (Hm s) as [(new' & Htr' & Hnew') _].
  assert (Hs : only (m s).2).
  { exists (new' ++ new). rewrite Htr', Htr, app_assoc. split; [done |].
    by apply Forall_app. }
  by destruct (m s) as [[a| |c|e] s'].
Qed.

Lemma target_init_nc : hoare only (init_nc X tmp) (fun _ s => working s) ever.
Proof.
  intros s Hs. unfold init_nc. unfold_monad.
  destruct (fault X (InitNc tmp _)); simpl; [by apply only_cons |].
  split; [done | by apply only_cons].
Qed.

Lemma target_writer_step (c : string -> call) (g : nc_file -> nc_file) :
  staging_call tmp out (c tmp) →
  hoare working (writer_step X c g) (fun _ s => working s)
    (fun k s => k ≠ ACont ∧ only s).
Proof.
  intros Hc s [Hp Hs]. unfold writer_step, current_nc, update_nc. unfold_monad.
  rewrite Hp. simpl.
  destruct (fault X (c tmp)); simpl; [split; [done | by apply only_cons] |].
  destruct (files s !! tmp) as [[mode [x| |nc|part]]|]; simpl;
    try (split; [done | by apply only_cons]).
Qed.

Lemma target_step (c : string -> call) (g : nc_file -> nc_file) :
  staging_call tmp out (c tmp) →
  hoare working (writer_step X c g) (fun _ s => working s) ever.
Proof.
  intros Hc. eapply hoare_conseq; [by apply target_writer_step | done | done |].
  by intros k s [_ ?].
Qed.

Lemma target_insert_all (d : dba) (p_inds : list nat) :
  hoare working (insert_all X d p_inds) (fun _ s => working s) ever.
Proof.
  unfold insert_all.
  eapply hoare_conseq;
    [apply (hoare_for_each _ _ working (fun k s => k ≠ ACont ∧ only s))
    | by intros | by intros | by intros k s [_ [_ ?]]].
  - intros v _.
    apply hoare_bind_option; [intros s _ [_ ?]; by split | intros sn _].
    apply hoare_bind_option; [intros s _ [_ ?]; by split | intros var_data _].
    unfold logging. apply (hoare_bind _ _ (fun _ s => working s)).
    + apply hoare_modify. by intros s Hs.
    + intros ?. by apply target_writer_step.
  - by intros s [? _].
Qed.

Lemma target_finish_nc : hoare working (finish_nc X) (fun _ s => only s) ever.
Proof.
  intros s [Hp Hs]. unfold finish_nc, update_nc. unfold_monad. rewrite Hp.
  destruct (fault X (FinishNc tmp)); simpl; [by apply only_cons |].
  destruct (finish_nc_returns X tmp); simpl; [| by apply only_cons].
  destruct (files s !! tmp) as [[mode [x| |nc|part]]|]; simpl; by apply only_cons.
Qed.

Lemma target_stage (dba_file : string) (d : dba) (p_inds : list nat) (dt : datetime) :
  hoare only (stage X dba_file d p_inds dt tmp) (fun _ s => only s) ever.
Proof.
  unfold stage, open_nc, update_history, populate.
  apply (hoare_bind _ _ (fun _ s => working s)).
  { apply hoare_try with (E1 := ever); [apply target_init_nc | | done].
    intros e _ s Hs. unfold_monad. exact Hs. }
  intros ?. apply (hoare_bind _ _ (fun _ s => working s)).
  { apply hoare_try with (E1 := ever); [| | done].
    - eapply hoare_bind; [by apply target_step | intros ?; by apply target_step].
    - intros e _ s Hs. unfold unlink. unfold_monad.
      destruct (fault X (Unlink tmp)); simpl; [by apply only_cons |].
      destruct (isfile _ tmp); simpl; by apply only_cons. }
  intros ?.
  eapply hoare_bind; [by apply target_step |]. intros ?.
  apply hoare_bind_read. intros s0 _.
  eapply hoare_bind; [by apply target_step |]. intros ?.
  eapply hoare_bind; [by apply target_step |]. intros ?.
  eapply hoare_bind; [by apply target_step |]. intros ?.
  eapply hoare_bind; [by apply target_step |]. intros ?.
  eapply hoare_bind; [apply target_insert_all |]. intros ?.
  apply target_finish_nc.
Qed.

Lemma target_publish (nc_file : bool) :
  hoare only (publish X nc_file tmp out) (fun _ s => only s) ever.
Proof.
  apply only_emits. unfold publish, move, chmod, logging. repeat emits_step.
Qed.

End Target.

Lemma staging_call_written (tmp out : string) (c : call) (p : string) :
  staging_call tmp out c → written_by c = Some p → p = tmp.
Proof. destruct c; simpl; try done; try (by intros -> [= <-]). by intros [-> _] [= <-]. Qed.

Section ProfileName.

Context (X : externals) (args : Args) (out_dir tmp_dir dba_file : string) (d : dba).
Context (tr0 : list event) (glider : string).

Local Abbreviation plain := (fun ev : event => written_by (ev_call ev) = None).
Local Abbreviation before_staging :=
  (fun s : state =>
     attributes_deployment_glider (ncw s) = glider
     ∧ ∃ pre, trace s = pre ++ tr0 ∧ Forall plain pre).
Local Abbreviation out_of :=
  (fun dt : datetime =>
     OsPath.join out_dir
       (profile_filename_of glider (strftime X dt "%Y%m%dT%H%M%SZ")
          (filename_extension (dba_file_metadata d)) +:+ ".nc")).
Local Abbreviation for_profile :=
  (fun (dt : datetime) (s : state) =>
     ∃ new, trace s = new ++ tr0 ∧ profile_calls (out_of dt) new).

Lemma name_write_profile (p_inds : list nat) (dt : datetime) :
  hoare before_staging (write_profile X args out_dir tmp_dir dba_file d p_inds dt)
    (fun _ s => for_profile dt s) (fun _ s => for_profile dt s).
Proof.
  unfold write_profile. cbv zeta.
  apply hoare_bind_read. intros s0 [Hg _]. rewrite Hg.
  apply (hoare_bind _ _
           (fun tmp s => ∃ pre, trace s = Ev (Mkstemp tmp) Done :: pre ++ tr0
                                ∧ Forall plain pre)).
  { intros s (_ & pre & Htr & Hpre).
    assert (Hnone : for_profile dt s) by (exists pre; split; [done | by left]).
    assert (Hfail : ∀ p r, ∃ new, Ev (Mkstemp p) r :: trace s = new ++ tr0
                                  ∧ profile_calls (out_of dt) new).
    { intros p r. exists (Ev (Mkstemp p) r :: pre). rewrite Htr. split; [done |].
      left. by constructor. }
    unfold mkstemp. unfold_monad.
    destruct (isdir s tmp_dir); simpl; [| exact Hnone].
    destruct (fresh_path _ _ _ _ _ _ _) as [[p n]|]; simpl; [| exact Hnone].
    destruct (fault X (Mkstemp p)); simpl; [apply Hfail |].
    exists pre. by rewrite Htr. }
  intros tmp. apply hoare_bind_read. intros s1 _.
  assert (Hstaged : ∀ s, (∃ pre, trace s = Ev (Mkstemp tmp) Done :: pre ++ tr0
                                 ∧ Forall plain pre) → for_profile dt s).
  { intros s (pre & Htr & Hpre). exists (Ev (Mkstemp tmp) Done :: pre).
    split; [done |]. right. exists tmp, [], pre. by repeat split. }
  apply (hoare_bind _ _
           (fun _ s => ∃ pre, trace s = Ev (Mkstemp tmp) Done :: pre ++ tr0
                              ∧ Forall plain pre)).
  { apply hoare_when; [intros _ | intros _ s Hs; exact Hs].
    destruct (clobber args); intros s Hs; unfold_monad; [exact Hs | by apply Hstaged]. }
  intros ?. apply hoare_at. intros s2 (pre & Htr & Hpre).
  assert (Hdone : ∀ s, (∃ new, trace s = new ++ trace s2
                               ∧ Forall (fun ev => staging_call tmp (out_of dt) (ev_call ev))
                                   new) → for_profile dt s).
  { intros s (new & Hnew & Hcalls). exists (new ++ Ev (Mkstemp tmp) Done :: pre).
    rewrite Hnew, Htr, <- app_assoc. split; [done |].
    right. by exists tmp, new, pre. }
  eapply hoare_conseq;
    [eapply hoare_bind; [apply (target_stage X tmp (out_of dt) (trace s2)) |];
     intros nc_file; apply target_publish
    | | |].
  - intros s Hs. rewrite Hs. exists []. by split.
  - intros ? s Hs. by apply Hdone.
  - intros ? s Hs. by apply Hdone.
Qed.

Lemma name_process_profile (ts interval : list float) :
  hoare (fun s => trace s = tr0 ∧ attributes_deployment_glider (ncw s) = glider)
    (process_profile X args out_dir tmp_dir dba_file d ts interval)
    (fun _ s => ∃ dt, utcfromtimestamp X (Np.nanmean interval) = Some dt ∧ for_profile dt s)
    (fun _ s => (∃ new, trace s = new ++ tr0 ∧ Forall plain new)
                ∨ ∃ dt, utcfromtimestamp X (Np.nanmean interval) = Some dt
                        ∧ for_profile dt s).
Proof.
  apply hoare_pre with (P := before_staging);
    [| intros s [Htr Hg]; split; [exact Hg |]; exists []; split; [exact Htr | constructor]].
  assert (Hplain : ∀ s, before_staging s → ∃ new, trace s = new ++ tr0 ∧ Forall plain new).
  { by intros s [_ ?]. }
  unfold process_profile.
  apply hoare_bind_option; [intros s _ Hs; left; by apply Hplain | intros p0 _].
  apply hoare_bind_option; [intros s _ Hs; left; by apply Hplain | intros p1 _].
  cbv zeta.
  apply (hoare_bind _ _ (fun _ s => before_staging s)).
  { apply hoare_when; [intros _ | by intros].
    intros s Hs. unfold_monad. left. by apply Hplain. }
  intros ?.
  apply (hoare_bind _ _ (fun _ s => before_staging s)).
  { apply hoare_when; [intros _ | by intros].
    apply hoare_bind_option; [intros s _ Hs; left; by apply Hplain | intros pid _].
    intros s (Hg & pre & Htr & Hpre). unfold_monad. split; [exact Hg |].
    exists (Ev (SetProfileId pid) Done :: pre). rewrite Htr. split; [done |].
    by constructor. }
  intros ?.
  apply hoare_bind_option; [intros s _ Hs; left; by apply Hplain | intros dt Hdt].
  eapply hoare_conseq; [apply name_write_profile | done | |].
  - intros ? s Hs. by exists dt.
  - intros ? s Hs. right. by exists dt.
Qed.

End ProfileName.

(** X15.  Lines 146-234.  In every run of the loop body on a profile
    interval, however it ends: the destination [shutil.move] is called with
    is [output_path] joined with [<glider>-<T>-<ext>-profile.nc], the
    glider being the writer's, [T] the mean of the interval's timestamps
    (NaN entries ignored) formatted with [%Y%m%dT%H%M%SZ], and [ext] the
    extension recorded for the source file; the file that is moved is the
    staging file [mkstemp] made for this interval, and every call of the
    writer made for the interval was made on that file. *)
Theorem profile_file_name (X : externals) (args : Args)
    (out_dir tmp_dir dba_file : string) (d : dba) (ts interval : list float) (s : state) :
  let r := process_profile X args out_dir tmp_dir dba_file d ts interval s in
  ∀ src dst res,
    Ev (Move src dst) res ∈ new_events s r.2 →
    (∃ dt, utcfromtimestamp X (Np.nanmean interval) = Some dt
           ∧ dst = OsPath.join out_dir
                     (attributes_deployment_glider (ncw s)
                      +:+ "-" +:+ strftime X dt "%Y%m%dT%H%M%SZ"
                      +:+ "-" +:+ filename_extension (dba_file_metadata d)
                      +:+ "-profile" +:+ ".nc"))
    ∧ Ev (Mkstemp src) Done ∈ new_events s r.2
    ∧ ∀ ev p, ev ∈ new_events s r.2 → written_by (ev_call ev) = Some p → p = src.
Proof.
  intros r src dst res. subst r.
  pose proof (name_process_profile X args out_dir tmp_dir dba_file d (trace s)
                (attributes_deployment_glider (ncw s)) ts interval s (conj eq_refl eq_refl))
    as H.
  assert (Hcases :
    ∃ new, trace (process_profile X args out_dir tmp_dir dba_file d ts interval s).2
           = new ++ trace s
           ∧ (Forall (fun ev => written_by (ev_call ev) = None) new
              ∨ ∃ dt, utcfromtimestamp X (Np.nanmean interval) = Some dt
                      ∧ profile_calls
                          (OsPath.join out_dir
                             (profile_filename_of (attributes_deployment_glider (ncw s))
                                (strftime X dt "%Y%m%dT%H%M%SZ")
                                (filename_extension (dba_file_metadata d)) +:+ ".nc"))
                          new)).
  { destruct (process_profile X args out_dir tmp_dir dba_file d ts interval s)
      as [[a| |c|e] s']; simpl in *.
    - destruct H as (dt & Hdt & new & Htr & Hnew). exists new. split; [done |]. right. eauto.
    - destruct H as [(new & Htr & Hnew) | (dt & Hdt & new & Htr & Hnew)]; exists new;
        (split; [done |]); [by left | right; eauto].
    - destruct H as [(new & Htr & Hnew) | (dt & Hdt & new & Htr & Hnew)]; exists new;
        (split; [done |]); [by left | right; eauto].
    - destruct H as [(new & Htr & Hnew) | (dt & Hdt & new & Htr & Hnew)]; exists new;
        (split; [done |]); [by left | right; eauto]. }
  clear H. destruct Hcases as (new & Htr & Hnew). rewrite (new_events_app _ _ _ Htr).
  intros Hin.
  assert (Hnot : ¬ Forall (fun ev => written_by (ev_call ev) = None) new).
  { intros Hall. rewrite Forall_forall in Hall. by specialize (Hall _ Hin). }
  destruct Hnew as [Hplain | (dt & Hdt & [Hplain | (tmp & after & before & -> & Hafter & Hbefore)])];
    [done | done |].
  rewrite Forall_forall in Hafter. rewrite Forall_forall in Hbefore.
  assert (Hwritten : ∀ ev p, ev ∈ after ++ Ev (Mkstemp tmp) Done :: before →
                             written_by (ev_call ev) = Some p → p = tmp).
  { intros ev p Hev Hw. apply elem_of_app in Hev as [Hev | Hev].
    - eapply staging_call_written; [by apply Hafter | exact Hw].
    - apply elem_of_cons in Hev as [-> | Hev]; [discriminate Hw |].
      rewrite (Hbefore _ Hev) in Hw. discriminate Hw. }
  assert (Hsrc : src = tmp) by (by apply (Hwritten _ _ Hin)).
  subst src.
  assert (Hmove : Ev (Move tmp dst) res ∈ after).
  { apply elem_of_app in Hin as [Hin | Hin]; [done |].
    apply elem_of_cons in Hin as [[=] | Hin]. by specialize (Hbefore _ Hin). }
  destruct (Hafter _ Hmove) as [_ ->].
  split; [| split; [| exact Hwritten]].
  - exists dt. split; [done |]. unfold profile_filename_of. f_equal.
    by rewrite !string_append_assoc.
  - apply elem_of_app. right. by left.
Qed.

Lemma profile_file_name_witness :
  let X := Fixture.libraries Fixture.no_fault (fun _ => true) Fixture.two_profiles in
  let ts := [Fixture.fl 100; Fixture.fl 110; Fixture.fl 120; Fixture.fl 130] in
  let s := Fixture.staging_ready in
  let r := process_profile X (Fixture.command false 0) "/out" "/tmp/tmp0" "/in/ru01.sbd"
             Fixture.derived ts [Fixture.fl 100; Fixture.fl 120] s in
  Ev (Move Fixture.first_tmp Fixture.first_out) Done ∈ new_events s r.2
  ∧ (∃ dt, utcfromtimestamp X (Np.nanmean [Fixture.fl 100; Fixture.fl 120]) = Some dt
           ∧ Fixture.first_out
             = OsPath.join "/out"
                 (attributes_deployment_glider (ncw s)
                  +:+ "-" +:+ strftime X dt "%Y%m%dT%H%M%SZ"
                  +:+ "-" +:+ filename_extension (dba_file_metadata Fixture.derived)
                  +:+ "-profile" +:+ ".nc"))
  ∧ Ev (Mkstemp Fixture.first_tmp) Done ∈ new_events s r.2.
Proof.
  intros X ts s r.
  assert (Hin : Ev (Move Fixture.first_tmp Fixture.first_out) Done ∈ new_events s r.2).
  { apply list_elem_of_lookup. exists 1%nat. vm_compute. reflexivity. }
  split; [exact Hin |].
  destruct (profile_file_name X (Fixture.command false 0) "/out" "/tmp/tmp0" "/in/ru01.sbd"
              Fixture.derived ts [Fixture.fl 100; Fixture.fl 120] s
              Fixture.first_tmp Fixture.first_out Done Hin) as (Hname & Hstaged & _).
  split; [exact Hname | exact Hstaged].
Defined.
